(** * Weather intelligence pipeline of the WeatherPrediction page

    A shallow embedding of the location resolver, the weather fetcher and
    daily aggregator, the advisory engine, the fallback generator and the
    orchestrating [fetchWeatherData] handler of the React component
    [WeatherPrediction] (the axios-backed version of the page), followed by
    the properties established about them.

    Modelling conventions.
    - A JavaScript number is a [JsNum]: a rational, or one of the three
      non-finite values.  A reading of a provider's answer is the rational
      its JSON literal denotes.  The arithmetic on readings (the conversion
      of a wind speed to km/h, the sums and the means of the daily
      aggregation) is that of binary64 ([double], IEEE 754 round to
      nearest, ties to even), each reading being first rounded to the
      nearest double as the JSON parser does; the arithmetic of the
      fallback generator on its random draws is exact.
    - A JavaScript string is a [string]; for the location text typed by the
      user every character stands for one code unit below 256.
    - The component state set through the [useState] setters, the trace of
      HTTP requests and the position in the stream of [Math.random] draws
      form a [World]; asynchronous functions are computations in a
      state-and-exception monad [M] over it.  A thrown error keeps the
      state changes made before the throw, as in JavaScript. *)

From Stdlib Require Import List Sorted String Ascii Bool ZArith QArith Qround Qminmax Lia Lqa.
From Stdlib Require DecimalString SpecFloat.
Import ListNotations.
Local Open Scope string_scope.
Local Open Scope Z_scope.
Local Open Scope Q_scope.
Local Open Scope list_scope.

(** ** JavaScript numbers *)

Module Js.

Inductive JsNum : Type :=
| Num (q : Q)
| PosInf
| NegInf
| NaN.

Definition Qltb (a b : Q) : bool := negb (Qle_bool b a).

(** [x > c] and [x < c] for a numeric literal [c]; every comparison with
    [NaN] is false. *)
Definition gt (x : JsNum) (c : Q) : bool :=
  match x with
  | Num q => Qltb c q
  | PosInf => true
  | NegInf => false
  | NaN => false
  end.

Definition lt (x : JsNum) (c : Q) : bool :=
  match x with
  | Num q => Qltb q c
  | PosInf => false
  | NegInf => true
  | NaN => false
  end.

(** [a >= b] between two numbers. *)
Definition ge (a b : JsNum) : bool :=
  match a, b with
  | NaN, _ | _, NaN => false
  | PosInf, _ => true
  | _, NegInf => true
  | NegInf, _ => false
  | _, PosInf => false
  | Num x, Num y => Qle_bool y x
  end.

(** [Math.round] on a finite number: the nearest integer, halves going
    up, which is [floor (q + 1/2)]. *)
Definition round (q : Q) : Z := Qfloor (q + (1 # 2)).

Definition Math_round (x : JsNum) : JsNum :=
  match x with
  | Num q => Num (inject_Z (round q))
  | other => other
  end.

(** [Math.floor] on a finite number. *)
Definition Math_floor (q : Q) : Z := Qfloor q.

(** [Math.max(...l)] and [Math.min(...l)]: the spread of an empty array
    gives the infinities. *)
Definition Math_max (l : list Q) : JsNum :=
  match l with
  | [] => NegInf
  | x :: xs => Num (fold_left Qmax xs x)
  end.

Definition Math_min (l : list Q) : JsNum :=
  match l with
  | [] => PosInf
  | x :: xs => Num (fold_left Qmin xs x)
  end.

(** ** Binary64 arithmetic

    The [+], [*] and [/] applied to readings operate on doubles.  A double is a
    [spec_float] of precision 53 and maximal exponent 1024; sums and
    quotients are rounded to nearest, ties to even. *)

Definition prec : Z := 53.
Definition emax : Z := 1024.

Definition double : Type := SpecFloat.spec_float.

Definition plus_zero : double := SpecFloat.S754_zero false.

(** The double nearest to a rational: the value a decimal literal of a
    JSON body is parsed to, and the value of an integer such as a
    length. *)
Definition nearest (sign : bool) (n d : positive) : double :=
  let '(m, e, l) := SpecFloat.SFdiv_core_binary prec emax (Zpos n) 0 (Zpos d) 0 in
  SpecFloat.binary_round_aux prec emax sign m e l.

Definition to_double (q : Q) : double :=
  match Qnum q with
  | Z0 => plus_zero
  | Zpos n => nearest false n (Qden q)
  | Zneg n => nearest true n (Qden q)
  end.

(** The exact value of a double. *)
Definition of_double (x : double) : JsNum :=
  match x with
  | SpecFloat.S754_zero _ => Num 0
  | SpecFloat.S754_infinity false => PosInf
  | SpecFloat.S754_infinity true => NegInf
  | SpecFloat.S754_nan => NaN
  | SpecFloat.S754_finite s m e =>
      let v := match e with
               | Zneg k => Zpos m # Pos.shiftl 1 (Npos k)
               | _ => inject_Z (Z.shiftl (Zpos m) e)
               end in
      Num (if s then - v else v)
  end.

Definition add_double (x y : double) : double := SpecFloat.SFadd prec emax x y.
Definition mul_double (x y : double) : double := SpecFloat.SFmul prec emax x y.
Definition div_double (x y : double) : double := SpecFloat.SFdiv prec emax x y.

(** [l.reduce((a, b) => a + b, 0)] *)
Definition reduce_sum (l : list double) : double :=
  fold_left add_double l plus_zero.

(** [s / l.length]; a zero sum over a zero length is [NaN]. *)
Definition div_length (s : double) (n : nat) : double :=
  div_double s (to_double (inject_Z (Z.of_nat n))).

(** ** JavaScript values stored in a condition or icon field *)

Inductive JsVal : Type :=
| VStr (s : string)
| VUndefined
| VInherited (name : string).   (* a member inherited from Object.prototype *)

(** Truthiness of a string and of an optional string ([undefined] when
    absent). *)
Definition truthy (s : string) : bool := negb (String.eqb s "").

Definition truthy_opt (o : option string) : bool :=
  match o with
  | Some s => truthy s
  | None => false
  end.

(** Property key of an optional string: [undefined] is coerced to its
    name. *)
Definition to_key (o : option string) : string :=
  match o with
  | Some s => s
  | None => "undefined"
  end.

(** Names every object literal inherits from [Object.prototype]; reading
    one of them through [obj[key]] gives a truthy inherited member. *)
Definition prototype_members : list string :=
  [ "constructor"; "hasOwnProperty"; "isPrototypeOf"; "propertyIsEnumerable";
    "toLocaleString"; "toString"; "valueOf"; "__proto__";
    "__defineGetter__"; "__defineSetter__"; "__lookupGetter__"; "__lookupSetter__" ].

Definition inherited (key : string) : bool :=
  existsb (String.eqb key) prototype_members.

(** [table[key] || dflt] for an object literal [table] of non-empty
    strings. *)
Fixpoint own (table : list (string * string)) (key : string) : option string :=
  match table with
  | [] => None
  | (k, v) :: rest => if String.eqb k key then Some v else own rest key
  end.

Definition lookup_or (table : list (string * string)) (key dflt : string) : JsVal :=
  match own table key with
  | Some v => if truthy v then VStr v else VStr dflt
  | None => if inherited key then VInherited key else VStr dflt
  end.

(** ** Strings: [trim] and [length] *)

(** White space removed by [String.prototype.trim], among the code units
    below 256: TAB, LF, VT, FF, CR, SPACE and NBSP. *)
Definition is_space (c : ascii) : bool :=
  let n := nat_of_ascii c in
  (Nat.leb 9 n && Nat.leb n 13) || Nat.eqb n 32 || Nat.eqb n 160.

Fixpoint trim_start (s : string) : string :=
  match s with
  | EmptyString => EmptyString
  | String c rest => if is_space c then trim_start rest else s
  end.

(** Drops the trailing white space: a character is kept when it is not a
    space or when something is kept after it. *)
Fixpoint trim_end (s : string) : string :=
  match s with
  | EmptyString => EmptyString
  | String c rest =>
      match trim_end rest with
      | EmptyString => if is_space c then EmptyString else String c EmptyString
      | kept => String c kept
      end
  end.

Definition trim (s : string) : string := trim_end (trim_start s).

End Js.

(** ** Data exchanged with the provider and shown by the page *)

Module Weather.
Import Js.

(** An error object: [response] is the HTTP status of an axios error that
    carries a response, absent for a plain [Error] and for a network
    failure. *)
Record JsError : Type := { response : option Z; message : string }.

Definition Error_ (msg : string) : JsError := {| response := None; message := msg |}.

Inductive Outcome (A : Type) : Type :=
| Ok (a : A)
| Throw (e : JsError).
Arguments Ok {A} a.
Arguments Throw {A} e.

(** One candidate of the geocoding answer. *)
Record GeoData : Type := {
  geo_name : string;
  geo_lat : Q;
  geo_lon : Q;
  geo_country : option string;
  geo_state : option string
}.

Record Coordinates : Type := { lat : Q; lon : Q }.

Record LocationInfo : Type := {
  label : string;
  coordinates : Coordinates;
  name : string;
  country : option string;
  state : option string
}.

(** The optional [rain] object of a provider answer. *)
Record Rain : Type := { rain_1h : option Q; rain_3h : option Q }.

(** The fields read from the current-conditions answer; [weather_main]
    and [weather_description] are those of [weather[0]]. *)
Record CurrentData : Type := {
  main_temp_max : Q;
  main_temp_min : Q;
  main_humidity : Q;
  rain : option Rain;
  wind_speed : Q;
  weather_main : string;
  weather_description : string
}.

(** One three-hour entry of the forecast answer's [list]. *)
Record ForecastItem : Type := {
  dt : Z;
  item_temp : Q;
  item_humidity : Q;
  item_rain : option Rain;
  item_wind_speed : Q;
  item_weather_main : string
}.

Record Temperature : Type := { max : JsNum; min : JsNum }.

(** A day of the report: the current reading and every forecast entry. *)
Record Day : Type := {
  date : string;
  day : string;
  temperature : Temperature;
  humidity : JsNum;
  rainfall : JsNum;
  windSpeed : JsNum;
  condition : JsVal;
  icon : JsVal;
  description : option string
}.

Record Report : Type := {
  location : string;
  current : Day;
  forecast : list Day;
  farmingAdvice : list string
}.

(** The accumulator kept per calendar day while the forecast list is
    traversed. *)
Module Bucket.
Record t : Type := {
  date : string;
  day : string;
  temps : list Q;
  humidity : list Q;
  rainfall : list Q;
  windSpeed : list double;
  conditions : list string;
  icons : list string
}.
End Bucket.

(** An HTTP request issued through [axios.get]. *)
Inductive Request : Type :=
| GeoDirect (q : string) (limit : Z)
| CurrentWeather (lat lon : Q)
| Forecast (lat lon : Q).

(** Everything the component reads from outside: the two environment
    variables, the answers of the provider, the stream of [Math.random]
    draws, the clock and the locale's rendering of dates.  [calendarDay]
    stands for [toDateString]: two instants get the same key exactly when
    they fall on the same local calendar day, and such a key is never an
    integer-like or inherited property name, so the buckets are listed in
    insertion order. *)
Record Env : Type := {
  API_KEY : option string;
  BASE_URL : option string;
  geocode : string -> Z -> Outcome (list GeoData);
  current_weather : Q -> Q -> Outcome CurrentData;
  forecast_weather : Q -> Q -> Outcome (list ForecastItem);
  random : nat -> Q;
  now : Z;
  addDays : Z -> Z -> Z;
  calendarDay : Z -> Z;
  toLocaleDateString : Z -> string;
  weekdayShort : Z -> string
}.

(** The component state, the requests sent so far (oldest first) and the
    number of random draws consumed. *)
Record World : Type := {
  weatherData : option Report;
  error : option string;
  loading : bool;
  locationResolving : bool;
  requests : list Request;
  draws : nat
}.

Definition initial : World :=
  {| weatherData := None; error := None; loading := false;
     locationResolving := false; requests := []; draws := O |}.

(** *** The monad of effectful computations *)

Definition M (A : Type) : Type := World -> Outcome A * World.

Definition ret {A} (a : A) : M A := fun w => (Ok a, w).

Definition bind {A B} (c : M A) (k : A -> M B) : M B :=
  fun w =>
    match c w with
    | (Ok a, w') => k a w'
    | (Throw e, w') => (Throw e, w')
    end.

Definition throw {A} (e : JsError) : M A := fun w => (Throw e, w).

Definition try_catch {A} (body : M A) (handler : JsError -> M A) : M A :=
  fun w =>
    match body w with
    | (Ok a, w') => (Ok a, w')
    | (Throw e, w') => handler e w'
    end.

Definition try_finally {A} (body : M A) (finalizer : M unit) : M A :=
  fun w =>
    let (r, w') := body w in
    match finalizer w' with
    | (Ok _, w'') => (r, w'')
    | (Throw e, w'') => (Throw e, w'')
    end.

Notation "x <- c ;; k" := (bind c (fun x => k))
  (at level 61, c at next level, right associativity).
Notation "c ;; k" := (bind c (fun _ => k))
  (at level 61, right associativity).

Definition setWeatherData (r : option Report) : M unit :=
  fun w => (Ok tt,
    {| weatherData := r; error := error w; loading := loading w;
       locationResolving := locationResolving w; requests := requests w;
       draws := draws w |}).

Definition setError (e : option string) : M unit :=
  fun w => (Ok tt,
    {| weatherData := weatherData w; error := e; loading := loading w;
       locationResolving := locationResolving w; requests := requests w;
       draws := draws w |}).

Definition setLoading (b : bool) : M unit :=
  fun w => (Ok tt,
    {| weatherData := weatherData w; error := error w; loading := b;
       locationResolving := locationResolving w; requests := requests w;
       draws := draws w |}).

Definition setLocationResolving (b : bool) : M unit :=
  fun w => (Ok tt,
    {| weatherData := weatherData w; error := error w; loading := loading w;
       locationResolving := b; requests := requests w; draws := draws w |}).

(** [axios.get]: the request is recorded, the environment answers. *)
Definition axios_get {A} (req : Request) (answer : Outcome A) : M A :=
  fun w => (answer,
    {| weatherData := weatherData w; error := error w; loading := loading w;
       locationResolving := locationResolving w;
       requests := requests w ++ [req]; draws := draws w |}).

(** *** Helper functions of the component *)

Definition quote : string := String (ascii_of_nat 34) EmptyString.

(** [getWeatherCondition]: the provider's vocabulary mapped to the page's
    own. *)
Definition conditions : list (string * string) :=
  [ ("Clear", "Sunny");
    ("Clouds", "Cloudy");
    ("Rain", "Rainy");
    ("Drizzle", "Rainy");
    ("Thunderstorm", "Thunderstorm");
    ("Snow", "Snowy");
    ("Mist", "Partly Cloudy");
    ("Fog", "Partly Cloudy");
    ("Haze", "Partly Cloudy") ].

Definition getWeatherCondition (weatherMain : string) : JsVal :=
  lookup_or conditions weatherMain "Partly Cloudy".

Definition emojis : list (string * string) :=
  [ ("Clear", "☀️");
    ("Clouds", "☁️");
    ("Rain", "🌧️");
    ("Drizzle", "🌦️");
    ("Thunderstorm", "⛈️");
    ("Snow", "❄️");
    ("Mist", "🌫️");
    ("Fog", "🌫️");
    ("Haze", "🌫️") ].

Definition getWeatherEmoji (weatherMain : string) : JsVal :=
  lookup_or emojis weatherMain "🌤️".

(** [arr.filter(v => v === a).length] *)
Definition frequency (arr : list string) (a : string) : nat :=
  List.length (filter (fun v => String.eqb v a) arr).

(** [Array.prototype.sort] with a comparison function is stable: [a] is
    placed before [b] when the comparison is negative, after it when
    positive, and elements that compare equal keep their order.  For a
    comparison induced by a key, as here, that fixes the result; it is
    computed by insertion from the right. *)
Fixpoint insert {A} (cmp : A -> A -> Z) (x : A) (l : list A) : list A :=
  match l with
  | [] => [x]
  | y :: rest => if (cmp x y <=? 0)%Z then x :: l else y :: insert cmp x rest
  end.

Fixpoint sort {A} (cmp : A -> A -> Z) (l : list A) : list A :=
  match l with
  | [] => []
  | x :: rest => insert cmp x (sort cmp rest)
  end.

(** [Array.prototype.pop]: the last element, [undefined] on an empty
    array. *)
Fixpoint pop {A} (l : list A) : option A :=
  match l with
  | [] => None
  | [x] => Some x
  | _ :: rest => pop rest
  end.

Definition getMostFrequent (arr : list string) : option string :=
  pop (sort (fun a b => (Z.of_nat (frequency arr a) - Z.of_nat (frequency arr b))%Z) arr).

Definition of_undefined (o : option string) : JsVal :=
  match o with
  | Some s => VStr s
  | None => VUndefined
  end.

(** *** The advisory engine *)

Definition heavy_rain_advice : list string :=
  [ "🌧️ Heavy rainfall expected - ensure proper drainage in fields";
    "🚜 Postpone harvesting activities if possible";
    "🌱 Good time for transplanting rice and other water-loving crops" ].

Definition low_rain_advice : list string :=
  [ "☀️ Low rainfall - consider irrigation for water-sensitive crops";
    "🌾 Good conditions for harvesting mature crops";
    "💧 Monitor soil moisture levels closely" ].

Definition heat_advice : list string :=
  [ "🌡️ High temperatures - provide shade for livestock";
    "🕐 Schedule farm work during cooler hours (early morning/evening)" ].

Definition cold_advice : list string :=
  [ "❄️ Cool weather - protect sensitive crops from cold";
    "🔥 Consider frost protection measures" ].

Definition humid_advice : list string :=
  [ "💨 High humidity - watch for fungal diseases in crops";
    "🍃 Ensure good air circulation in greenhouses" ].

Definition wind_advice : list string :=
  [ "💨 Strong winds expected - secure loose structures";
    "🌿 Protect young plants from wind damage" ].

Definition normal_advice : string :=
  "🌱 Normal weather conditions - continue regular farming activities".

Definition generateFarmingAdvice (currentWeather : Day) : list string :=
  let advice := [] in
  let advice :=
    if gt (rainfall currentWeather) 15 then advice ++ heavy_rain_advice
    else if lt (rainfall currentWeather) 5 then advice ++ low_rain_advice
    else advice in
  let advice :=
    if gt (max (temperature currentWeather)) 35 then advice ++ heat_advice
    else if lt (max (temperature currentWeather)) 20 then advice ++ cold_advice
    else advice in
  let advice :=
    if gt (humidity currentWeather) 80 then advice ++ humid_advice else advice in
  let advice :=
    if gt (windSpeed currentWeather) 20 then advice ++ wind_advice else advice in
  if (0 <? List.length advice)%nat then advice else [normal_advice].

(** *** Resolver, fetcher, fallback generator and orchestrator *)

Section Component.

Variable env : Env.

Definition Math_random : M Q :=
  fun w => (Ok (random env (draws w)),
    {| weatherData := weatherData w; error := error w; loading := loading w;
       locationResolving := locationResolving w; requests := requests w;
       draws := S (draws w) |}).

(** [resolveLocation]: the two validation throws happen before the [try]
    block; every error raised inside it, the component's own included, goes
    through the [catch] block. *)
Definition resolveLocation (locationText : string) : M LocationInfo :=
  if negb (truthy locationText) || negb (truthy (trim locationText)) then
    throw (Error_ "Please enter a location name")
  else
    let trimmedText := trim locationText in
    if (String.length trimmedText <? 2)%nat then
      throw (Error_ "Location name must be at least 2 characters long")
    else
      setLocationResolving true ;;
      try_catch
        (if negb (truthy_opt (API_KEY env)) || negb (truthy_opt (BASE_URL env)) then
           throw (Error_ "API configuration is missing")
         else
           data <- axios_get (GeoDirect trimmedText 5) (geocode env trimmedText 5) ;;
           match data with
           | geoData :: _ =>
               setLocationResolving false ;;
               ret {| label :=
                        (geo_name geoData
                         ++ (if truthy_opt (geo_state geoData)
                             then ", " ++ to_key (geo_state geoData) else "")
                         ++ (if truthy_opt (geo_country geoData)
                             then ", " ++ to_key (geo_country geoData) else ""))%string;
                      coordinates := {| lat := geo_lat geoData; lon := geo_lon geoData |};
                      name := geo_name geoData;
                      country := geo_country geoData;
                      state := geo_state geoData |}
           | [] =>
               setLocationResolving false ;;
               throw (Error_ ("Location " ++ quote ++ trimmedText ++ quote
                              ++ " not found. Please check spelling or try a nearby city.")%string)
           end)
        (fun error =>
           setLocationResolving false ;;
           match response error with
           | Some status =>
               if (status =? 401)%Z then
                 throw (Error_ "Invalid API key. Please check your configuration.")
               else if (status =? 429)%Z then
                 throw (Error_ "Too many requests. Please wait a moment and try again.")
               else if (status =? 404)%Z then
                 throw (Error_ ("Location " ++ quote ++ trimmedText ++ quote
                                ++ " not found. Please try a different location.")%string)
               else ret tt
           | None => ret tt
           end ;;
           throw (Error_ ("Unable to find location " ++ quote ++ trimmedText ++ quote
                          ++ ". " ++ message error)%string)).

(** [rain ? rain[key] || 0 : 0] *)
Definition rain_or_zero (r : option Rain) (key : Rain -> option Q) : Q :=
  match r with
  | Some o => match key o with Some q => q | None => 0 end
  | None => 0
  end.

(** The record built from the current-conditions answer. *)
Definition current_of (data : CurrentData) : Day :=
  {| date := toLocaleDateString env (now env);
     day := weekdayShort env (now env);
     temperature := {| max := Math_round (Num (main_temp_max data));
                       min := Math_round (Num (main_temp_min data)) |};
     humidity := Num (main_humidity data);
     rainfall := match rain data with
                 | Some _ => Math_round (Num (rain_or_zero (rain data) rain_1h))
                 | None => Num 0
                 end;
     windSpeed := Math_round (of_double (mul_double (to_double (wind_speed data))
                                                    (to_double 3.6)));
     condition := getWeatherCondition (weather_main data);
     icon := getWeatherEmoji (weather_main data);
     description := Some (weather_description data) |}.

(** The body of the [forEach] over the forecast list: [dailyForecasts] is
    an association list in insertion order, keyed by calendar day. *)
Definition empty_bucket (instant : Z) : Bucket.t :=
  {| Bucket.date := toLocaleDateString env instant;
     Bucket.day := weekdayShort env instant;
     Bucket.temps := []; Bucket.humidity := []; Bucket.rainfall := [];
     Bucket.windSpeed := []; Bucket.conditions := []; Bucket.icons := [] |}.

Definition push_item (item : ForecastItem) (b : Bucket.t) : Bucket.t :=
  {| Bucket.date := Bucket.date b;
     Bucket.day := Bucket.day b;
     Bucket.temps := Bucket.temps b ++ [item_temp item];
     Bucket.humidity := Bucket.humidity b ++ [item_humidity item];
     Bucket.rainfall := Bucket.rainfall b ++ [rain_or_zero (item_rain item) rain_3h];
     Bucket.windSpeed := Bucket.windSpeed b
                         ++ [mul_double (to_double (item_wind_speed item))
                                        (to_double 3.6)];
     Bucket.conditions := Bucket.conditions b ++ [item_weather_main item];
     Bucket.icons := Bucket.icons b ++ [item_weather_main item] |}.

Fixpoint upsert (dateKey : Z) (fresh : Bucket.t) (f : Bucket.t -> Bucket.t)
    (dailyForecasts : list (Z * Bucket.t)) : list (Z * Bucket.t) :=
  match dailyForecasts with
  | [] => [(dateKey, f fresh)]
  | (k, b) :: rest =>
      if (k =? dateKey)%Z then (k, f b) :: rest
      else (k, b) :: upsert dateKey fresh f rest
  end.

Definition group_by_day (items : list ForecastItem) : list (Z * Bucket.t) :=
  fold_left
    (fun dailyForecasts item =>
       let instant := (dt item * 1000)%Z in
       upsert (calendarDay env instant) (empty_bucket instant) (push_item item)
              dailyForecasts)
    items [].

(** The callback of the [map] that turns a bucket into a forecast day. *)
Definition summarize (b : Bucket.t) : Day :=
  {| date := Bucket.date b;
     day := Bucket.day b;
     temperature := {| max := Math_round (Math_max (Bucket.temps b));
                       min := Math_round (Math_min (Bucket.temps b)) |};
     humidity := Math_round (of_double
                               (div_length (reduce_sum (map to_double (Bucket.humidity b)))
                                           (List.length (Bucket.humidity b))));
     rainfall := Math_round (of_double (reduce_sum (map to_double (Bucket.rainfall b))));
     windSpeed := Math_round (of_double (div_length (reduce_sum (Bucket.windSpeed b))
                                                    (List.length (Bucket.windSpeed b))));
     condition := of_undefined (getMostFrequent (Bucket.conditions b));
     icon := getWeatherEmoji (to_key (getMostFrequent (Bucket.icons b)));
     description := None |}.

(** [Object.values(dailyForecasts).slice(0, 7).map(...)] followed by the
    overwrite of entry 0. *)
Definition forecast_of (current : Day) (items : list ForecastItem) : list Day :=
  let forecast := map summarize (firstn 7 (map snd (group_by_day items))) in
  match forecast with
  | [] => forecast
  | _ :: rest => current :: rest
  end.

(** [fetchRealWeatherData]; its [catch] block rethrows the error as it
    is.  The guard on a missing [locationData] is left out: the argument is
    always a record here.  A successful answer is a record with the fields
    the code reads ([main], [wind], [weather[0]], [list]); a 2xx body
    without them, on which the code would raise a [TypeError] inside the
    [try], has no counterpart here. *)
Definition fetchRealWeatherData (locationData : LocationInfo) : M Report :=
  try_catch
    (let c := coordinates locationData in
     currentResponse <- axios_get (CurrentWeather (lat c) (lon c))
                                  (current_weather env (lat c) (lon c)) ;;
     forecastResponse <- axios_get (Forecast (lat c) (lon c))
                                   (forecast_weather env (lat c) (lon c)) ;;
     let current := current_of currentResponse in
     let forecast := forecast_of current forecastResponse in
     ret {| location := label locationData;
            current := current;
            forecast := forecast;
            farmingAdvice := generateFarmingAdvice current |})
    (fun error => throw error).

(** [array[Math.floor(r * 5)]]: [undefined] outside the array. *)
Definition pick (choices : list string) (r : Q) : JsVal :=
  let i := Math_floor (r * 5) in
  if (i <? 0)%Z then VUndefined
  else of_undefined (nth_error choices (Z.to_nat i)).

(** One iteration of the loop of [generateMockWeatherData]; the seven
    draws are taken in the order in which the object literal evaluates its
    properties. *)
Definition mock_day (baseTemp baseHumidity baseRainfall : Q) (i : Z) : M Day :=
  let instant := addDays env (now env) i in
  r_max <- Math_random ;;
  r_min <- Math_random ;;
  r_humidity <- Math_random ;;
  r_rainfall <- Math_random ;;
  r_wind <- Math_random ;;
  r_condition <- Math_random ;;
  r_icon <- Math_random ;;
  ret {| date := toLocaleDateString env instant;
         day := weekdayShort env instant;
         temperature := {| max := Math_round (Num (baseTemp + r_max * 8 - 4));
                           min := Math_round (Num (baseTemp - 5 + r_min * 4)) |};
         humidity := Math_round (Num (baseHumidity + r_humidity * 20 - 10));
         rainfall := Math_round (Num (baseRainfall + r_rainfall * 10 - 5));
         windSpeed := Math_round (Num (r_wind * 15 + 5));
         condition := pick ["Sunny"; "Partly Cloudy"; "Cloudy"; "Rainy"; "Thunderstorm"]
                           r_condition;
         icon := pick ["☀️"; "⛅"; "☁️"; "🌧️"; "⛈️"] r_icon;
         description := None |}.

(** [for (let i = ...; i < 7; i++) forecast.push(...)], with [remaining]
    iterations left. *)
Fixpoint mock_loop (baseTemp baseHumidity baseRainfall : Q) (remaining : nat) (i : Z)
    (forecast : list Day) : M (list Day) :=
  match remaining with
  | O => ret forecast
  | S remaining' =>
      d <- mock_day baseTemp baseHumidity baseRainfall i ;;
      mock_loop baseTemp baseHumidity baseRainfall remaining' (i + 1)%Z (forecast ++ [d])
  end.

Definition generateMockWeatherData (location : string) : M Report :=
  r_temp <- Math_random ;;
  r_humidity <- Math_random ;;
  r_rainfall <- Math_random ;;
  let baseTemp := r_temp * 15 + 20 in
  let baseHumidity := r_humidity * 30 + 50 in
  let baseRainfall := r_rainfall * 20 in
  forecast <- mock_loop baseTemp baseHumidity baseRainfall 7 0 [] ;;
  match forecast with
  | first :: _ =>
      ret {| location := location;
             current := first;
             forecast := forecast;
             farmingAdvice := generateFarmingAdvice first |}
  | [] => throw (Error_ "Cannot read properties of undefined")
  end.

(** [fetchWeatherData], the handler behind the page's button;
    [selectedLocation] is the text of the input field. *)
Definition fetchWeatherData (selectedLocation : string) : M unit :=
  if negb (truthy (trim selectedLocation)) then
    setError (Some "Please enter a location name")
  else
    setLoading true ;;
    setError None ;;
    try_finally
      (try_catch
         (locationData <- resolveLocation selectedLocation ;;
          realWeatherData <- fetchRealWeatherData locationData ;;
          setWeatherData (Some realWeatherData))
         (fun err =>
            setError (Some (message err)) ;;
            try_catch
              (mockData <- generateMockWeatherData
                             (if truthy selectedLocation then selectedLocation
                              else "Unknown Location") ;;
               setWeatherData (Some mockData) ;;
               setError None)
              (fun mockError =>
                 setError (Some ("Failed to load weather data: " ++ message err)%string))))
      (setLoading false).

End Component.

(** The list of well-known locations of the earlier, dropdown-based
    version of the page.  The axios-backed component does not declare
    it. *)
Definition locations : list (string * string * Coordinates) :=
  [ ("delhi", "Delhi", {| lat := 28.6139; lon := 77.2090 |});
    ("mumbai", "Mumbai", {| lat := 19.0760; lon := 72.8777 |});
    ("bangalore", "Bangalore", {| lat := 12.9716; lon := 77.5946 |});
    ("chennai", "Chennai", {| lat := 13.0827; lon := 80.2707 |});
    ("kolkata", "Kolkata", {| lat := 22.5726; lon := 88.3639 |});
    ("hyderabad", "Hyderabad", {| lat := 17.3850; lon := 78.4867 |});
    ("pune", "Pune", {| lat := 18.5204; lon := 73.8567 |});
    ("jaipur", "Jaipur", {| lat := 26.9124; lon := 75.7873 |}) ].

(** The page's normalized vocabulary of conditions. *)
Definition normalized : list string :=
  [ "Sunny"; "Cloudy"; "Rainy"; "Thunderstorm"; "Snowy"; "Partly Cloudy" ].

Definition is_normalized (v : JsVal) : bool :=
  match v with
  | VStr s => existsb (String.eqb s) normalized
  | _ => false
  end.

End Weather.

Import Js Weather.

(** ** Notions used in the statements *)

(** The six threshold tests of the advisory engine. *)
Definition rule_fires (w : Day) : bool :=
  gt (rainfall w) 15 || lt (rainfall w) 5
  || gt (max (temperature w)) 35 || lt (max (temperature w)) 20
  || gt (humidity w) 80 || gt (windSpeed w) 20.

(** Sum and mean of a group of samples, as the aggregation is
    described, in the arithmetic of the page: the sum of no sample is 0,
    the sum of a group ending in a sample is the sum of the samples before
    it plus that sample, rounded to the nearest double; the mean is the
    quotient of the sum by the number of samples, rounded likewise. *)
Definition total (l : list double) : double :=
  fold_right (fun x s => add_double s x) plus_zero (rev l).

Definition mean (l : list double) : double :=
  div_double (total l) (to_double (inject_Z (Z.of_nat (List.length l)))).

(** The doubles a group of readings is parsed to, and the wind speed in
    km/h of a reading in m/s. *)
Definition doubles (l : list Q) : list double := map to_double l.

Definition kmh (speed : Q) : double := mul_double (to_double speed) (to_double 3.6).

(** The sum of a group of samples in exact arithmetic. *)
Definition exact_total (l : list Q) : Q := fold_right Qplus 0 l.

(** A double that is not negative: a zero, a positive finite double or
    the positive infinity. *)
Definition nonneg_double (x : double) : Prop :=
  match x with
  | SpecFloat.S754_zero _ => True
  | SpecFloat.S754_finite s _ _ => s = false
  | SpecFloat.S754_infinity s => s = false
  | SpecFloat.S754_nan => False
  end.

(** A double that has the sign [s] and is a number. *)
Definition signed (s : bool) (x : double) : Prop :=
  match x with
  | SpecFloat.S754_zero s' => s' = s
  | SpecFloat.S754_finite s' _ _ => s' = s
  | SpecFloat.S754_infinity s' => s' = s
  | SpecFloat.S754_nan => False
  end.

(** Equality of numbers up to the representation of a rational. *)
Definition num_eq (a b : JsNum) : Prop :=
  match a, b with
  | Num x, Num y => x == y
  | PosInf, PosInf | NegInf, NegInf | NaN, NaN => True
  | _, _ => False
  end.

(** The state in which the [try] block of [fetchWeatherData] starts. *)
Definition started (w : World) : World :=
  {| weatherData := weatherData w; error := None; loading := true;
     locationResolving := locationResolving w; requests := requests w;
     draws := draws w |}.

(** The live path of the orchestrator: resolve, then fetch. *)
Definition live (env : Env) (selectedLocation : string) : M Report :=
  locationData <- resolveLocation env selectedLocation ;;
  fetchRealWeatherData env locationData.

(** The parts of the state a random draw leaves alone. *)
Definition same_page (w w' : World) : Prop :=
  weatherData w' = weatherData w /\ error w' = error w /\ loading w' = loading w
  /\ locationResolving w' = locationResolving w /\ requests w' = requests w.

(** *** Concrete environments for the examples *)

Definition utc_addDays (t i : Z) : Z := (t + i * 86400000)%Z.
Definition utc_calendarDay (t : Z) : Z := (t / 86400000)%Z.

(** A provider that cannot be reached and a generator that always draws
    the same number. *)
Definition offline (r : Q) : Env :=
  {| API_KEY := Some "key"; BASE_URL := Some "https://api.openweathermap.org";
     geocode := fun _ _ => Throw (Error_ "Network Error");
     current_weather := fun _ _ => Throw (Error_ "Network Error");
     forecast_weather := fun _ _ => Throw (Error_ "Network Error");
     random := fun _ => r;
     now := 0%Z; addDays := utc_addDays; calendarDay := utc_calendarDay;
     toLocaleDateString := fun _ => "1/1/1970"; weekdayShort := fun _ => "Thu" |}.

(** A geocoder that knows no place at all. *)
Definition no_candidates : Env :=
  {| API_KEY := Some "key"; BASE_URL := Some "https://api.openweathermap.org";
     geocode := fun _ _ => Ok [];
     current_weather := fun _ _ => Throw (Error_ "Network Error");
     forecast_weather := fun _ _ => Throw (Error_ "Network Error");
     random := fun _ => 1 # 2;
     now := 0%Z; addDays := utc_addDays; calendarDay := utc_calendarDay;
     toLocaleDateString := fun _ => "1/1/1970"; weekdayShort := fun _ => "Thu" |}.

(** A geocoder that answers every query with the provider's entry for
    Delhi, and a provider reporting clear weather. *)
Definition delhi_geo : GeoData :=
  {| geo_name := "Delhi"; geo_lat := 28.6517; geo_lon := 77.2219;
     geo_country := Some "IN"; geo_state := Some "Delhi" |}.

Definition clear_now : CurrentData :=
  {| main_temp_max := 31.4; main_temp_min := 29.6; main_humidity := 40;
     rain := None; wind_speed := 2.5;
     weather_main := "Clear"; weather_description := "clear sky" |}.

Definition clear_item (t : Z) (temp : Q) : ForecastItem :=
  {| dt := t; item_temp := temp; item_humidity := 50; item_rain := None;
     item_wind_speed := 2; item_weather_main := "Clear" |}.

Definition online : Env :=
  {| API_KEY := Some "key"; BASE_URL := Some "https://api.openweathermap.org";
     geocode := fun _ _ => Ok [delhi_geo];
     current_weather := fun _ _ => Ok clear_now;
     forecast_weather := fun _ _ =>
       Ok [clear_item 0 24; clear_item 10800 27; clear_item 86400 26];
     random := fun _ => 0;
     now := 0%Z; addDays := utc_addDays; calendarDay := utc_calendarDay;
     toLocaleDateString := fun _ => "1/1/1970"; weekdayShort := fun _ => "Thu" |}.

(** A generator whose fifth draw, the jitter of the first day's minimum,
    is 0.9 while every other draw is 0. *)
Definition low_draws : Env :=
  {| API_KEY := None; BASE_URL := None;
     geocode := fun _ _ => Throw (Error_ "Network Error");
     current_weather := fun _ _ => Throw (Error_ "Network Error");
     forecast_weather := fun _ _ => Throw (Error_ "Network Error");
     random := fun n => if Nat.eqb n 4 then 0.9 else 0;
     now := 0%Z; addDays := utc_addDays; calendarDay := utc_calendarDay;
     toLocaleDateString := fun _ => "1/1/1970"; weekdayShort := fun _ => "Thu" |}.

(** The group of the aggregation scenario, and a group holding a single
    sample of 18.6 degrees. *)
Definition scenario_bucket : Bucket.t :=
  {| Bucket.date := "1/1/1970"; Bucket.day := "Thu";
     Bucket.temps := [18; 22; 25];
     Bucket.humidity := [60; 65; 70];
     Bucket.rainfall := [0; 2; 0];
     Bucket.windSpeed := doubles [5; 10; 15];
     Bucket.conditions := ["Clouds"; "Rain"; "Clouds"];
     Bucket.icons := ["Clouds"; "Rain"; "Clouds"] |}.

Definition fractional_bucket : Bucket.t :=
  {| Bucket.date := "1/1/1970"; Bucket.day := "Thu";
     Bucket.temps := [18.6];
     Bucket.humidity := [60];
     Bucket.rainfall := [0];
     Bucket.windSpeed := doubles [5];
     Bucket.conditions := ["Clear"];
     Bucket.icons := ["Clear"] |}.

(** A group of three samples with decimal readings. *)
Definition decimal_bucket : Bucket.t :=
  {| Bucket.date := "1/1/1970"; Bucket.day := "Thu";
     Bucket.temps := [18.6; 22.4; 25.5];
     Bucket.humidity := [62; 71; 64];
     Bucket.rainfall := [0.1; 4.1; 0.3];
     Bucket.windSpeed := map kmh [3.5; 2.6; 4.5];
     Bucket.conditions := ["Rain"; "Rain"; "Clouds"];
     Bucket.icons := ["Rain"; "Rain"; "Clouds"] |}.

Definition calm_day : Day :=
  {| date := "1/1/1970"; day := "Thu";
     temperature := {| max := Num 28; min := Num 21 |};
     humidity := Num 60; rainfall := Num 8; windSpeed := Num 12;
     condition := VStr "Cloudy"; icon := VStr "☁️"; description := None |}.

Definition stormy_day : Day :=
  {| date := "1/1/1970"; day := "Thu";
     temperature := {| max := Num 38; min := Num 30 |};
     humidity := Num 85; rainfall := Num 20; windSpeed := Num 25;
     condition := VStr "Thunderstorm"; icon := VStr "⛈️"; description := None |}.

(** ** The rest of the pages *)

(** *** String methods used outside the weather page *)

Module JsString.

(** [toLowerCase] on the code units below 256: the letters A-Z and the
    accented capitals (192 to 222, the multiplication sign 215 apart) are
    moved up by 32. *)
Definition lower_char (c : ascii) : ascii :=
  let n := nat_of_ascii c in
  if (Nat.leb 65 n && Nat.leb n 90)
     || (Nat.leb 192 n && Nat.leb n 222 && negb (Nat.eqb n 215))
  then ascii_of_nat (n + 32)
  else c.

Fixpoint toLowerCase (s : string) : string :=
  match s with
  | EmptyString => EmptyString
  | String c rest => String (lower_char c) (toLowerCase rest)
  end.

(** [s.includes(sub)]: [sub] starts at some position of [s]. *)
Fixpoint includes (s sub : string) : bool :=
  if prefix sub s then true
  else match s with
       | EmptyString => false
       | String _ rest => includes rest sub
       end.

(** Decimal rendering of an integer inside a template literal. *)
Definition show_number (z : Z) : string :=
  DecimalString.NilZero.string_of_int (Z.to_int z).

(** [array[i]] for an integer index. *)
Definition element_at (l : list string) (i : Z) : option string :=
  if (i <? 0)%Z then None else nth_error l (Z.to_nat i).

(** [value || dflt] for an optional number: a missing value and zero are
    both falsy. *)
Definition or_number (value : option Z) (dflt : Z) : Z :=
  match value with
  | Some 0%Z => dflt
  | Some v => v
  | None => dflt
  end.

End JsString.

(** *** Rendering helpers of the weather page *)

Module Page.
Import JsString.

Definition icons : list (string * string) :=
  [ ("Sunny", "☀️");
    ("Partly Cloudy", "⛅");
    ("Cloudy", "☁️");
    ("Rainy", "🌧️");
    ("Thunderstorm", "⛈️") ].

(** [getWeatherIcon]: the condition is used as a property key, so
    [undefined] is looked up under its name and an inherited member under
    its source text, which is no key of the table. *)
Definition getWeatherIcon (condition : JsVal) : JsVal :=
  match condition with
  | VStr s => lookup_or icons s "🌤️"
  | VUndefined => lookup_or icons "undefined" "🌤️"
  | VInherited _ => VStr "🌤️"
  end.

Definition getTemperatureColor (temp : JsNum) : string :=
  if gt temp 35 then "hot"
  else if gt temp 25 then "warm"
  else if gt temp 15 then "mild"
  else "cool".

(** The expressions embedded in the four paragraphs of the card "Weather
    Impact on Crops", evaluated on [weatherData.current]. *)
Definition wheat_conditions (current : Day) : string :=
  if gt (max (temperature current)) 30 then "challenging" else "favorable".

Definition wheat_note (current : Day) : string :=
  if gt (rainfall current) 10 then " Excess moisture may cause fungal issues."
  else " Monitor irrigation needs.".

Definition rice_rainfall (current : Day) : string :=
  if gt (rainfall current) 15 then "benefit from current rainfall"
  else "need additional irrigation".

Definition rice_temperature (current : Day) : string :=
  if gt (max (temperature current)) 35 then "too high" else "suitable".

Definition cotton_state (current : Day) : string :=
  if gt (humidity current) 70 then "at risk of pest issues due to high humidity"
  else "in good conditions".

Definition cotton_note (current : Day) : string :=
  if gt (windSpeed current) 15 then " Strong winds may affect flowering." else "".

Definition maize_growth (current : Day) : string :=
  if lt (max (temperature current)) 35 && lt (rainfall current) 20 then "optimal"
  else "stressed".

Definition maize_note (current : Day) : string :=
  if gt (rainfall current) 20 then "Ensure proper drainage." else "".

End Page.

(** *** The assistant's canned answers *)

Module Chatbot.
Import JsString.

Definition price_answer : string :=
  "I can help you with current crop prices! Our system tracks real-time prices for 23+ crops including wheat, rice, cotton, and more. Would you like me to show you specific crop prices or market trends?".

Definition weather_answer : string :=
  "Weather is crucial for farming decisions! I can provide weather forecasts, rainfall predictions, and their impact on crop prices. Check our Weather Prediction section for detailed forecasts.".

Definition performance_answer : string :=
  "Based on our latest analysis, the top performing crops this month show strong growth potential. I recommend checking our Market Analysis dashboard for detailed performance metrics and growth predictions.".

Definition selling_answer : string :=
  "Timing is everything in agriculture! Our price prediction models can help you identify the best selling periods. Generally, consider market trends, seasonal patterns, and upcoming demand cycles.".

Definition greeting_answer : string :=
  "Hello there! I'm here to help with all your agricultural queries. You can ask me about crop prices, market trends, weather forecasts, or farming advice. What would you like to know?".

Definition default_answer : string :=
  "That's an interesting question! While I'm still learning, I can help you with crop prices, market analysis, and farming insights. Try asking about specific crops, prices, or check our dashboard for detailed analytics.".

Definition generateBotResponse (userMessage : string) : string :=
  let message := toLowerCase userMessage in
  if includes message "price" || includes message "cost" then price_answer
  else if includes message "weather" || includes message "forecast" then weather_answer
  else if includes message "top" || includes message "best" || includes message "perform"
  then performance_answer
  else if includes message "sell" || includes message "when" then selling_answer
  else if includes message "hello" || includes message "hi" || includes message "hey"
  then greeting_answer
  else default_answer.

End Chatbot.

(** *** The price dashboard: month labels and the crop dropdown *)

Module Dashboard.
Import JsString.

Definition monthNames : list string :=
  [ "Jan"; "Feb"; "Mar"; "Apr"; "May"; "Jun";
    "Jul"; "Aug"; "Sep"; "Oct"; "Nov"; "Dec" ].

(** The loop of [generateMonthLabels]; [%] is the remainder of the
    truncated division and [Math.floor] of the quotient is the floored
    division. *)
Fixpoint month_loop (currentYear startMonth : Z) (remaining : nat) (i : Z)
    (labels : list string) : list string :=
  match remaining with
  | O => labels
  | S remaining' =>
      let monthIndex := Z.rem (startMonth - 1 + i) 12 in
      let year := (currentYear + (startMonth - 1 + i) / 12)%Z in
      month_loop currentYear startMonth remaining' (i + 1)%Z
        (labels ++ [(to_key (element_at monthNames monthIndex) ++ " "
                     ++ show_number year)%string])
  end.

(** [generateMonthLabels] of the forecast chart; [currentYear] is the
    year of the clock. *)
Definition generateMonthLabels (currentYear startMonth : Z) (count : nat) : list string :=
  month_loop currentYear startMonth count 0 [].

(** The labels of the chart: [current_month || new Date().getMonth() + 1]
    as the start month, one label per predicted price. *)
Definition chart_labels (currentYear clockMonth : Z) (current_month : option Z)
    (prices : nat) : list string :=
  generateMonthLabels currentYear (or_number current_month (clockMonth + 1)) prices.

(** The first cell of row [index] of the table "Detailed Forecast". *)
Definition row_month (current_month : option Z) (index : Z) : option string :=
  let currentMonth := or_number current_month 1 in
  let targetMonth := Z.rem (currentMonth + index) 12 in
  element_at monthNames targetMonth.

Definition row_year (currentYear : Z) (current_month : option Z) (index : Z) : Z :=
  let currentMonth := or_number current_month 1 in
  (currentYear + (if (12 <? currentMonth + index)%Z then 1 else 0))%Z.



End Dashboard.

(** *** Further notions used in the statements *)

(** The calendar day of a forecast entry and the entries of one day. *)
Definition day_of (env : Env) (item : ForecastItem) : Z :=
  calendarDay env (dt item * 1000).

Definition samples_of (env : Env) (k : Z) (items : list ForecastItem) : list ForecastItem :=
  filter (fun item => (day_of env item =? k)%Z) items.

(** A bucket that holds exactly the entries [mine], in their order, and
    was dated by the first of them. *)
Definition holds (env : Env) (b : Bucket.t) (mine : list ForecastItem) : Prop :=
  match mine with
  | [] => False
  | first :: _ =>
      Bucket.date b = toLocaleDateString env (dt first * 1000)
      /\ Bucket.day b = weekdayShort env (dt first * 1000)
      /\ Bucket.temps b = map item_temp mine
      /\ Bucket.humidity b = map item_humidity mine
      /\ Bucket.rainfall b = map (fun it => rain_or_zero (item_rain it) rain_3h) mine
      /\ Bucket.windSpeed b
         = map (fun it => mul_double (to_double (item_wind_speed it)) (to_double 3.6)) mine
      /\ Bucket.conditions b = map item_weather_main mine
      /\ Bucket.icons b = map item_weather_main mine
  end.

(** A number that is an integer between two bounds, and the ranges of a
    generated day. *)
Definition within (x : JsNum) (lo hi : Z) : Prop :=
  exists z : Z, x = Num (inject_Z z) /\ (lo <= z <= hi)%Z.

Definition generated_ranges (d : Day) : Prop :=
  within (max (temperature d)) 16 39
  /\ within (min (temperature d)) 15 34
  /\ within (humidity d) 40 90
  /\ within (rainfall d) (-5) 25
  /\ within (windSpeed d) 5 20
  /\ In (condition d)
        (map VStr ["Sunny"; "Partly Cloudy"; "Cloudy"; "Rainy"; "Thunderstorm"])
  /\ In (icon d) (map VStr ["☀️"; "⛅"; "☁️"; "🌧️"; "⛈️"]).

(** The classes of [getTemperatureColor], from the coolest up. *)
Definition color_rank (c : string) : nat :=
  if String.eqb c "hot" then 3
  else if String.eqb c "warm" then 2
  else if String.eqb c "mild" then 1
  else 0.

(** The requests one query may send, in order. *)
Definition query_requests (text : string) (geoData : GeoData) : list Request :=
  [ GeoDirect (trim text) 5;
    CurrentWeather (geo_lat geoData) (geo_lon geoData);
    Forecast (geo_lat geoData) (geo_lon geoData) ].

(** A geocoder that rejects the API key. *)
Definition unauthorized : Env :=
  {| API_KEY := Some "key"; BASE_URL := Some "https://api.openweathermap.org";
     geocode := fun _ _ =>
       Throw {| response := Some 401%Z;
                message := "Request failed with status code 401" |};
     current_weather := fun _ _ => Throw (Error_ "Network Error");
     forecast_weather := fun _ _ => Throw (Error_ "Network Error");
     random := fun _ => 1 # 2;
     now := 0%Z; addDays := utc_addDays; calendarDay := utc_calendarDay;
     toLocaleDateString := fun _ => "1/1/1970"; weekdayShort := fun _ => "Thu" |}.

(** A provider that answers the geocoding and the current-conditions
    requests and fails on the forecast request. *)
Definition forecast_down : Env :=
  {| API_KEY := Some "key"; BASE_URL := Some "https://api.openweathermap.org";
     geocode := fun _ _ => Ok [delhi_geo];
     current_weather := fun _ _ => Ok clear_now;
     forecast_weather := fun _ _ =>
       Throw {| response := Some 500%Z;
                message := "Request failed with status code 500" |};
     random := fun _ => 1 # 2;
     now := 0%Z; addDays := utc_addDays; calendarDay := utc_calendarDay;
     toLocaleDateString := fun _ => "1/1/1970"; weekdayShort := fun _ => "Thu" |}.

(** ** Numbers and rounding *)

Lemma Qltb_lt (a b : Q) : Qltb a b = true <-> a < b.
Proof.
  unfold Qltb. rewrite negb_true_iff. split.
  - intros H. apply Qnot_le_lt. intros Hle.
    apply Qle_bool_iff in Hle. congruence.
  - intros H. destruct (Qle_bool b a) eqn:E; [|reflexivity].
    apply Qle_bool_iff in E. exfalso. exact (Qlt_not_le _ _ H E).
Qed.

Lemma Qltb_ge (a b : Q) : Qltb a b = false <-> b <= a.
Proof.
  unfold Qltb. rewrite negb_false_iff. apply Qle_bool_iff.
Qed.

Lemma round_mono (a b : Q) : a <= b -> (round a <= round b)%Z.
Proof.
  intros H. unfold round. apply Qfloor_resp_le. lra.
Qed.

Lemma round_comp (a b : Q) : a == b -> round a = round b.
Proof.
  intros H. apply Z.le_antisymm; apply round_mono; rewrite H; apply Qle_refl.
Qed.

Lemma round_upper (q : Q) (z : Z) : q < inject_Z z -> (round q <= z)%Z.
Proof.
  intros H. unfold round.
  assert (Hf := Qfloor_le (q + (1 # 2))).
  assert (Hlt : inject_Z (Qfloor (q + (1 # 2))) < inject_Z (z + 1)).
  { rewrite inject_Z_plus. change (inject_Z 1) with 1. lra. }
  rewrite <- Zlt_Qlt in Hlt. lia.
Qed.

(** ** The advisory engine *)

Lemma In_existsb (x : string) (l : list string) :
  In x l <-> existsb (String.eqb x) l = true.
Proof.
  rewrite existsb_exists. split.
  - intros H. exists x. split; [exact H | apply String.eqb_refl].
  - intros [y [Hy E]]. apply String.eqb_eq in E. subst. exact Hy.
Qed.

Lemma not_In_by_computation (x : string) (l : list string) :
  existsb (String.eqb x) l = false -> ~ In x l.
Proof.
  intros E H. apply In_existsb in H. congruence.
Qed.

(** C9. The advice list depends on nothing but the rainfall, the maximum
    temperature, the humidity and the wind speed of the summary it is
    given, so the same summary always gets the same list; the
    normal-conditions message is absent as soon as one of the six
    threshold rules fires, and is the whole list when none does. *)
Theorem generateFarmingAdvice_rules (w : Day) :
  (forall w' : Day,
      rainfall w' = rainfall w ->
      max (temperature w') = max (temperature w) ->
      humidity w' = humidity w ->
      windSpeed w' = windSpeed w ->
      generateFarmingAdvice w' = generateFarmingAdvice w)
  /\ (rule_fires w = true -> ~ In normal_advice (generateFarmingAdvice w))
  /\ (rule_fires w = false -> generateFarmingAdvice w = [normal_advice]).
Proof.
  split; [|split].
  - intros w' Hr Ht Hh Hw. unfold generateFarmingAdvice.
    rewrite Hr, Ht, Hh, Hw. reflexivity.
  - unfold rule_fires, generateFarmingAdvice.
    destruct (gt (rainfall w) 15), (lt (rainfall w) 5),
      (gt (max (temperature w)) 35), (lt (max (temperature w)) 20),
      (gt (humidity w) 80), (gt (windSpeed w) 20);
      intros Hfire; try discriminate Hfire;
      apply not_In_by_computation; vm_compute; reflexivity.
  - unfold rule_fires, generateFarmingAdvice.
    destruct (gt (rainfall w) 15), (lt (rainfall w) 5),
      (gt (max (temperature w)) 35), (lt (max (temperature w)) 20),
      (gt (humidity w) 80), (gt (windSpeed w) 20);
      intros Hfire; try discriminate Hfire; reflexivity.
Qed.

Lemma generateFarmingAdvice_rules_witness :
  (rule_fires stormy_day = true
   /\ ~ In normal_advice (generateFarmingAdvice stormy_day))
  /\ (rule_fires calm_day = false
      /\ generateFarmingAdvice calm_day = [normal_advice]).
Proof.
  split.
  - split; [reflexivity|].
    apply (proj1 (proj2 (generateFarmingAdvice_rules stormy_day))). reflexivity.
  - split; [reflexivity|].
    apply (proj2 (proj2 (generateFarmingAdvice_rules calm_day))). reflexivity.
Defined.

(** The four-rule scenario: rainfall 20, maximum 38, humidity 85 and wind
    25 give the drainage, shade, fungal-disease and secure-structures
    warnings. *)
Lemma generateFarmingAdvice_four_rules :
  In "🌧️ Heavy rainfall expected - ensure proper drainage in fields"
     (generateFarmingAdvice stormy_day)
  /\ In "🌡️ High temperatures - provide shade for livestock"
        (generateFarmingAdvice stormy_day)
  /\ In "💨 High humidity - watch for fungal diseases in crops"
        (generateFarmingAdvice stormy_day)
  /\ In "💨 Strong winds expected - secure loose structures"
        (generateFarmingAdvice stormy_day).
Proof.
  repeat split; apply In_existsb; vm_compute; reflexivity.
Qed.

(** ** Sorting by a key and taking the last element *)

Section SortByKey.

Context {A : Type}.
Variable key : A -> nat.

Let cmp (a b : A) : Z := (Z.of_nat (key a) - Z.of_nat (key b))%Z.

Lemma cmp_le (a b : A) : (cmp a b <=? 0)%Z = true <-> (key a <= key b)%nat.
Proof. unfold cmp. rewrite Z.leb_le. lia. Qed.

Lemma insert_In (x y : A) (l : list A) :
  In y (insert cmp x l) <-> y = x \/ In y l.
Proof.
  induction l as [|z l IH]; simpl.
  - intuition.
  - destruct (cmp x z <=? 0)%Z; simpl; [intuition|].
    rewrite IH. intuition.
Qed.


Lemma insert_length (x : A) (l : list A) :
  List.length (insert cmp x l) = S (List.length l).
Proof.
  induction l as [|z l IH]; simpl; [reflexivity|].
  destruct (cmp x z <=? 0)%Z; simpl; [reflexivity|]. now rewrite IH.
Qed.

(** The result is ordered by key ... *)
Lemma insert_sorted (x : A) (l : list A) :
  StronglySorted (fun a b => (key a <= key b)%nat) l ->
  StronglySorted (fun a b => (key a <= key b)%nat) (insert cmp x l).
Proof.
  induction 1 as [|z l Hs IH Hall]; simpl.
  - constructor; constructor.
  - destruct (cmp x z <=? 0)%Z eqn:E.
    + apply cmp_le in E. constructor; [constructor; assumption|].
      constructor; [exact E|].
      rewrite Forall_forall in *. intros y Hy. specialize (Hall y Hy). lia.
    + assert (key z < key x)%nat.
      { destruct (Nat.le_gt_cases (key x) (key z)) as [Hle|Hgt]; [|exact Hgt].
        apply cmp_le in Hle. congruence. }
      constructor; [exact IH|].
      rewrite Forall_forall in *. intros y Hy.
      apply insert_In in Hy. destruct Hy as [->|Hy]; [lia|auto].
Qed.

Lemma sort_sorted (l : list A) :
  StronglySorted (fun a b => (key a <= key b)%nat) (sort cmp l).
Proof.
  induction l as [|x l IH]; simpl; [constructor|].
  apply insert_sorted, IH.
Qed.

(** ... and elements of equal key keep their relative order. *)
Lemma insert_stable (n : nat) (x : A) (l : list A) :
  filter (fun a => Nat.eqb (key a) n) (insert cmp x l)
  = filter (fun a => Nat.eqb (key a) n) (x :: l).
Proof.
  induction l as [|z l IH]; simpl; [reflexivity|].
  destruct (cmp x z <=? 0)%Z eqn:E; [reflexivity|].
  simpl. rewrite IH. simpl.
  destruct (Nat.eqb (key x) n) eqn:Ex, (Nat.eqb (key z) n) eqn:Ez; try reflexivity.
  apply Nat.eqb_eq in Ex, Ez.
  assert (key x <= key z)%nat as Hle by lia.
  apply cmp_le in Hle. congruence.
Qed.

Lemma sort_stable (n : nat) (l : list A) :
  filter (fun a => Nat.eqb (key a) n) (sort cmp l)
  = filter (fun a => Nat.eqb (key a) n) l.
Proof.
  induction l as [|x l IH]; simpl; [reflexivity|].
  rewrite insert_stable. simpl. now rewrite IH.
Qed.





End SortByKey.



(** Two ties and a clear majority, evaluated. *)
Lemma getMostFrequent_examples :
  getMostFrequent ["Rain"; "Clouds"; "Clouds"; "Rain"] = Some "Rain"
  /\ getMostFrequent ["Rain"; "Clouds"; "Rain"; "Clouds"] = Some "Clouds"
  /\ getMostFrequent ["Clear"; "Rain"; "Clear"; "Clouds"] = Some "Clear"
  /\ getMostFrequent [] = None.
Proof. repeat split. Qed.

(** ** The daily aggregation *)

Lemma Qmax_cases (x y : Q) : Qmax x y = x \/ Qmax x y = y.
Proof.
  unfold Qmax, GenericMinMax.gmax. destruct (x ?= y); auto.
Qed.

Lemma Qmin_cases (x y : Q) : Qmin x y = x \/ Qmin x y = y.
Proof.
  unfold Qmin, GenericMinMax.gmin. destruct (x ?= y); auto.
Qed.

Lemma fold_max_greatest (xs : list Q) (x : Q) :
  In (fold_left Qmax xs x) (x :: xs)
  /\ forall t, In t (x :: xs) -> t <= fold_left Qmax xs x.
Proof.
  revert x. induction xs as [|y xs IH]; intros x; simpl.
  - split; [now left|]. intros t [<-|[]]. apply Qle_refl.
  - destruct (IH (Qmax x y)) as [Hin Hub]. split.
    + destruct Hin as [E|Hin]; [|now right; right].
      rewrite <- E. destruct (Qmax_cases x y) as [-> | ->]; auto.
    + intros t [<-|[<-|Ht]].
      * apply Qle_trans with (Qmax x y); [apply Q.le_max_l|]. apply Hub. now left.
      * apply Qle_trans with (Qmax x y); [apply Q.le_max_r|]. apply Hub. now left.
      * apply Hub. now right.
Qed.

Lemma fold_min_least (xs : list Q) (x : Q) :
  In (fold_left Qmin xs x) (x :: xs)
  /\ forall t, In t (x :: xs) -> fold_left Qmin xs x <= t.
Proof.
  revert x. induction xs as [|y xs IH]; intros x; simpl.
  - split; [now left|]. intros t [<-|[]]. apply Qle_refl.
  - destruct (IH (Qmin x y)) as [Hin Hlb]. split.
    + destruct Hin as [E|Hin]; [|now right; right].
      rewrite <- E. destruct (Qmin_cases x y) as [-> | ->]; auto.
    + intros t [<-|[<-|Ht]].
      * apply Qle_trans with (Qmin x y); [|apply Q.le_min_l]. apply Hlb. now left.
      * apply Qle_trans with (Qmin x y); [|apply Q.le_min_r]. apply Hlb. now left.
      * apply Hlb. now right.
Qed.

(** *** Sums and means in binary64 *)

Lemma reduce_sum_total (l : list double) : reduce_sum l = total l.
Proof.
  unfold reduce_sum, total. symmetry.
  apply (fold_left_rev_right (fun x s => add_double s x)).
Qed.

Lemma div_length_mean (l : list double) :
  div_length (reduce_sum l) (List.length l) = mean l.
Proof.
  unfold div_length, mean. now rewrite reduce_sum_total.
Qed.

Lemma div_length_mean_readings (l : list Q) :
  div_length (reduce_sum (map to_double l)) (List.length l) = mean (doubles l).
Proof.
  unfold doubles. rewrite <- (length_map to_double l). apply div_length_mean.
Qed.

(** Rounding keeps the sign it is given: shifting a mantissa to the right
    and rounding it to nearest never makes it negative. *)
Lemma signed_nonneg (x : double) : signed false x -> nonneg_double x.
Proof.
  destruct x; simpl; auto.
Qed.

Lemma iter_pos_invariant {A : Type} (P : A -> Prop) (f : A -> A) :
  (forall x, P x -> P (f x)) ->
  forall (n : positive) (x : A), P x -> P (SpecFloat.iter_pos f n x).
Proof.
  intros Hf. induction n as [n IH|n IH|]; intros x Hx; simpl; auto.
Qed.

Lemma shr_1_nonneg (mrs : SpecFloat.shr_record) :
  (0 <= SpecFloat.shr_m mrs)%Z -> (0 <= SpecFloat.shr_m (SpecFloat.shr_1 mrs))%Z.
Proof.
  destruct mrs as [[|[p|p|]|[p|p|]] r s]; simpl; lia.
Qed.

Lemma shr_fexp_nonneg (m e : Z) (l : SpecFloat.location) :
  (0 <= m)%Z ->
  (0 <= SpecFloat.shr_m (fst (SpecFloat.shr_fexp prec emax m e l)))%Z.
Proof.
  intros Hm. unfold SpecFloat.shr_fexp, SpecFloat.shr.
  assert (H0 : (0 <= SpecFloat.shr_m (SpecFloat.shr_record_of_loc m l))%Z)
    by (destruct l as [|[]]; exact Hm).
  destruct (SpecFloat.fexp prec emax (SpecFloat.Zdigits2 m + e) - e)%Z as [|n|n];
    simpl; [exact H0| |exact H0].
  apply (iter_pos_invariant (fun r => (0 <= SpecFloat.shr_m r)%Z));
    [apply shr_1_nonneg|exact H0].
Qed.

Lemma round_nearest_even_nonneg (m : Z) (l : SpecFloat.location) :
  (0 <= m)%Z -> (0 <= SpecFloat.round_nearest_even m l)%Z.
Proof.
  intros Hm. destruct l as [|[]]; simpl; [lia| |lia|lia].
  destruct (Z.even m); lia.
Qed.

Lemma binary_round_aux_signed (s : bool) (m e : Z) (l : SpecFloat.location) :
  (0 <= m)%Z -> signed s (SpecFloat.binary_round_aux prec emax s m e l).
Proof.
  intros Hm. unfold SpecFloat.binary_round_aux.
  pose proof (shr_fexp_nonneg m e l Hm) as H1.
  destruct (SpecFloat.shr_fexp prec emax m e l) as [mrs1 e1]. simpl in H1.
  pose proof (shr_fexp_nonneg _ e1 SpecFloat.loc_Exact
                (round_nearest_even_nonneg _ (SpecFloat.loc_of_shr_record mrs1) H1)) as H2.
  destruct (SpecFloat.shr_fexp prec emax _ e1 SpecFloat.loc_Exact) as [mrs2 e2].
  simpl in H2.
  destruct (SpecFloat.shr_m mrs2) as [|k|k]; [reflexivity| |lia].
  destruct (e2 <=? emax - prec)%Z; reflexivity.
Qed.

Lemma nearest_signed (s : bool) (n d : positive) : signed s (nearest s n d).
Proof.
  unfold nearest, SpecFloat.SFdiv_core_binary.
  set (e' := Z.min _ _). set (m' := match (0 - 0 - e')%Z with Z0 => _ | _ => _ end).
  assert (Hm' : (0 <= m')%Z).
  { subst m'. destruct (0 - 0 - e')%Z; [lia| |lia]. apply Z.shiftl_nonneg. lia. }
  pose proof (Z.div_pos m' (Zpos d) Hm' eq_refl) as Hq. unfold Z.div in Hq.
  destruct (Z.div_eucl m' (Zpos d)) as [q r].
  apply binary_round_aux_signed, Hq.
Qed.

Lemma to_double_nonneg (q : Q) : 0 <= q -> nonneg_double (to_double q).
Proof.
  destruct q as [[|n|n] d]; intros Hq; unfold to_double; simpl.
  - exact I.
  - apply signed_nonneg, nearest_signed.
  - exfalso. unfold Qle in Hq. simpl in Hq. lia.
Qed.

Lemma add_double_nonneg (x y : double) :
  nonneg_double x -> nonneg_double y -> nonneg_double (add_double x y).
Proof.
  destruct x as [sx|sx| |sx mx ex], y as [sy|sy| |sy my ey]; simpl;
    intros Hx Hy; subst; try exact I; try reflexivity; try contradiction.
  - now destruct sx, sy.
  - unfold add_double, SpecFloat.SFadd, SpecFloat.cond_Zopp.
    cbn [Z.add SpecFloat.binary_normalize]. unfold SpecFloat.binary_round.
    destruct (SpecFloat.shl_align _ _ _) as [mz ez].
    apply signed_nonneg, binary_round_aux_signed. lia.
Qed.

Lemma total_nonneg (l : list Q) :
  (forall r, In r l -> 0 <= r) -> nonneg_double (total (doubles l)).
Proof.
  intros H. unfold total, doubles. rewrite <- map_rev.
  assert (H' : forall r, In r (rev l) -> 0 <= r)
    by (intros r Hr; apply H, in_rev, Hr).
  induction (rev l) as [|x k IH]; simpl; [exact I|].
  apply add_double_nonneg.
  - apply IH. intros r Hr. apply H'. now right.
  - apply to_double_nonneg, H'. now left.
Qed.

Lemma of_double_nonneg (x : double) :
  nonneg_double x -> ge (Math_round (of_double x)) (Num 0) = true.
Proof.
  destruct x as [s|s| |s m e]; simpl; intros H; subst; try reflexivity;
    try contradiction.
  apply Qle_bool_iff. change 0 with (inject_Z 0). rewrite <- Zle_Qle.
  change 0%Z with (round 0). apply round_mono.
  destruct e as [|k|k].
  - change 0 with (inject_Z 0). rewrite <- Zle_Qle. apply Z.shiftl_nonneg. lia.
  - change 0 with (inject_Z 0). rewrite <- Zle_Qle. apply Z.shiftl_nonneg. lia.
  - unfold Qle. simpl. lia.
Qed.

(** C7. For a group with at least one sample the aggregated day holds the
    greatest and the least temperature of the group, each rounded to the
    nearest integer, the rounded mean humidity, the rounded sum of the
    rainfall and the rounded mean wind speed, where the sum adds the
    samples in binary64 one after the other to 0 and the mean divides it in
    binary64 by their number; the sum of rainfall amounts none of which is
    negative is not negative; the scenario group gives 25, 18, 65, 2 and
    10; rainfall amounts of 0.1, 4.1 and 0.3, whose decimal sum 4.5 rounds
    to 5, give 4, the doubles nearest to them adding up to less than
    4.5. *)
Theorem summarize_aggregates :
  (forall b : Bucket.t,
      Bucket.temps b <> [] ->
      Bucket.humidity b <> [] ->
      Bucket.windSpeed b <> [] ->
      exists tmax tmin : Q,
        (In tmax (Bucket.temps b) /\ forall t, In t (Bucket.temps b) -> t <= tmax)
        /\ (In tmin (Bucket.temps b) /\ forall t, In t (Bucket.temps b) -> tmin <= t)
        /\ max (temperature (summarize b)) = Num (inject_Z (round tmax))
        /\ min (temperature (summarize b)) = Num (inject_Z (round tmin))
        /\ humidity (summarize b)
           = Math_round (of_double (mean (doubles (Bucket.humidity b))))
        /\ rainfall (summarize b)
           = Math_round (of_double (total (doubles (Bucket.rainfall b))))
        /\ windSpeed (summarize b)
           = Math_round (of_double (mean (Bucket.windSpeed b)))
        /\ ((forall r, In r (Bucket.rainfall b) -> 0 <= r) ->
            nonneg_double (total (doubles (Bucket.rainfall b)))))
  /\ (max (temperature (summarize scenario_bucket)) = Num 25
      /\ min (temperature (summarize scenario_bucket)) = Num 18
      /\ humidity (summarize scenario_bucket) = Num 65
      /\ rainfall (summarize scenario_bucket) = Num 2
      /\ windSpeed (summarize scenario_bucket) = Num 10)
  /\ (rainfall (summarize decimal_bucket) = Num 4
      /\ round (exact_total (Bucket.rainfall decimal_bucket)) = 5%Z).
Proof.
  split; [|split].
  - intros b Ht Hh Hw.
    destruct (Bucket.temps b) as [|x xs] eqn:Et; [congruence|].
    exists (fold_left Qmax xs x), (fold_left Qmin xs x).
    split; [apply fold_max_greatest|].
    split; [apply fold_min_least|].
    unfold summarize; cbn [temperature max min humidity rainfall windSpeed].
    rewrite Et, div_length_mean_readings, div_length_mean, reduce_sum_total.
    split; [reflexivity|]. split; [reflexivity|].
    split; [reflexivity|]. split; [reflexivity|].
    split; [reflexivity|]. apply total_nonneg.
  - vm_compute. repeat split.
  - vm_compute. split; reflexivity.
Qed.

Lemma summarize_aggregates_witness :
  (Bucket.temps decimal_bucket <> []
   /\ Bucket.humidity decimal_bucket <> []
   /\ Bucket.windSpeed decimal_bucket <> [])
  /\ exists tmax tmin : Q,
       (In tmax (Bucket.temps decimal_bucket)
        /\ forall t, In t (Bucket.temps decimal_bucket) -> t <= tmax)
       /\ (In tmin (Bucket.temps decimal_bucket)
           /\ forall t, In t (Bucket.temps decimal_bucket) -> tmin <= t)
       /\ max (temperature (summarize decimal_bucket))
          = Num (inject_Z (round tmax))
       /\ min (temperature (summarize decimal_bucket))
          = Num (inject_Z (round tmin))
       /\ humidity (summarize decimal_bucket)
          = Math_round (of_double (mean (doubles (Bucket.humidity decimal_bucket))))
       /\ rainfall (summarize decimal_bucket)
          = Math_round (of_double (total (doubles (Bucket.rainfall decimal_bucket))))
       /\ windSpeed (summarize decimal_bucket)
          = Math_round (of_double (mean (Bucket.windSpeed decimal_bucket)))
       /\ ((forall r, In r (Bucket.rainfall decimal_bucket) -> 0 <= r) ->
           nonneg_double (total (doubles (Bucket.rainfall decimal_bucket)))).
Proof.
  split; [repeat split; discriminate|].
  apply (proj1 summarize_aggregates decimal_bucket); discriminate.
Defined.

(** The other fields of the group of decimal readings: the means are 66
    and 13, the extremes 26 and 19. *)
Lemma summarize_decimal_readings :
  humidity (summarize decimal_bucket) = Num 66
  /\ windSpeed (summarize decimal_bucket) = Num 13
  /\ max (temperature (summarize decimal_bucket)) = Num 26
  /\ min (temperature (summarize decimal_bucket)) = Num 19.
Proof.
  vm_compute. repeat split.
Qed.

(** C7, as stated, fails on a fractional sample: a group whose only
    temperature is 18.6 is summarized with a maximum of 19, which is not
    the maximum temperature of the group. *)
Lemma summarize_rounds_temperature :
  max (temperature (summarize fractional_bucket)) = Num 19
  /\ ~ num_eq (max (temperature (summarize fractional_bucket)))
              (Math_max (Bucket.temps fractional_bucket)).
Proof.
  split; [reflexivity|]. vm_compute. discriminate.
Qed.

Lemma upsert_nonempty (k : Z) (fresh : Bucket.t) (f : Bucket.t -> Bucket.t)
    (d : list (Z * Bucket.t)) :
  upsert k fresh f d <> [].
Proof.
  destruct d as [|[k' b] d]; simpl; [discriminate|].
  destruct (k' =? k)%Z; discriminate.
Qed.

Lemma group_by_day_nonempty (env : Env) (items : list ForecastItem) :
  items <> [] -> group_by_day env items <> [].
Proof.
  unfold group_by_day.
  assert (G : forall l acc, acc <> [] ->
            fold_left
              (fun dailyForecasts item =>
                 upsert (calendarDay env (dt item * 1000))
                        (empty_bucket env (dt item * 1000)) (push_item item)
                        dailyForecasts) l acc <> []).
  { induction l as [|x l IH]; intros acc Hacc; simpl; [exact Hacc|].
    apply IH, upsert_nonempty. }
  destruct items as [|x l]; [congruence|]. intros _.
  cbn [fold_left]. apply G, upsert_nonempty.
Qed.

Lemma upsert_Forall (P : Bucket.t -> Prop) (k : Z) (fresh : Bucket.t)
    (f : Bucket.t -> Bucket.t) (d : list (Z * Bucket.t)) :
  (forall b, P (f b)) ->
  Forall (fun kb => P (snd kb)) d ->
  Forall (fun kb => P (snd kb)) (upsert k fresh f d).
Proof.
  intros Hf. induction 1 as [|[k' b] d Hb Hd IH]; simpl.
  - constructor; [apply Hf|constructor].
  - destruct (k' =? k)%Z; constructor; auto. apply Hf.
Qed.

(** Every bucket built by the traversal holds at least one sample. *)
Lemma group_by_day_filled (env : Env) (items : list ForecastItem) :
  Forall (fun kb => Bucket.temps (snd kb) <> []
                    /\ Bucket.humidity (snd kb) <> []
                    /\ Bucket.windSpeed (snd kb) <> [])
         (group_by_day env items).
Proof.
  unfold group_by_day.
  set (P := fun b => Bucket.temps b <> [] /\ Bucket.humidity b <> []
                     /\ Bucket.windSpeed b <> []).
  change (Forall (fun kb => P (snd kb))
            (fold_left
               (fun dailyForecasts item =>
                  upsert (calendarDay env (dt item * 1000))
                         (empty_bucket env (dt item * 1000)) (push_item item)
                         dailyForecasts) items [])).
  assert (G : forall l acc, Forall (fun kb => P (snd kb)) acc ->
            Forall (fun kb => P (snd kb))
              (fold_left
                 (fun dailyForecasts item =>
                    upsert (calendarDay env (dt item * 1000))
                           (empty_bucket env (dt item * 1000)) (push_item item)
                           dailyForecasts) l acc)).
  { induction l as [|x l IH]; intros acc Hacc; simpl; [exact Hacc|].
    apply IH, upsert_Forall; [|exact Hacc].
    intros b. unfold P, push_item; simpl.
    repeat split; intros E; apply app_eq_nil in E; destruct E; discriminate. }
  apply G. constructor.
Qed.

(** On the live path the maximum of an aggregated day is never below its
    minimum, and its rainfall is not negative when the provider reports
    none that is. *)
Lemma summarize_max_ge_min (b : Bucket.t) :
  Bucket.temps b <> [] ->
  ge (max (temperature (summarize b))) (min (temperature (summarize b))) = true.
Proof.
  intros Ht. destruct (Bucket.temps b) as [|x xs] eqn:Et; [congruence|].
  unfold summarize; simpl. rewrite Et. simpl.
  apply Qle_bool_iff. rewrite <- Zle_Qle. apply round_mono.
  destruct (fold_max_greatest xs x) as [_ Hub].
  destruct (fold_min_least xs x) as [Hin _].
  apply Hub, Hin.
Qed.

Lemma summarize_rainfall_nonneg (b : Bucket.t) :
  (forall r, In r (Bucket.rainfall b) -> 0 <= r) ->
  ge (rainfall (summarize b)) (Num 0) = true.
Proof.
  intros H. unfold summarize; cbn [rainfall].
  rewrite reduce_sum_total. apply of_double_nonneg, (total_nonneg _ H).
Qed.

(** C6. When both provider requests succeed and the forecast answer is
    not empty, the report's first forecast entry is the record built from
    the current-conditions answer, put there whole: the rest of the array
    are the aggregated days after the first, and the entry's temperatures,
    humidity, rainfall and wind speed are the converted fields of the
    current sample. *)
Theorem fetchRealWeatherData_today_is_current
    (env : Env) (locationData : LocationInfo) (w : World)
    (data : CurrentData) (items : list ForecastItem) :
  current_weather env (lat (coordinates locationData)) (lon (coordinates locationData))
  = Ok data ->
  forecast_weather env (lat (coordinates locationData)) (lon (coordinates locationData))
  = Ok items ->
  items <> [] ->
  exists (r : Report) (w' : World),
    fetchRealWeatherData env locationData w = (Ok r, w')
    /\ current r = current_of env data
    /\ forecast r
       = current r :: tl (map summarize (firstn 7 (map snd (group_by_day env items))))
    /\ max (temperature (current r)) = Math_round (Num (main_temp_max data))
    /\ min (temperature (current r)) = Math_round (Num (main_temp_min data))
    /\ humidity (current r) = Num (main_humidity data)
    /\ rainfall (current r) = Math_round (Num (rain_or_zero (rain data) rain_1h))
    /\ windSpeed (current r)
       = Math_round (of_double (mul_double (to_double (wind_speed data))
                                           (to_double 3.6))).
Proof.
  intros Hc Hf Hne.
  unfold fetchRealWeatherData, try_catch, bind, axios_get, ret.
  rewrite Hc, Hf. cbv beta iota.
  eexists. eexists. split; [reflexivity|]. cbn [current forecast].
  split; [reflexivity|]. split.
  - unfold forecast_of.
    pose proof (group_by_day_nonempty env items Hne) as Hg.
    destruct (group_by_day env items) as [|kb rest]; [congruence|]. reflexivity.
  - unfold current_of; cbn [temperature max min humidity rainfall windSpeed].
    repeat split. destruct (rain data); reflexivity.
Qed.

Lemma fetchRealWeatherData_today_is_current_witness :
  exists (r : Report) (w' : World),
    fetchRealWeatherData online
      {| label := "Delhi, Delhi, IN";
         coordinates := {| lat := 28.6517; lon := 77.2219 |};
         name := "Delhi"; country := Some "IN"; state := Some "Delhi" |} initial
    = (Ok r, w')
    /\ max (temperature (current r)) = Num 31
    /\ nth_error (forecast r) 0 = Some (current r).
Proof.
  destruct (fetchRealWeatherData_today_is_current online
              {| label := "Delhi, Delhi, IN";
                 coordinates := {| lat := 28.6517; lon := 77.2219 |};
                 name := "Delhi"; country := Some "IN"; state := Some "Delhi" |}
              initial clear_now
              [clear_item 0 24; clear_item 10800 27; clear_item 86400 26]
              eq_refl eq_refl ltac:(discriminate))
    as [r [w' [E [Hcur [Hfc [Hmax _]]]]]].
  exists r, w'. split; [exact E|]. split.
  - rewrite Hmax. reflexivity.
  - rewrite Hfc. reflexivity.
Defined.

(** On the sample provider the estimate aggregated from today's intervals
    has a maximum of 27; the report's first entry carries the current
    reading's 31 instead. *)
Lemma today_estimate_is_discarded :
  exists (r : Report) (w' : World),
    live online "delhi" initial = (Ok r, w')
    /\ nth_error (forecast r) 0 = Some (current r)
    /\ max (temperature (current r)) = Num 31
    /\ option_map (fun kb => max (temperature (summarize (snd kb))))
         (hd_error (group_by_day online
                      [clear_item 0 24; clear_item 10800 27; clear_item 86400 26]))
       = Some (Num 27).
Proof.
  eexists. eexists. split; [vm_compute; reflexivity|].
  repeat split.
Qed.

(** ** The fallback generator *)

Lemma same_page_refl (w : World) : same_page w w.
Proof. repeat split. Qed.

Lemma same_page_trans (w1 w2 w3 : World) :
  same_page w1 w2 -> same_page w2 w3 -> same_page w1 w3.
Proof.
  unfold same_page. intros [A1 [A2 [A3 [A4 A5]]]] [B1 [B2 [B3 [B4 B5]]]].
  repeat split; congruence.
Qed.

Lemma mock_day_run (env : Env) (bt bh br : Q) (i : Z) (w : World) :
  exists (d : Day) (w' : World),
    mock_day env bt bh br i w = (Ok d, w')
    /\ same_page w w'
    /\ exists n, windSpeed d = Math_round (Num (random env n * 15 + 5)).
Proof.
  eexists. eexists. split; [reflexivity|]. split.
  - repeat split.
  - eexists. reflexivity.
Qed.

Lemma mock_loop_run (env : Env) (bt bh br : Q) (remaining : nat) :
  forall (i : Z) (acc : list Day) (w : World),
  exists (ds : list Day) (w' : World),
    mock_loop env bt bh br remaining i acc w = (Ok (acc ++ ds), w')
    /\ List.length ds = remaining
    /\ same_page w w'
    /\ Forall (fun d => exists n, windSpeed d = Math_round (Num (random env n * 15 + 5)))
              ds.
Proof.
  induction remaining as [|k IH]; intros i acc w.
  - exists [], w. rewrite app_nil_r. repeat split. constructor.
  - destruct (mock_day_run env bt bh br i w) as [d [w1 [Ed [Hp Hd]]]].
    destruct (IH (i + 1)%Z (acc ++ [d]) w1) as [ds [w2 [El [Hlen [Hp2 Hall]]]]].
    exists (d :: ds), w2.
    cbn [mock_loop]. unfold bind at 1. rewrite Ed, El.
    rewrite <- app_assoc. split; [reflexivity|].
    split; [simpl; congruence|].
    split; [eapply same_page_trans; eassumption|].
    constructor; assumption.
Qed.

(** The generator always returns: seven days, the first of which is the
    current reading and the input of the advisory engine; it touches
    nothing of the page state. *)
Lemma generateMockWeatherData_run (env : Env) (location_ : string) (w : World) :
  exists (r : Report) (w' : World),
    generateMockWeatherData env location_ w = (Ok r, w')
    /\ same_page w w'
    /\ location r = location_
    /\ List.length (forecast r) = 7%nat
    /\ nth_error (forecast r) 0 = Some (current r)
    /\ farmingAdvice r = generateFarmingAdvice (current r)
    /\ Forall (fun d => exists n, windSpeed d = Math_round (Num (random env n * 15 + 5)))
              (forecast r).
Proof.
  unfold generateMockWeatherData, bind, Math_random.
  cbv beta iota.
  cbn [weatherData error loading locationResolving requests draws].
  match goal with
  | |- context [mock_loop env ?bt ?bh ?br 7 0 [] ?w0] =>
      destruct (mock_loop_run env bt bh br 7 0%Z [] w0)
        as [ds [w' [El [Hlen [Hp Hall]]]]]
  end.
  rewrite El. cbn [app].
  destruct ds as [|first rest]; [discriminate|].
  eexists. eexists. split; [reflexivity|].
  split.
  { destruct Hp as [A1 [A2 [A3 [A4 A5]]]]. repeat split; assumption. }
  cbn [location forecast current farmingAdvice].
  repeat split; try assumption.
Qed.

Lemma no_wind_advice (d : Day) :
  gt (windSpeed d) 20 = false ->
  forall a, In a wind_advice -> ~ In a (generateFarmingAdvice d).
Proof.
  intros Hcalm a Ha. unfold generateFarmingAdvice. rewrite Hcalm.
  destruct Ha as [<-|[<-|[]]];
    destruct (gt (rainfall d) 15), (lt (rainfall d) 5),
      (gt (max (temperature d)) 35), (lt (max (temperature d)) 20),
      (gt (humidity d) 80);
    apply not_In_by_computation; vm_compute; reflexivity.
Qed.

Lemma mock_wind_bounded (r : Q) :
  0 <= r -> r < 1 ->
  exists q, Math_round (Num (r * 15 + 5)) = Num q /\ q <= 20.
Proof.
  intros H0 H1. eexists. split; [reflexivity|].
  change 20 with (inject_Z 20). rewrite <- Zle_Qle.
  apply round_upper. change (inject_Z 20) with 20. lra.
Qed.

(** C10. Whatever numbers in [0, 1) the pseudo-random source draws, every
    day of a generated report has a wind speed of at most 20 km/h, so the
    strong-wind test fails on the current day and neither line of the
    strong-wind advice is in the report. *)
Theorem generateMockWeatherData_calm (env : Env) (location_ : string) (w : World) :
  (forall n, 0 <= random env n /\ random env n < 1) ->
  exists (r : Report) (w' : World),
    generateMockWeatherData env location_ w = (Ok r, w')
    /\ (forall d, In d (forecast r) -> exists q, windSpeed d = Num q /\ q <= 20)
    /\ gt (windSpeed (current r)) 20 = false
    /\ (forall a, In a wind_advice -> ~ In a (farmingAdvice r)).
Proof.
  intros Hrange.
  destruct (generateMockWeatherData_run env location_ w)
    as [r [w' [E [_ [_ [_ [Hfirst [Hadv Hall]]]]]]]].
  exists r, w'. split; [exact E|].
  assert (Hdays : forall d, In d (forecast r) ->
                    exists q, windSpeed d = Num q /\ q <= 20).
  { intros d Hd. rewrite Forall_forall in Hall.
    destruct (Hall d Hd) as [n Hn]. rewrite Hn.
    destruct (Hrange n). apply mock_wind_bounded; assumption. }
  assert (Hcalm : gt (windSpeed (current r)) 20 = false).
  { destruct (Hdays (current r)) as [q [Eq Hq]].
    - apply nth_error_In with (n := O). exact Hfirst.
    - rewrite Eq. simpl. apply Qltb_ge. exact Hq. }
  split; [exact Hdays|]. split; [exact Hcalm|].
  rewrite Hadv. apply no_wind_advice, Hcalm.
Qed.

Lemma generateMockWeatherData_calm_witness :
  (forall n, 0 <= random (offline (1 # 2)) n /\ random (offline (1 # 2)) n < 1)
  /\ exists (r : Report) (w' : World),
       generateMockWeatherData (offline (1 # 2)) "Pune" initial = (Ok r, w')
       /\ (forall d, In d (forecast r) -> exists q, windSpeed d = Num q /\ q <= 20)
       /\ gt (windSpeed (current r)) 20 = false
       /\ (forall a, In a wind_advice -> ~ In a (farmingAdvice r)).
Proof.
  assert (H : forall n : nat,
             0 <= random (offline (1 # 2)) n /\ random (offline (1 # 2)) n < 1).
  { intros n. simpl. split; [discriminate|reflexivity]. }
  split; [exact H|].
  apply (generateMockWeatherData_calm (offline (1 # 2)) "Pune" initial H).
Defined.

(** C4 fails on the generator: with a base temperature draw of 0 and a
    jitter draw of 0.9 for the minimum, the first generated day has a
    maximum of 16 below its minimum of 19, and with a base rainfall draw of
    0 its rainfall is -5. *)
Theorem generateMockWeatherData_inverted_day :
  exists (r : Report) (w' : World),
    generateMockWeatherData low_draws "Delhi" initial = (Ok r, w')
    /\ max (temperature (current r)) = Num 16
    /\ min (temperature (current r)) = Num 19
    /\ rainfall (current r) = Num (-5)
    /\ ge (max (temperature (current r))) (min (temperature (current r))) = false
    /\ ge (rainfall (current r)) (Num 0) = false.
Proof.
  eexists. eexists. split; [vm_compute; reflexivity|].
  repeat split.
Qed.

(** ** The location resolver *)

Lemma truthy_of_trim (s : string) : truthy (trim s) = true -> truthy s = true.
Proof.
  destruct s; [discriminate|reflexivity].
Qed.

(** A text that is empty or shorter than two characters once trimmed is
    rejected before anything else happens: no state is touched and no
    request is sent. *)
Lemma resolveLocation_invalid_input (env : Env) (locationText : string) (w : World) :
  (String.length (trim locationText) < 2)%nat ->
  resolveLocation env locationText w
  = (Throw (Error_ "Please enter a location name"), w)
  \/ resolveLocation env locationText w
     = (Throw (Error_ "Location name must be at least 2 characters long"), w).
Proof.
  intros Hlen. unfold resolveLocation.
  destruct (negb (truthy locationText) || negb (truthy (trim locationText)));
    [left; reflexivity|].
  apply Nat.ltb_lt in Hlen. rewrite Hlen. right; reflexivity.
Qed.

(** C3, as the component is written: it holds no list of well-known
    locations.  Every text with at least two characters after trimming is
    sent to the geocoding service, in one request for at most five
    candidates, when the API is configured; a non-empty answer resolves to
    the coordinates of its first candidate. *)
Theorem resolveLocation_asks_geocoder (env : Env) (locationText : string) (w : World) :
  (2 <= String.length (trim locationText))%nat ->
  truthy_opt (API_KEY env) = true ->
  truthy_opt (BASE_URL env) = true ->
  requests (snd (resolveLocation env locationText w))
  = requests w ++ [GeoDirect (trim locationText) 5]
  /\ forall (geoData : GeoData) (others : list GeoData),
       geocode env (trim locationText) 5 = Ok (geoData :: others) ->
       exists info : LocationInfo,
         fst (resolveLocation env locationText w) = Ok info
         /\ coordinates info = {| lat := geo_lat geoData; lon := geo_lon geoData |}.
Proof.
  intros Hlen Hkey Hurl.
  assert (Ht : truthy (trim locationText) = true).
  { destruct (trim locationText); [simpl in Hlen; lia|reflexivity]. }
  assert (Hs : truthy locationText = true) by (apply truthy_of_trim, Ht).
  assert (Hl : (String.length (trim locationText) <? 2)%nat = false)
    by (apply Nat.ltb_ge, Hlen).
  unfold resolveLocation. rewrite Hs, Ht, Hl, Hkey, Hurl.
  cbn [negb orb]. cbv beta iota.
  unfold bind, try_catch, setLocationResolving, axios_get, ret, throw.
  cbv beta iota.
  destruct (geocode env (trim locationText) 5) as [[|g gs]|e] eqn:Eg.
  - split; [reflexivity|]. intros geoData others Habs. discriminate Habs.
  - split; [reflexivity|]. intros geoData others Heq.
    injection Heq as -> ->. eexists. split; reflexivity.
  - split.
    + cbv beta iota. destruct (response e) as [status|]; [|reflexivity].
      destruct (status =? 401)%Z, (status =? 429)%Z, (status =? 404)%Z; reflexivity.
    + intros geoData others Habs. discriminate Habs.
Qed.

Lemma resolveLocation_asks_geocoder_witness :
  ((2 <= String.length (trim "delhi"))%nat
   /\ truthy_opt (API_KEY online) = true
   /\ truthy_opt (BASE_URL online) = true)
  /\ requests (snd (resolveLocation online "delhi" initial))
     = requests initial ++ [GeoDirect (trim "delhi") 5]
  /\ forall (geoData : GeoData) (others : list GeoData),
       geocode online (trim "delhi") 5 = Ok (geoData :: others) ->
       exists info : LocationInfo,
         fst (resolveLocation online "delhi" initial) = Ok info
         /\ coordinates info = {| lat := geo_lat geoData; lon := geo_lon geoData |}.
Proof.
  split.
  - split; [vm_compute; lia|]. split; reflexivity.
  - apply (resolveLocation_asks_geocoder online "delhi" initial).
    + vm_compute. lia.
    + reflexivity.
    + reflexivity.
Defined.

(** C3, as stated, fails on the text of its own example: resolving
    "delhi" sends a request to the geocoding service, and the coordinates
    returned are the service's, not those of the entry for Delhi in the
    list of well-known locations. *)
Lemma resolveLocation_delhi_goes_online :
  requests (snd (resolveLocation online "delhi" initial)) = [GeoDirect "delhi" 5]
  /\ requests (snd (resolveLocation online "delhi" initial)) <> []
  /\ exists info : LocationInfo,
       fst (resolveLocation online "delhi" initial) = Ok info
       /\ coordinates info = {| lat := 28.6517; lon := 77.2219 |}
       /\ nth_error locations 0
          = Some ("delhi", "Delhi", {| lat := 28.6139; lon := 77.2090 |})
       /\ ~ lat (coordinates info) == 28.6139.
Proof.
  split; [reflexivity|]. split; [discriminate|].
  eexists. split; [reflexivity|]. split; [reflexivity|]. split; [reflexivity|].
  simpl. intros H. vm_compute in H. discriminate H.
Qed.

(** ** The vocabulary of conditions *)

(** The current reading is normalized: a provider value found in the
    table is mapped by it, any other one (the names inherited from
    [Object.prototype] apart) becomes "Partly Cloudy". *)
Lemma getWeatherCondition_normalized (weatherMain : string) :
  inherited weatherMain = false ->
  is_normalized (getWeatherCondition weatherMain) = true.
Proof.
  intros Hown. unfold getWeatherCondition, lookup_or, conditions.
  cbn [own]. rewrite Hown.
  repeat match goal with
         | |- context [String.eqb ?k weatherMain] =>
             destruct (String.eqb k weatherMain)
         end; reflexivity.
Qed.

Lemma getWeatherCondition_default (weatherMain : string) :
  own conditions weatherMain = None ->
  inherited weatherMain = false ->
  getWeatherCondition weatherMain = VStr "Partly Cloudy".
Proof.
  intros Hnone Hown. unfold getWeatherCondition, lookup_or.
  rewrite Hnone, Hown. reflexivity.
Qed.

(** C5 fails on a forecast day: with a provider answering "Clear" for
    today and for tomorrow, the current reading is normalized to "Sunny"
    while the second forecast entry keeps the provider's "Clear", which is
    not in the normalized vocabulary. *)
Theorem forecast_keeps_provider_condition :
  exists (r : Report) (w' : World) (tomorrow : Day),
    live online "delhi" initial = (Ok r, w')
    /\ condition (current r) = VStr "Sunny"
    /\ nth_error (forecast r) 1 = Some tomorrow
    /\ condition tomorrow = VStr "Clear"
    /\ is_normalized (condition tomorrow) = false.
Proof.
  eexists. eexists. eexists.
  split; [vm_compute; reflexivity|].
  repeat split.
Qed.

(** ** The orchestrator *)

(** An empty or blank text is refused at once: the message is set, no
    report is produced, nothing is requested and nothing is drawn. *)
Lemma fetchWeatherData_blank_blocks (env : Env) (selectedLocation : string) (w : World) :
  trim selectedLocation = "" ->
  fetchWeatherData env selectedLocation w
  = (Ok tt,
     {| weatherData := weatherData w;
        error := Some "Please enter a location name";
        loading := loading w;
        locationResolving := locationResolving w;
        requests := requests w;
        draws := draws w |}).
Proof.
  intros Hblank. unfold fetchWeatherData. rewrite Hblank. reflexivity.
Qed.

(** Two facts about the monad: the handler starts in [started w], and an
    error thrown by the first two steps of a [try] body reaches the
    [catch] handler with the state of the throw. *)
Lemma start_run {A} (body : M A) (w : World) :
  (setLoading true ;; setError None ;; body) w = body (started w).
Proof. reflexivity. Qed.

Lemma finally_catch_throw {A B C} (c : M A) (k0 : A -> M B) (k1 : B -> M C)
    (handler : JsError -> M C) (finalizer : M unit)
    (w : World) (e : JsError) (w1 : World) :
  (x <- c ;; k0 x) w = (Throw e, w1) ->
  try_finally (try_catch (x <- c ;; y <- k0 x ;; k1 y) handler) finalizer w
  = try_finally (handler e) finalizer w1.
Proof.
  unfold try_finally, try_catch, bind. intros H.
  destruct (c w) as [[a|e0] w0].
  - rewrite H. reflexivity.
  - injection H as -> ->. reflexivity.
Qed.

(** What the [catch] block of [fetchWeatherData] does with any error. *)
Lemma fallback_run (env : Env) (selectedLocation : string) (e : JsError) (w1 : World) :
  truthy selectedLocation = true ->
  exists (mock : Report) (w2 : World),
    try_finally
      (setError (Some (message e)) ;;
       try_catch
         (mockData <- generateMockWeatherData env
                        (if truthy selectedLocation then selectedLocation
                         else "Unknown Location") ;;
          setWeatherData (Some mockData) ;;
          setError None)
         (fun mockError =>
            setError (Some ("Failed to load weather data: " ++ message e)%string)))
      (setLoading false) w1
    = (Ok tt, w2)
    /\ weatherData w2 = Some mock
    /\ error w2 = None
    /\ loading w2 = false
    /\ requests w2 = requests w1
    /\ (exists wa wb, generateMockWeatherData env selectedLocation wa = (Ok mock, wb))
    /\ location mock = selectedLocation
    /\ List.length (forecast mock) = 7%nat
    /\ nth_error (forecast mock) 0 = Some (current mock)
    /\ farmingAdvice mock = generateFarmingAdvice (current mock).
Proof.
  intros Hs. rewrite Hs.
  unfold try_finally, try_catch, bind. unfold setError at 1. cbv beta iota.
  match goal with
  | |- context [generateMockWeatherData env selectedLocation ?w0] =>
      destruct (generateMockWeatherData_run env selectedLocation w0)
        as [mock [wm [Em [Hp [Hloc [Hlen [Hfirst [Hadv _]]]]]]]];
      rewrite Em
  end.
  eexists. eexists. split; [reflexivity|].
  cbn [setWeatherData setError setLoading weatherData error loading requests snd].
  destruct Hp as [_ [_ [_ [_ Hreq]]]].
  repeat split; try assumption.
  eexists. eexists. exact Em.
Qed.

(** The [catch] block takes every error thrown on the live path. *)
Lemma fetchWeatherData_catch_all
    (env : Env) (selectedLocation : string) (w : World) (e : JsError) (w1 : World) :
  truthy (trim selectedLocation) = true ->
  live env selectedLocation (started w) = (Throw e, w1) ->
  exists (mock : Report) (w2 : World),
    fetchWeatherData env selectedLocation w = (Ok tt, w2)
    /\ weatherData w2 = Some mock
    /\ error w2 = None
    /\ loading w2 = false
    /\ requests w2 = requests w1
    /\ (exists wa wb, generateMockWeatherData env selectedLocation wa = (Ok mock, wb))
    /\ location mock = selectedLocation
    /\ List.length (forecast mock) = 7%nat
    /\ nth_error (forecast mock) 0 = Some (current mock)
    /\ farmingAdvice mock = generateFarmingAdvice (current mock).
Proof.
  intros Ht Hlive.
  destruct (fallback_run env selectedLocation e w1 (truthy_of_trim _ Ht))
    as [mock [w2 [Efb Hrest]]].
  exists mock, w2. split; [|exact Hrest].
  unfold fetchWeatherData. rewrite Ht. cbn [negb].
  rewrite start_run.
  rewrite (finally_catch_throw _ _ _ _ _ _ _ _ Hlive).
  exact Efb.
Qed.

(** C1, as the component is written: when the text has at least two
    characters after trimming and resolving the location or fetching the
    weather throws, the handler ends normally with a generated seven-day
    report as the page's weather data, the loading flag down and the error
    message cleared, so that nothing on the page tells that the data is not
    live. *)
Theorem fetchWeatherData_fallback
    (env : Env) (selectedLocation : string) (w : World) (e : JsError) (w1 : World) :
  (2 <= String.length (trim selectedLocation))%nat ->
  live env selectedLocation (started w) = (Throw e, w1) ->
  exists (mock : Report) (w2 : World),
    fetchWeatherData env selectedLocation w = (Ok tt, w2)
    /\ weatherData w2 = Some mock
    /\ error w2 = None
    /\ loading w2 = false
    /\ requests w2 = requests w1
    /\ (exists wa wb, generateMockWeatherData env selectedLocation wa = (Ok mock, wb))
    /\ location mock = selectedLocation
    /\ List.length (forecast mock) = 7%nat
    /\ nth_error (forecast mock) 0 = Some (current mock)
    /\ farmingAdvice mock = generateFarmingAdvice (current mock).
Proof.
  intros Hlen Hlive.
  apply fetchWeatherData_catch_all with (e := e); [|exact Hlive].
  destruct (trim selectedLocation); [simpl in Hlen; lia|reflexivity].
Qed.

Lemma fetchWeatherData_fallback_witness :
  ((2 <= String.length (trim "zzzzz"))%nat
   /\ live no_candidates "zzzzz" (started initial)
      = (Throw (Error_ ("Unable to find location " ++ quote ++ "zzzzz" ++ quote
                        ++ ". Location " ++ quote ++ "zzzzz" ++ quote
                        ++ " not found. Please check spelling or try a nearby city.")%string),
         {| weatherData := None; error := None; loading := true;
            locationResolving := false; requests := [GeoDirect "zzzzz" 5];
            draws := O |}))
  /\ exists (mock : Report) (w2 : World),
       fetchWeatherData no_candidates "zzzzz" initial = (Ok tt, w2)
       /\ weatherData w2 = Some mock
       /\ error w2 = None
       /\ loading w2 = false
       /\ requests w2 = [GeoDirect "zzzzz" 5]
       /\ (exists wa wb,
              generateMockWeatherData no_candidates "zzzzz" wa = (Ok mock, wb))
       /\ location mock = "zzzzz"
       /\ List.length (forecast mock) = 7%nat
       /\ nth_error (forecast mock) 0 = Some (current mock)
       /\ farmingAdvice mock = generateFarmingAdvice (current mock).
Proof.
  split; [split; [vm_compute; lia|reflexivity]|].
  apply (fetchWeatherData_fallback no_candidates "zzzzz" initial
           (Error_ ("Unable to find location " ++ quote ++ "zzzzz" ++ quote
                    ++ ". Location " ++ quote ++ "zzzzz" ++ quote
                    ++ " not found. Please check spelling or try a nearby city.")%string)
           {| weatherData := None; error := None; loading := true;
              locationResolving := false; requests := [GeoDirect "zzzzz" 5];
              draws := O |});
    [vm_compute; lia|reflexivity].
Defined.

(** C1, as stated, fails on its own scenario: the geocoder has no
    candidate for "zzzzz", the resolver throws, a generated report is
    shown, and no error message is left on the page. *)
Lemma fetchWeatherData_leaves_no_advisory :
  (exists e w1, resolveLocation no_candidates "zzzzz" (started initial) = (Throw e, w1))
  /\ (exists mock, weatherData (snd (fetchWeatherData no_candidates "zzzzz" initial))
                   = Some mock)
  /\ error (snd (fetchWeatherData no_candidates "zzzzz" initial)) = None
  /\ ~ (exists advisory : string,
          error (snd (fetchWeatherData no_candidates "zzzzz" initial)) = Some advisory).
Proof.
  split; [eexists; eexists; vm_compute; reflexivity|].
  split; [eexists; vm_compute; reflexivity|].
  split; [vm_compute; reflexivity|].
  intros [advisory H]. vm_compute in H. discriminate H.
Qed.

(** C2 fails on a one-character text: the resolver rejects "a" before
    any request, yet the handler treats the rejection like any other
    error, shows a generated report and clears the message. *)
Theorem fetchWeatherData_one_character (env : Env) (w : World) :
  resolveLocation env "a" (started w)
  = (Throw (Error_ "Location name must be at least 2 characters long"), started w)
  /\ exists (mock : Report) (w' : World),
       fetchWeatherData env "a" w = (Ok tt, w')
       /\ weatherData w' = Some mock
       /\ error w' = None
       /\ requests w' = requests w
       /\ location mock = "a".
Proof.
  split; [reflexivity|].
  assert (Hlive : live env "a" (started w)
                  = (Throw (Error_ "Location name must be at least 2 characters long"),
                     started w)) by reflexivity.
  destruct (fallback_run env "a"
              (Error_ "Location name must be at least 2 characters long")
              (started w) eq_refl)
    as [mock [w2 [Efb [Hd [He [_ [Hr [_ [Hloc _]]]]]]]]].
  exists mock, w2. split; [|repeat split; assumption].
  unfold fetchWeatherData. change (truthy (trim "a")) with true. cbn [negb].
  rewrite start_run.
  rewrite (finally_catch_throw _ _ _ _ _ _ _ _ Hlive).
  exact Efb.
Qed.

(** ** Grouping the forecast by calendar day *)

Lemma upsert_keys (k : Z) (fresh : Bucket.t) (f : Bucket.t -> Bucket.t)
    (d : list (Z * Bucket.t)) :
  (In k (map fst d) /\ map fst (upsert k fresh f d) = map fst d)
  \/ (~ In k (map fst d) /\ map fst (upsert k fresh f d) = map fst d ++ [k]).
Proof.
  induction d as [|[k' b] d IH]; simpl.
  - right. split; [tauto|reflexivity].
  - destruct (Z.eqb_spec k' k) as [->|Hne].
    + left. split; [now left|reflexivity].
    + simpl. destruct IH as [[Hin E]|[Hnin E]].
      * left. split; [now right|now rewrite E].
      * right. split; [|now rewrite E]. intros [H|H]; [congruence|tauto].
Qed.

Lemma upsert_In (k : Z) (fresh : Bucket.t) (f : Bucket.t -> Bucket.t)
    (d : list (Z * Bucket.t)) (k' : Z) (b' : Bucket.t) :
  NoDup (map fst d) ->
  In (k', b') (upsert k fresh f d) ->
  (k' <> k /\ In (k', b') d)
  \/ (k' = k /\ exists b, In (k, b) d /\ b' = f b)
  \/ (k' = k /\ ~ In k (map fst d) /\ b' = f fresh).
Proof.
  induction d as [|[k0 b0] d IH]; simpl; intros Hnd Hin.
  - destruct Hin as [E|[]]. injection E as <- <-.
    right; right. tauto.
  - inversion Hnd as [|? ? Hnotin Hnd']; subst.
    destruct (Z.eqb_spec k0 k) as [->|Hne].
    + destruct Hin as [E|Hin].
      * injection E as <- <-. right; left. split; [reflexivity|].
        exists b0. split; [now left|reflexivity].
      * left. split; [|now right].
        intros ->. apply Hnotin. apply (in_map fst) in Hin. exact Hin.
    + destruct Hin as [E|Hin].
      * injection E as <- <-. left. split; [exact Hne|now left].
      * destruct (IH Hnd' Hin) as [[H1 H2]|[[H1 [b [H2 H3]]]|[H1 [H2 H3]]]].
        -- left. split; [exact H1|now right].
        -- right; left. split; [exact H1|]. exists b. split; [now right|exact H3].
        -- right; right. split; [exact H1|]. split; [|exact H3].
           intros [H|H]; [congruence|tauto].
Qed.

Lemma NoDup_snoc (l : list Z) (a : Z) : NoDup l -> ~ In a l -> NoDup (l ++ [a]).
Proof.
  induction 1 as [|x l Hx Hl IH]; simpl; intros Ha.
  - constructor; [tauto|constructor].
  - constructor.
    + rewrite in_app_iff. simpl. intros [H|[H|[]]]; [tauto|subst; tauto].
    + apply IH. tauto.
Qed.

Lemma holds_push (env : Env) (item : ForecastItem) (b : Bucket.t)
    (mine : list ForecastItem) :
  holds env b mine -> holds env (push_item item b) (mine ++ [item]).
Proof.
  destruct mine as [|first rest]; [intros []|].
  intros [H1 [H2 [H3 [H4 [H5 [H6 [H7 H8]]]]]]].
  change ((first :: rest) ++ [item]) with (first :: (rest ++ [item])).
  unfold holds, push_item.
  cbn [Bucket.date Bucket.day Bucket.temps Bucket.humidity Bucket.rainfall
       Bucket.windSpeed Bucket.conditions Bucket.icons].
  rewrite H1, H2, H3, H4, H5, H6, H7, H8.
  change (first :: (rest ++ [item])) with ((first :: rest) ++ [item]).
  rewrite !map_app. repeat split.
Qed.

Lemma holds_fresh (env : Env) (item : ForecastItem) :
  holds env (push_item item (empty_bucket env (dt item * 1000))) [item].
Proof. repeat split. Qed.

Lemma samples_of_snoc (env : Env) (k : Z) (processed : list ForecastItem)
    (item : ForecastItem) :
  samples_of env k (processed ++ [item])
  = samples_of env k processed ++ (if (day_of env item =? k)%Z then [item] else []).
Proof.
  unfold samples_of. rewrite filter_app. reflexivity.
Qed.

Lemma samples_of_none (env : Env) (k : Z) (processed : list ForecastItem) :
  (forall it, In it processed -> day_of env it <> k) ->
  samples_of env k processed = [].
Proof.
  induction processed as [|x l IH]; intros H; [reflexivity|].
  unfold samples_of in *. simpl.
  destruct (Z.eqb_spec (day_of env x) k) as [E|_].
  - exfalso. apply (H x); [now left|exact E].
  - apply IH. intros it Hit. apply H. now right.
Qed.

(** The three facts kept while the forecast list is traversed: one bucket
    per day seen, no other bucket, and each bucket holding its day's
    entries. *)
Lemma group_step (env : Env) (item : ForecastItem)
    (processed : list ForecastItem) (acc : list (Z * Bucket.t)) :
  NoDup (map fst acc) ->
  (forall k, In k (map fst acc) <-> exists it, In it processed /\ day_of env it = k) ->
  (forall k b, In (k, b) acc -> holds env b (samples_of env k processed)) ->
  let acc' := upsert (day_of env item) (empty_bucket env (dt item * 1000))
                     (push_item item) acc in
  NoDup (map fst acc')
  /\ (forall k, In k (map fst acc')
                <-> exists it, In it (processed ++ [item]) /\ day_of env it = k)
  /\ (forall k b, In (k, b) acc' -> holds env b (samples_of env k (processed ++ [item]))).
Proof.
  intros Hnd Hkeys Hholds acc'.
  destruct (upsert_keys (day_of env item) (empty_bucket env (dt item * 1000))
              (push_item item) acc) as [[Hin E]|[Hnin E]];
    fold acc' in E.
  - split; [rewrite E; exact Hnd|]. split.
    + intros k. rewrite E, Hkeys. split.
      * intros [it [Hit Hk]]. exists it. split; [apply in_or_app; now left|exact Hk].
      * intros [it [Hit Hk]]. apply in_app_or in Hit.
        destruct Hit as [Hit|[<-|[]]]; [exists it; tauto|].
        apply Hkeys. rewrite <- Hk. exact Hin.
    + intros k b Hb.
      destruct (upsert_In _ _ _ _ _ _ Hnd Hb)
        as [[Hne Hold]|[[-> [b0 [Hold ->]]]|[-> [Habs _]]]].
      * rewrite samples_of_snoc.
        destruct (Z.eqb_spec (day_of env item) k) as [Heq|_]; [congruence|].
        rewrite app_nil_r. apply Hholds, Hold.
      * rewrite samples_of_snoc, Z.eqb_refl. apply holds_push, Hholds, Hold.
      * tauto.
  - split; [rewrite E; apply NoDup_snoc; assumption|]. split.
    + intros k. rewrite E, in_app_iff, Hkeys. simpl. split.
      * intros [[it [Hit Hk]]|[<-|[]]].
        -- exists it. split; [apply in_or_app; now left|exact Hk].
        -- exists item. split; [apply in_or_app; right; now left|reflexivity].
      * intros [it [Hit Hk]]. apply in_app_or in Hit.
        destruct Hit as [Hit|[<-|[]]]; [left; exists it; tauto|right; now left].
    + intros k b Hb.
      destruct (upsert_In _ _ _ _ _ _ Hnd Hb)
        as [[Hne Hold]|[[-> [b0 [Hold ->]]]|[-> [_ ->]]]].
      * rewrite samples_of_snoc.
        destruct (Z.eqb_spec (day_of env item) k) as [Heq|_]; [congruence|].
        rewrite app_nil_r. apply Hholds, Hold.
      * exfalso. apply Hnin. apply (in_map fst) in Hold. exact Hold.
      * rewrite samples_of_snoc, Z.eqb_refl.
        rewrite samples_of_none; [apply holds_fresh|].
        intros it Hit Hk. apply Hnin, Hkeys. exists it. tauto.
Qed.

Lemma group_fold (env : Env) (items : list ForecastItem) :
  forall (processed : list ForecastItem) (acc : list (Z * Bucket.t)),
  NoDup (map fst acc) ->
  (forall k, In k (map fst acc) <-> exists it, In it processed /\ day_of env it = k) ->
  (forall k b, In (k, b) acc -> holds env b (samples_of env k processed)) ->
  let acc' :=
    fold_left
      (fun dailyForecasts item =>
         upsert (calendarDay env (dt item * 1000))
                (empty_bucket env (dt item * 1000)) (push_item item)
                dailyForecasts) items acc in
  NoDup (map fst acc')
  /\ (forall k, In k (map fst acc')
                <-> exists it, In it (processed ++ items) /\ day_of env it = k)
  /\ (forall k b, In (k, b) acc' -> holds env b (samples_of env k (processed ++ items))).
Proof.
  induction items as [|x items IH]; intros processed acc Hnd Hkeys Hholds.
  - cbn [fold_left]. rewrite app_nil_r. tauto.
  - cbn [fold_left].
    destruct (group_step env x processed acc Hnd Hkeys Hholds) as [A [B C]].
    specialize (IH (processed ++ [x]) _ A B C).
    rewrite <- app_assoc in IH. exact IH.
Qed.

(** X1. The traversal makes one bucket per calendar day: no two buckets
    share a day, and a day has a bucket exactly when some entry of the
    forecast falls on it. *)
Theorem group_by_day_one_bucket_per_day (env : Env) (items : list ForecastItem) :
  NoDup (map fst (group_by_day env items))
  /\ forall k, In k (map fst (group_by_day env items))
               <-> exists item, In item items /\ day_of env item = k.
Proof.
  destruct (group_fold env items [] []) as [A [B _]].
  - constructor.
  - intros k. simpl. split; [tauto|]. intros [it [[] _]].
  - intros k b [].
  - split; [exact A|exact B].
Qed.

(** X2. Each bucket holds exactly the entries of its day, in the order of
    the forecast list: their temperatures, humidities, rainfall amounts
    (0 when absent), wind speeds in km/h and provider conditions; its date
    and weekday are those of the day's first entry. *)
Theorem group_by_day_bucket_contents
    (env : Env) (items : list ForecastItem) (k : Z) (b : Bucket.t) :
  In (k, b) (group_by_day env items) ->
  holds env b (samples_of env k items).
Proof.
  destruct (group_fold env items [] []) as [_ [_ C]].
  - constructor.
  - intros k'. simpl. split; [tauto|]. intros [it [[] _]].
  - intros k' b' [].
  - apply C.
Qed.

Lemma group_by_day_bucket_contents_witness :
  In (1%Z, {| Bucket.date := "1/1/1970"; Bucket.day := "Thu";
              Bucket.temps := [26]; Bucket.humidity := [50];
              Bucket.rainfall := [0]; Bucket.windSpeed := [kmh 2];
              Bucket.conditions := ["Clear"]; Bucket.icons := ["Clear"] |})
     (group_by_day online
        [clear_item 0 24; clear_item 10800 27; clear_item 86400 26])
  /\ holds online
       {| Bucket.date := "1/1/1970"; Bucket.day := "Thu";
          Bucket.temps := [26]; Bucket.humidity := [50];
          Bucket.rainfall := [0]; Bucket.windSpeed := [kmh 2];
          Bucket.conditions := ["Clear"]; Bucket.icons := ["Clear"] |}
       (samples_of online 1
          [clear_item 0 24; clear_item 10800 27; clear_item 86400 26]).
Proof.
  assert (H : In (1%Z, {| Bucket.date := "1/1/1970"; Bucket.day := "Thu";
                          Bucket.temps := [26]; Bucket.humidity := [50];
                          Bucket.rainfall := [0]; Bucket.windSpeed := [kmh 2];
                          Bucket.conditions := ["Clear"]; Bucket.icons := ["Clear"] |})
               (group_by_day online
                  [clear_item 0 24; clear_item 10800 27; clear_item 86400 26])).
  { right. left. reflexivity. }
  split; [exact H|].
  apply (group_by_day_bucket_contents online _ _ _ H).
Defined.




(** X4. The forecast array has one entry per bucket up to seven: its
    length is the smaller of 7 and the number of calendar days present,
    whatever the span of the provider's answer. *)
Theorem forecast_of_length (env : Env) (current : Day) (items : list ForecastItem) :
  List.length (forecast_of env current items)
  = Nat.min 7 (List.length (group_by_day env items))
  /\ (List.length (forecast_of env current items) <= 7)%nat.
Proof.
  assert (E : List.length (forecast_of env current items)
              = Nat.min 7 (List.length (group_by_day env items))).
  { unfold forecast_of.
    set (l := map summarize (firstn 7 (map snd (group_by_day env items)))).
    assert (El : List.length l = Nat.min 7 (List.length (group_by_day env items))).
    { unfold l. rewrite length_map, length_firstn, length_map. reflexivity. }
    rewrite <- El. destruct l; reflexivity. }
  split; [exact E|]. rewrite E. apply Nat.le_min_l.
Qed.

(** ** The fetcher *)

(** X5. A partial success is a failure: when the current-conditions
    request succeeds and the forecast request fails, the call ends with
    the forecast request's error after both requests were sent, no report
    is returned, and nothing else of the state has changed. *)
Theorem fetchRealWeatherData_forecast_failure
    (env : Env) (locationData : LocationInfo) (w : World)
    (data : CurrentData) (e : JsError) :
  current_weather env (lat (coordinates locationData)) (lon (coordinates locationData))
  = Ok data ->
  forecast_weather env (lat (coordinates locationData)) (lon (coordinates locationData))
  = Throw e ->
  fetchRealWeatherData env locationData w
  = (Throw e,
     {| weatherData := weatherData w; error := error w; loading := loading w;
        locationResolving := locationResolving w;
        requests := requests w
                    ++ [CurrentWeather (lat (coordinates locationData))
                                       (lon (coordinates locationData));
                        Forecast (lat (coordinates locationData))
                                 (lon (coordinates locationData))];
        draws := draws w |}).
Proof.
  intros Hc Hf. unfold fetchRealWeatherData, try_catch, bind, axios_get, ret, throw.
  rewrite Hc, Hf. cbn [requests weatherData error loading locationResolving draws].
  rewrite <- app_assoc. reflexivity.
Qed.

Lemma fetchRealWeatherData_forecast_failure_witness :
  (current_weather forecast_down 28.6517 77.2219 = Ok clear_now
   /\ forecast_weather forecast_down 28.6517 77.2219
      = Throw {| response := Some 500%Z;
                 message := "Request failed with status code 500" |})
  /\ fetchRealWeatherData forecast_down
       {| label := "Delhi"; coordinates := {| lat := 28.6517; lon := 77.2219 |};
          name := "Delhi"; country := None; state := None |} initial
     = (Throw {| response := Some 500%Z;
                 message := "Request failed with status code 500" |},
        {| weatherData := None; error := None; loading := false;
           locationResolving := false;
           requests := [CurrentWeather 28.6517 77.2219; Forecast 28.6517 77.2219];
           draws := O |}).
Proof.
  split; [split; reflexivity|].
  apply (fetchRealWeatherData_forecast_failure forecast_down
           {| label := "Delhi"; coordinates := {| lat := 28.6517; lon := 77.2219 |};
              name := "Delhi"; country := None; state := None |} initial
           clear_now
           {| response := Some 500%Z;
              message := "Request failed with status code 500" |});
    reflexivity.
Defined.

(** X6. When the current-conditions request fails, the forecast is never
    requested: the call ends with the provider's error after that single
    request, and nothing else of the state has changed. *)
Theorem fetchRealWeatherData_stops_at_first_failure
    (env : Env) (locationData : LocationInfo) (w : World) (e : JsError) :
  current_weather env (lat (coordinates locationData)) (lon (coordinates locationData))
  = Throw e ->
  fetchRealWeatherData env locationData w
  = (Throw e,
     {| weatherData := weatherData w; error := error w; loading := loading w;
        locationResolving := locationResolving w;
        requests := requests w
                    ++ [CurrentWeather (lat (coordinates locationData))
                                       (lon (coordinates locationData))];
        draws := draws w |}).
Proof.
  intros Hc. unfold fetchRealWeatherData, try_catch, bind, axios_get, ret, throw.
  rewrite Hc. reflexivity.
Qed.

Lemma fetchRealWeatherData_stops_at_first_failure_witness :
  current_weather (offline 0) 28.6517 77.2219 = Throw (Error_ "Network Error")
  /\ fetchRealWeatherData (offline 0)
       {| label := "Delhi"; coordinates := {| lat := 28.6517; lon := 77.2219 |};
          name := "Delhi"; country := None; state := None |} initial
     = (Throw (Error_ "Network Error"),
        {| weatherData := None; error := None; loading := false;
           locationResolving := false;
           requests := [CurrentWeather 28.6517 77.2219];
           draws := O |}).
Proof.
  split; [reflexivity|].
  apply (fetchRealWeatherData_stops_at_first_failure (offline 0)
           {| label := "Delhi"; coordinates := {| lat := 28.6517; lon := 77.2219 |};
              name := "Delhi"; country := None; state := None |} initial
           (Error_ "Network Error")).
  reflexivity.
Defined.

(** ** More on the location resolver *)

Lemma valid_text (text : string) :
  (2 <= String.length (trim text))%nat ->
  truthy text = true /\ truthy (trim text) = true
  /\ (String.length (trim text) <? 2)%nat = false.
Proof.
  intros Hlen.
  assert (Ht : truthy (trim text) = true).
  { destruct (trim text); [simpl in Hlen; lia|reflexivity]. }
  split; [apply truthy_of_trim, Ht|]. split; [exact Ht|].
  apply Nat.ltb_ge, Hlen.
Qed.

(** The run of the resolver on a text of at least two characters, case by
    case. *)
Lemma resolveLocation_unconfigured_run (env : Env) (text : string) (w : World) :
  (2 <= String.length (trim text))%nat ->
  negb (truthy_opt (API_KEY env)) || negb (truthy_opt (BASE_URL env)) = true ->
  resolveLocation env text w
  = (Throw (Error_ ("Unable to find location " ++ quote ++ trim text ++ quote
                    ++ ". API configuration is missing")%string),
     {| weatherData := weatherData w; error := error w; loading := loading w;
        locationResolving := false; requests := requests w; draws := draws w |}).
Proof.
  intros Hlen Hcfg. destruct (valid_text text Hlen) as [Hs [Ht Hl]].
  unfold resolveLocation. rewrite Hs, Ht, Hl, Hcfg.
  reflexivity.
Qed.

Lemma resolveLocation_found_run (env : Env) (text : string) (w : World)
    (geoData : GeoData) (others : list GeoData) :
  (2 <= String.length (trim text))%nat ->
  negb (truthy_opt (API_KEY env)) || negb (truthy_opt (BASE_URL env)) = false ->
  geocode env (trim text) 5 = Ok (geoData :: others) ->
  exists info : LocationInfo,
    resolveLocation env text w
    = (Ok info,
       {| weatherData := weatherData w; error := error w; loading := loading w;
          locationResolving := false;
          requests := requests w ++ [GeoDirect (trim text) 5]; draws := draws w |})
    /\ coordinates info = {| lat := geo_lat geoData; lon := geo_lon geoData |}.
Proof.
  intros Hlen Hcfg Hgeo. destruct (valid_text text Hlen) as [Hs [Ht Hl]].
  unfold resolveLocation. rewrite Hs, Ht, Hl, Hcfg.
  cbn [negb orb]. cbv beta iota.
  unfold bind, try_catch, setLocationResolving, axios_get, ret, throw.
  rewrite Hgeo. eexists. split; reflexivity.
Qed.

Lemma resolveLocation_empty_run (env : Env) (text : string) (w : World) :
  (2 <= String.length (trim text))%nat ->
  negb (truthy_opt (API_KEY env)) || negb (truthy_opt (BASE_URL env)) = false ->
  geocode env (trim text) 5 = Ok [] ->
  resolveLocation env text w
  = (Throw (Error_ ("Unable to find location " ++ quote ++ trim text ++ quote
                    ++ ". " ++ "Location " ++ quote ++ trim text ++ quote
                    ++ " not found. Please check spelling or try a nearby city.")%string),
     {| weatherData := weatherData w; error := error w; loading := loading w;
        locationResolving := false;
        requests := requests w ++ [GeoDirect (trim text) 5]; draws := draws w |}).
Proof.
  intros Hlen Hcfg Hgeo. destruct (valid_text text Hlen) as [Hs [Ht Hl]].
  unfold resolveLocation. rewrite Hs, Ht, Hl, Hcfg.
  cbn [negb orb]. cbv beta iota.
  unfold bind, try_catch, setLocationResolving, axios_get, ret, throw.
  rewrite Hgeo. reflexivity.
Qed.

Lemma resolveLocation_failed_run (env : Env) (text : string) (w : World) (err : JsError) :
  (2 <= String.length (trim text))%nat ->
  negb (truthy_opt (API_KEY env)) || negb (truthy_opt (BASE_URL env)) = false ->
  geocode env (trim text) 5 = Throw err ->
  exists msg : string,
    resolveLocation env text w
    = (Throw (Error_ msg),
       {| weatherData := weatherData w; error := error w; loading := loading w;
          locationResolving := false;
          requests := requests w ++ [GeoDirect (trim text) 5]; draws := draws w |})
    /\ msg
       = match response err with
         | Some status =>
             if (status =? 401)%Z then
               "Invalid API key. Please check your configuration."
             else if (status =? 429)%Z then
               "Too many requests. Please wait a moment and try again."
             else if (status =? 404)%Z then
               ("Location " ++ quote ++ trim text ++ quote
                ++ " not found. Please try a different location.")%string
             else ("Unable to find location " ++ quote ++ trim text ++ quote
                   ++ ". " ++ message err)%string
         | None => ("Unable to find location " ++ quote ++ trim text ++ quote
                    ++ ". " ++ message err)%string
         end.
Proof.
  intros Hlen Hcfg Hgeo. destruct (valid_text text Hlen) as [Hs [Ht Hl]].
  unfold resolveLocation. rewrite Hs, Ht, Hl, Hcfg.
  cbn [negb orb]. cbv beta iota.
  unfold bind, try_catch, setLocationResolving, axios_get, ret, throw.
  rewrite Hgeo. cbv beta iota.
  destruct (response err) as [status|]; [|eexists; split; reflexivity].
  destruct (status =? 401)%Z; [eexists; split; reflexivity|].
  destruct (status =? 429)%Z; [eexists; split; reflexivity|].
  destruct (status =? 404)%Z; eexists; split; reflexivity.
Qed.

(** Every run of the resolver is one of five. *)
Lemma resolveLocation_runs (env : Env) (text : string) (w : World) :
  let asked :=
    {| weatherData := weatherData w; error := error w; loading := loading w;
       locationResolving := false;
       requests := requests w ++ [GeoDirect (trim text) 5]; draws := draws w |} in
  (exists msg, resolveLocation env text w = (Throw (Error_ msg), w))
  \/ (exists msg,
        resolveLocation env text w
        = (Throw (Error_ msg),
           {| weatherData := weatherData w; error := error w; loading := loading w;
              locationResolving := false; requests := requests w;
              draws := draws w |}))
  \/ (exists msg, resolveLocation env text w = (Throw (Error_ msg), asked))
  \/ (exists info geoData others,
        geocode env (trim text) 5 = Ok (geoData :: others)
        /\ resolveLocation env text w = (Ok info, asked)
        /\ coordinates info = {| lat := geo_lat geoData; lon := geo_lon geoData |}).
Proof.
  intros asked.
  destruct (Nat.lt_ge_cases (String.length (trim text)) 2) as [Hshort|Hlen].
  - left. destruct (resolveLocation_invalid_input env text w Hshort) as [E|E];
      rewrite E; eexists; reflexivity.
  - right.
    destruct (negb (truthy_opt (API_KEY env)) || negb (truthy_opt (BASE_URL env)))
      eqn:Hcfg.
    + left. rewrite (resolveLocation_unconfigured_run env text w Hlen Hcfg).
      eexists; reflexivity.
    + right. destruct (geocode env (trim text) 5) as [[|g gs]|err] eqn:Hgeo.
      * left. rewrite (resolveLocation_empty_run env text w Hlen Hcfg Hgeo).
        eexists; reflexivity.
      * right.
        destruct (resolveLocation_found_run env text w g gs Hlen Hcfg Hgeo)
          as [info [E Hc]].
        exists info, g, gs. split; [reflexivity|]. split; assumption.
      * left.
        destruct (resolveLocation_failed_run env text w err Hlen Hcfg Hgeo)
          as [msg [E _]].
        exists msg. exact E.
Qed.

(** X7. An error thrown by the resolver is always a plain error: the HTTP
    response of a failed geocoding request never leaves it, only a
    message does. *)
Theorem resolveLocation_errors_are_plain
    (env : Env) (text : string) (w : World) (e : JsError) (w' : World) :
  resolveLocation env text w = (Throw e, w') -> response e = None.
Proof.
  intros H.
  destruct (resolveLocation_runs env text w)
    as [[msg E]|[[msg E]|[[msg E]|[info [g [gs [_ [E _]]]]]]]];
    rewrite E in H; try discriminate H;
    injection H as <- _; reflexivity.
Qed.

Lemma resolveLocation_errors_are_plain_witness :
  resolveLocation unauthorized "delhi" initial
  = (Throw (Error_ "Invalid API key. Please check your configuration."),
     {| weatherData := None; error := None; loading := false;
        locationResolving := false; requests := [GeoDirect "delhi" 5];
        draws := O |})
  /\ response (Error_ "Invalid API key. Please check your configuration.") = None.
Proof.
  split; [reflexivity|].
  apply (resolveLocation_errors_are_plain unauthorized "delhi" initial
           (Error_ "Invalid API key. Please check your configuration.")
           {| weatherData := None; error := None; loading := false;
              locationResolving := false; requests := [GeoDirect "delhi" 5];
              draws := O |}).
  reflexivity.
Defined.

(** X8. A geocoding request that fails with status 401, 429 or 404 is
    reported with a message of the resolver's own, which drops the
    provider's; any other failure is reported as "Unable to find location"
    followed by the provider's message. *)
Theorem resolveLocation_status_messages
    (env : Env) (text : string) (w : World) (err : JsError) :
  (2 <= String.length (trim text))%nat ->
  truthy_opt (API_KEY env) = true ->
  truthy_opt (BASE_URL env) = true ->
  geocode env (trim text) 5 = Throw err ->
  (response err = Some 401%Z ->
   fst (resolveLocation env text w)
   = Throw (Error_ "Invalid API key. Please check your configuration."))
  /\ (response err = Some 429%Z ->
      fst (resolveLocation env text w)
      = Throw (Error_ "Too many requests. Please wait a moment and try again."))
  /\ (response err = Some 404%Z ->
      fst (resolveLocation env text w)
      = Throw (Error_ ("Location " ++ quote ++ trim text ++ quote
                       ++ " not found. Please try a different location.")%string))
  /\ ((forall status, response err = Some status ->
         status <> 401%Z /\ status <> 429%Z /\ status <> 404%Z) ->
      fst (resolveLocation env text w)
      = Throw (Error_ ("Unable to find location " ++ quote ++ trim text ++ quote
                       ++ ". " ++ message err)%string)).
Proof.
  intros Hlen Hkey Hurl Hgeo.
  assert (Hcfg : negb (truthy_opt (API_KEY env)) || negb (truthy_opt (BASE_URL env))
                 = false) by (rewrite Hkey, Hurl; reflexivity).
  destruct (resolveLocation_failed_run env text w err Hlen Hcfg Hgeo)
    as [msg [E Hmsg]].
  rewrite E. cbn [fst]. rewrite Hmsg. clear E Hmsg.
  split; [intros ->; reflexivity|].
  split; [intros ->; reflexivity|].
  split; [intros ->; reflexivity|].
  intros Hother. destruct (response err) as [status|]; [|reflexivity].
  destruct (Hother status eq_refl) as [H1 [H2 H3]].
  apply Z.eqb_neq in H1, H2, H3. rewrite H1, H2, H3. reflexivity.
Qed.

Lemma resolveLocation_status_messages_witness :
  ((2 <= String.length (trim "delhi"))%nat
   /\ truthy_opt (API_KEY unauthorized) = true
   /\ truthy_opt (BASE_URL unauthorized) = true
   /\ geocode unauthorized (trim "delhi") 5
      = Throw {| response := Some 401%Z;
                 message := "Request failed with status code 401" |})
  /\ fst (resolveLocation unauthorized "delhi" initial)
     = Throw (Error_ "Invalid API key. Please check your configuration.").
Proof.
  split.
  - split; [vm_compute; lia|]. repeat split.
  - apply (proj1 (resolveLocation_status_messages unauthorized "delhi" initial
                    {| response := Some 401%Z;
                       message := "Request failed with status code 401" |}
                    ltac:(vm_compute; lia) eq_refl eq_refl eq_refl)).
    reflexivity.
Defined.

(** X9. When the geocoder answers with no candidate, the resolver's own
    "not found" error goes through its catch block like a provider
    failure: after the single request the error thrown reads "Unable to
    find location", the text, and then the whole "not found" sentence. *)
Theorem resolveLocation_no_candidate (env : Env) (text : string) (w : World) :
  (2 <= String.length (trim text))%nat ->
  truthy_opt (API_KEY env) = true ->
  truthy_opt (BASE_URL env) = true ->
  geocode env (trim text) 5 = Ok [] ->
  resolveLocation env text w
  = (Throw (Error_ ("Unable to find location " ++ quote ++ trim text ++ quote
                    ++ ". " ++ "Location " ++ quote ++ trim text ++ quote
                    ++ " not found. Please check spelling or try a nearby city.")%string),
     {| weatherData := weatherData w; error := error w; loading := loading w;
        locationResolving := false;
        requests := requests w ++ [GeoDirect (trim text) 5]; draws := draws w |}).
Proof.
  intros Hlen Hkey Hurl Hgeo.
  apply resolveLocation_empty_run; [exact Hlen| |exact Hgeo].
  rewrite Hkey, Hurl. reflexivity.
Qed.

Lemma resolveLocation_no_candidate_witness :
  ((2 <= String.length (trim " zzzzz "))%nat
   /\ truthy_opt (API_KEY no_candidates) = true
   /\ truthy_opt (BASE_URL no_candidates) = true
   /\ geocode no_candidates (trim " zzzzz ") 5 = Ok [])
  /\ resolveLocation no_candidates " zzzzz " initial
     = (Throw (Error_ ("Unable to find location " ++ quote ++ "zzzzz" ++ quote
                       ++ ". " ++ "Location " ++ quote ++ "zzzzz" ++ quote
                       ++ " not found. Please check spelling or try a nearby city.")%string),
        {| weatherData := None; error := None; loading := false;
           locationResolving := false; requests := [GeoDirect "zzzzz" 5];
           draws := O |}).
Proof.
  split.
  - split; [vm_compute; lia|]. repeat split.
  - apply (resolveLocation_no_candidate no_candidates " zzzzz " initial
             ltac:(vm_compute; lia) eq_refl eq_refl eq_refl).
Defined.

(** X10. Without an API key or a base URL the resolver sends nothing: a
    text of at least two characters fails with "API configuration is
    missing", wrapped as a location that could not be found. *)
Theorem resolveLocation_needs_configuration (env : Env) (text : string) (w : World) :
  (2 <= String.length (trim text))%nat ->
  truthy_opt (API_KEY env) = false \/ truthy_opt (BASE_URL env) = false ->
  resolveLocation env text w
  = (Throw (Error_ ("Unable to find location " ++ quote ++ trim text ++ quote
                    ++ ". API configuration is missing")%string),
     {| weatherData := weatherData w; error := error w; loading := loading w;
        locationResolving := false; requests := requests w; draws := draws w |}).
Proof.
  intros Hlen Hcfg. apply resolveLocation_unconfigured_run; [exact Hlen|].
  destruct Hcfg as [-> | ->]; [reflexivity|apply orb_true_r].
Qed.

Lemma resolveLocation_needs_configuration_witness :
  ((2 <= String.length (trim "pune"))%nat
   /\ (truthy_opt (API_KEY low_draws) = false \/ truthy_opt (BASE_URL low_draws) = false))
  /\ resolveLocation low_draws "pune" initial
     = (Throw (Error_ ("Unable to find location " ++ quote ++ "pune" ++ quote
                       ++ ". API configuration is missing")%string),
        {| weatherData := None; error := None; loading := false;
           locationResolving := false; requests := []; draws := O |}).
Proof.
  split.
  - split; [vm_compute; lia|left; reflexivity].
  - apply (resolveLocation_needs_configuration low_draws "pune" initial
             ltac:(vm_compute; lia) (or_introl eq_refl)).
Defined.

(** X11. Whatever happens, the resolver leaves the weather data, the
    error message, the loading flag and the random source alone and sends
    at most one request; for a text of at least two characters the
    "finding location" flag is down when it ends, and for a shorter text
    the state is not touched at all. *)
Theorem resolveLocation_frame (env : Env) (text : string) (w : World) :
  weatherData (snd (resolveLocation env text w)) = weatherData w
  /\ error (snd (resolveLocation env text w)) = error w
  /\ loading (snd (resolveLocation env text w)) = loading w
  /\ draws (snd (resolveLocation env text w)) = draws w
  /\ (requests (snd (resolveLocation env text w)) = requests w
      \/ requests (snd (resolveLocation env text w))
         = requests w ++ [GeoDirect (trim text) 5])
  /\ ((2 <= String.length (trim text))%nat ->
      locationResolving (snd (resolveLocation env text w)) = false)
  /\ ((String.length (trim text) < 2)%nat ->
      snd (resolveLocation env text w) = w).
Proof.
  assert (Hshort : (String.length (trim text) < 2)%nat ->
                   snd (resolveLocation env text w) = w).
  { intros H. destruct (resolveLocation_invalid_input env text w H) as [E|E];
      rewrite E; reflexivity. }
  destruct (Nat.lt_ge_cases (String.length (trim text)) 2) as [Hlt|Hge].
  - rewrite (Hshort Hlt). repeat split; try (left; reflexivity); try assumption.
    intros H. lia.
  - assert (Hno : (String.length (trim text) < 2)%nat ->
                  snd (resolveLocation env text w) = w) by (intros H; lia).
    destruct (negb (truthy_opt (API_KEY env)) || negb (truthy_opt (BASE_URL env)))
      eqn:Hcfg.
    + rewrite (resolveLocation_unconfigured_run env text w Hge Hcfg) in *.
      cbn [snd weatherData error loading draws requests locationResolving].
      repeat split; try (left; reflexivity); assumption.
    + destruct (geocode env (trim text) 5) as [[|g gs]|err] eqn:Hgeo.
      * rewrite (resolveLocation_empty_run env text w Hge Hcfg Hgeo) in *.
        cbn [snd weatherData error loading draws requests locationResolving].
        repeat split; try (right; reflexivity); assumption.
      * destruct (resolveLocation_found_run env text w g gs Hge Hcfg Hgeo)
          as [info [E _]].
        rewrite E in *.
        cbn [snd weatherData error loading draws requests locationResolving].
        repeat split; try (right; reflexivity); assumption.
      * destruct (resolveLocation_failed_run env text w err Hge Hcfg Hgeo)
          as [msg [E _]].
        rewrite E in *.
        cbn [snd weatherData error loading draws requests locationResolving].
        repeat split; try (right; reflexivity); assumption.
Qed.

Lemma resolveLocation_frame_witness :
  (2 <= String.length (trim "delhi"))%nat
  /\ locationResolving (snd (resolveLocation online "delhi" initial)) = false
  /\ requests (snd (resolveLocation online "delhi" initial))
     = requests initial ++ [GeoDirect (trim "delhi") 5].
Proof.
  split; [vm_compute; lia|]. split.
  - apply (proj1 (proj2 (proj2 (proj2 (proj2 (proj2
             (resolveLocation_frame online "delhi" initial))))))).
    vm_compute; lia.
  - reflexivity.
Defined.

(** ** More on the orchestrator *)

Lemma fetchRealWeatherData_frame (env : Env) (locationData : LocationInfo) (w : World) :
  let c := coordinates locationData in
  weatherData (snd (fetchRealWeatherData env locationData w)) = weatherData w
  /\ error (snd (fetchRealWeatherData env locationData w)) = error w
  /\ loading (snd (fetchRealWeatherData env locationData w)) = loading w
  /\ locationResolving (snd (fetchRealWeatherData env locationData w))
     = locationResolving w
  /\ draws (snd (fetchRealWeatherData env locationData w)) = draws w
  /\ (requests (snd (fetchRealWeatherData env locationData w))
      = requests w ++ [CurrentWeather (lat c) (lon c)]
      \/ requests (snd (fetchRealWeatherData env locationData w))
         = requests w ++ [CurrentWeather (lat c) (lon c); Forecast (lat c) (lon c)])
  /\ (forall r, fst (fetchRealWeatherData env locationData w) = Ok r ->
      requests (snd (fetchRealWeatherData env locationData w))
      = requests w ++ [CurrentWeather (lat c) (lon c); Forecast (lat c) (lon c)]).
Proof.
  intros c. unfold fetchRealWeatherData, try_catch, bind, axios_get, ret, throw.
  fold c. cbv beta iota.
  destruct (current_weather env (lat c) (lon c)) as [data|e1];
    [destruct (forecast_weather env (lat c) (lon c)) as [items|e2]|];
    cbn [fst snd weatherData error loading locationResolving draws requests];
    rewrite <- ?app_assoc; cbn [app];
    do 5 (split; [reflexivity|]);
    (split; [first [left; reflexivity | right; reflexivity]|]);
    intros r H; first [discriminate H | reflexivity].
Qed.

(** Every run of the live path: what it leaves alone and what it
    requests. *)
Lemma live_runs (env : Env) (text : string) (w : World) :
  weatherData (snd (live env text w)) = weatherData w
  /\ error (snd (live env text w)) = error w
  /\ loading (snd (live env text w)) = loading w
  /\ draws (snd (live env text w)) = draws w
  /\ (requests (snd (live env text w)) = requests w
      \/ requests (snd (live env text w)) = requests w ++ [GeoDirect (trim text) 5]
      \/ exists geoData others,
           geocode env (trim text) 5 = Ok (geoData :: others)
           /\ (requests (snd (live env text w))
               = requests w ++ firstn 2 (query_requests text geoData)
               \/ requests (snd (live env text w))
                  = requests w ++ query_requests text geoData))
  /\ (forall r, fst (live env text w) = Ok r ->
      locationResolving (snd (live env text w)) = false
      /\ exists geoData others,
           geocode env (trim text) 5 = Ok (geoData :: others)
           /\ requests (snd (live env text w))
              = requests w ++ query_requests text geoData).
Proof.
  unfold live, bind.
  destruct (resolveLocation_runs env text w)
    as [[msg E]|[[msg E]|[[msg E]|[info [g [gs [Hgeo [E Hc]]]]]]]];
    rewrite E.
  - cbn [fst snd]. do 4 (split; [reflexivity|]).
    split; [left; reflexivity|]. intros r H; discriminate H.
  - cbn [fst snd weatherData error loading draws requests].
    do 4 (split; [reflexivity|]).
    split; [left; reflexivity|]. intros r H; discriminate H.
  - cbn [fst snd weatherData error loading draws requests].
    do 4 (split; [reflexivity|]).
    split; [right; left; reflexivity|]. intros r H; discriminate H.
  - match goal with
    | |- context [fetchRealWeatherData env info ?w0] =>
        pose proof (fetchRealWeatherData_frame env info w0) as F;
        destruct (fetchRealWeatherData env info w0) as [o w1]
    end.
    cbn [fst snd weatherData error loading draws requests locationResolving] in *.
    rewrite Hc in F. cbn [lat lon] in F.
    destruct F as [F1 [F2 [F3 [F4 [F5 [F6 F7]]]]]].
    assert (F7' : forall r, o = Ok r ->
              requests w1
              = requests w ++ [GeoDirect (trim text) 5;
                               CurrentWeather (geo_lat g) (geo_lon g);
                               Forecast (geo_lat g) (geo_lon g)]).
    { intros r Hr. rewrite (F7 r Hr), <- app_assoc. reflexivity. }
    split; [exact F1|]. split; [exact F2|]. split; [exact F3|]. split; [exact F5|].
    split.
    + right; right. exists g, gs. split; [exact Hgeo|].
      unfold query_requests. cbn [firstn app].
      destruct F6 as [F6|F6]; rewrite F6, <- app_assoc; [left|right]; reflexivity.
    + intros r Hr. split; [exact F4|].
      exists g, gs. split; [exact Hgeo|].
      unfold query_requests. apply (F7' r Hr).
Qed.

Lemma finally_catch_ok {A B C} (c : M A) (k0 : A -> M B) (k1 : B -> M C)
    (handler : JsError -> M C) (finalizer : M unit)
    (w : World) (r : B) (w1 : World) (u : C) (w2 : World) :
  (x <- c ;; k0 x) w = (Ok r, w1) ->
  k1 r w1 = (Ok u, w2) ->
  try_finally (try_catch (x <- c ;; y <- k0 x ;; k1 y) handler) finalizer w
  = try_finally (ret u) finalizer w2.
Proof.
  unfold try_finally, try_catch, bind, ret. intros H K.
  destruct (c w) as [[a|e0] w0]; [|discriminate H].
  rewrite H, K. reflexivity.
Qed.

(** X12. When resolving and fetching both succeed, the handler shows the
    provider's report as it came: the weather data is that report, the
    error message is cleared, the loading flag is down, and not a single
    random number was drawn. *)
Theorem fetchWeatherData_live_report
    (env : Env) (selectedLocation : string) (w : World) (r : Report) (w1 : World) :
  truthy (trim selectedLocation) = true ->
  live env selectedLocation (started w) = (Ok r, w1) ->
  fetchWeatherData env selectedLocation w
  = (Ok tt,
     {| weatherData := Some r; error := None; loading := false;
        locationResolving := false; requests := requests w1; draws := draws w |}).
Proof.
  intros Ht Hlive.
  pose proof (live_runs env selectedLocation (started w)) as F.
  rewrite Hlive in F. cbn [fst snd] in F.
  destruct F as [_ [Herr [_ [Hdraws [_ Hok]]]]].
  destruct (Hok r eq_refl) as [Hres _].
  unfold fetchWeatherData. rewrite Ht. cbn [negb].
  rewrite start_run.
  rewrite (finally_catch_ok _ _ _ _ _ _ _ _ tt _ Hlive eq_refl).
  unfold try_finally, ret, setLoading, setWeatherData.
  cbn [weatherData error loading locationResolving requests draws].
  rewrite Herr, Hdraws, Hres. reflexivity.
Qed.

Lemma fetchWeatherData_live_report_witness :
  exists (r : Report) (w1 : World),
    (truthy (trim "delhi") = true /\ live online "delhi" (started initial) = (Ok r, w1))
    /\ fetchWeatherData online "delhi" initial
       = (Ok tt,
          {| weatherData := Some r; error := None; loading := false;
             locationResolving := false; requests := requests w1; draws := O |}).
Proof.
  destruct (live online "delhi" (started initial)) as [[r|e] w1] eqn:E;
    [|vm_compute in E; discriminate E].
  exists r, w1. split; [split; reflexivity|].
  apply (fetchWeatherData_live_report online "delhi" initial r w1 eq_refl E).
Defined.

(** After any query with a text that is not blank the page has a report,
    no error message and the loading flag down. *)
Lemma fetchWeatherData_outcome (env : Env) (selectedLocation : string) (w : World) :
  truthy (trim selectedLocation) = true ->
  exists (r : Report) (w' : World),
    fetchWeatherData env selectedLocation w = (Ok tt, w')
    /\ weatherData w' = Some r
    /\ error w' = None
    /\ loading w' = false
    /\ requests w' = requests (snd (live env selectedLocation (started w)))
    /\ ((exists w1, live env selectedLocation (started w) = (Ok r, w1))
        \/ (exists wa wb,
               generateMockWeatherData env selectedLocation wa = (Ok r, wb))).
Proof.
  intros Ht.
  destruct (live env selectedLocation (started w)) as [[r|e] w1] eqn:Hlive.
  - exists r. eexists.
    split; [apply (fetchWeatherData_live_report env _ w r w1 Ht Hlive)|].
    cbn [weatherData error loading requests snd].
    repeat split. left. exists w1. reflexivity.
  - destruct (fetchWeatherData_catch_all env _ w e w1 Ht Hlive)
      as [mock [w2 [E [H1 [H2 [H3 [H4 [H5 _]]]]]]]].
    exists mock, w2. cbn [snd]. repeat split; try assumption. right. exact H5.
Qed.

(** The run of the handler when the live path succeeded. *)
Lemma live_report_run
    (env : Env) (selectedLocation : string) (w : World) (r : Report) (w1 : World) :
  truthy (trim selectedLocation) = true ->
  live env selectedLocation (started w) = (Ok r, w1) ->
  exists w' : World,
    fetchWeatherData env selectedLocation w = (Ok tt, w')
    /\ weatherData w' = Some r /\ error w' = None /\ loading w' = false.
Proof.
  intros Ht Hlive.
  pose proof (live_runs env selectedLocation (started w)) as F.
  rewrite Hlive in F. cbn [fst snd] in F.
  destruct F as [_ [Herr _]].
  unfold fetchWeatherData. rewrite Ht. cbn [negb].
  rewrite start_run.
  rewrite (finally_catch_ok _ _ _ _ _ _ _ _ tt _ Hlive eq_refl).
  unfold try_finally, ret, setLoading, setWeatherData.
  eexists. split; [reflexivity|].
  cbn [weatherData error loading]. split; [reflexivity|].
  split; [exact Herr|reflexivity].
Qed.

(** X13. Whatever the environment answers, a query with a text that is not
    blank ends normally with a report on the page, no error message and
    the loading flag down; the report is the provider's when the live path
    succeeded and a generated one when the live path threw. *)
Theorem fetchWeatherData_always_reports
    (env : Env) (selectedLocation : string) (w : World) :
  truthy (trim selectedLocation) = true ->
  exists (r : Report) (w' : World),
    fetchWeatherData env selectedLocation w = (Ok tt, w')
    /\ weatherData w' = Some r
    /\ error w' = None
    /\ loading w' = false
    /\ (forall (live_report : Report) (w1 : World),
           live env selectedLocation (started w) = (Ok live_report, w1) ->
           r = live_report)
    /\ (forall (e : JsError) (w1 : World),
           live env selectedLocation (started w) = (Throw e, w1) ->
           exists wa wb,
             generateMockWeatherData env selectedLocation wa = (Ok r, wb)).
Proof.
  intros Ht.
  destruct (live env selectedLocation (started w)) as [[r|e] w1] eqn:Hlive.
  - destruct (live_report_run env selectedLocation w r w1 Ht Hlive)
      as [w' [E [H1 [H2 H3]]]].
    exists r, w'.
    split; [exact E|]. split; [exact H1|]. split; [exact H2|]. split; [exact H3|].
    split.
    + intros r1 w2 H. now injection H as <- _.
    + intros e w2 H. discriminate H.
  - destruct (fetchWeatherData_catch_all env _ w e w1 Ht Hlive)
      as [mock [w2 [E [H1 [H2 [H3 [_ [H5 _]]]]]]]].
    exists mock, w2.
    split; [exact E|]. split; [exact H1|]. split; [exact H2|]. split; [exact H3|].
    split.
    + intros r1 w3 H. discriminate H.
    + intros _ _ _. exact H5.
Qed.

Lemma fetchWeatherData_always_reports_witness :
  truthy (trim "pune") = true
  /\ exists (r : Report) (w' : World),
       fetchWeatherData unauthorized "pune" initial = (Ok tt, w')
       /\ weatherData w' = Some r
       /\ error w' = None
       /\ loading w' = false
       /\ (forall (live_report : Report) (w1 : World),
              live unauthorized "pune" (started initial) = (Ok live_report, w1) ->
              r = live_report)
       /\ (forall (e : JsError) (w1 : World),
              live unauthorized "pune" (started initial) = (Throw e, w1) ->
              exists wa wb,
                generateMockWeatherData unauthorized "pune" wa = (Ok r, wb)).
Proof.
  split; [reflexivity|].
  apply (fetchWeatherData_always_reports unauthorized "pune" initial eq_refl).
Defined.

Lemma trim_blank (s : string) : truthy (trim s) = false -> trim s = "".
Proof.
  unfold truthy. rewrite negb_false_iff. apply String.eqb_eq.
Qed.

(** X14. The only message the handler ever leaves in the error state is
    "Please enter a location name", and it leaves it only for a blank
    text: none of the resolver's or the provider's messages survives a
    query. *)
Theorem fetchWeatherData_error_banner
    (env : Env) (selectedLocation : string) (w : World) (msg : string) :
  error (snd (fetchWeatherData env selectedLocation w)) = Some msg ->
  msg = "Please enter a location name" /\ trim selectedLocation = "".
Proof.
  intros H.
  destruct (truthy (trim selectedLocation)) eqn:Ht.
  - destruct (fetchWeatherData_outcome env selectedLocation w Ht)
      as [r [w' [E [_ [Herr _]]]]].
    rewrite E in H. cbn [snd] in H. congruence.
  - apply trim_blank in Ht.
    rewrite (fetchWeatherData_blank_blocks env selectedLocation w Ht) in H.
    cbn [snd error] in H. injection H as <-. split; [reflexivity|exact Ht].
Qed.

Lemma fetchWeatherData_error_banner_witness :
  error (snd (fetchWeatherData online "   " initial))
  = Some "Please enter a location name"
  /\ "Please enter a location name" = "Please enter a location name"
  /\ trim "   " = "".
Proof.
  split; [reflexivity|].
  apply (fetchWeatherData_error_banner online "   " initial
           "Please enter a location name" eq_refl).
Defined.

(** X15. One query sends at most three requests, always in the same order:
    the geocoding request for the trimmed text, then the current
    conditions and then the forecast at the coordinates of the first
    candidate; a blank or one-character text sends none. *)
Theorem fetchWeatherData_request_budget
    (env : Env) (selectedLocation : string) (w : World) :
  (requests (snd (fetchWeatherData env selectedLocation w)) = requests w
   \/ requests (snd (fetchWeatherData env selectedLocation w))
      = requests w ++ [GeoDirect (trim selectedLocation) 5]
   \/ exists geoData others,
        geocode env (trim selectedLocation) 5 = Ok (geoData :: others)
        /\ (requests (snd (fetchWeatherData env selectedLocation w))
            = requests w ++ firstn 2 (query_requests selectedLocation geoData)
            \/ requests (snd (fetchWeatherData env selectedLocation w))
               = requests w ++ query_requests selectedLocation geoData))
  /\ ((String.length (trim selectedLocation) < 2)%nat ->
      requests (snd (fetchWeatherData env selectedLocation w)) = requests w).
Proof.
  destruct (truthy (trim selectedLocation)) eqn:Ht.
  - destruct (fetchWeatherData_outcome env selectedLocation w Ht)
      as [r [w' [E [_ [_ [_ [Hreq _]]]]]]].
    rewrite E. cbn [snd]. rewrite Hreq.
    pose proof (live_runs env selectedLocation (started w)) as F.
    destruct F as [_ [_ [_ [_ [F _]]]]].
    change (requests (started w)) with (requests w) in F.
    split; [exact F|].
    intros Hshort. unfold live, bind.
    destruct (resolveLocation_invalid_input env selectedLocation (started w) Hshort)
      as [E1|E1]; rewrite E1; reflexivity.
  - apply trim_blank in Ht.
    rewrite (fetchWeatherData_blank_blocks env selectedLocation w Ht).
    cbn [snd requests]. split; [left; reflexivity|]. intros _. reflexivity.
Qed.

Lemma fetchWeatherData_request_budget_witness :
  (String.length (trim " a ") < 2)%nat
  /\ requests (snd (fetchWeatherData online " a " initial)) = requests initial.
Proof.
  split; [vm_compute; lia|].
  apply (proj2 (fetchWeatherData_request_budget online " a " initial)).
  vm_compute; lia.
Defined.

(** ** Ranges of the generated data *)

Lemma round_lower (q : Q) (z : Z) : inject_Z z <= q -> (z <= round q)%Z.
Proof.
  intros H. unfold round. rewrite <- (Qfloor_Z z).
  apply Qfloor_resp_le. lra.
Qed.

Lemma round_within (q : Q) (lo hi : Z) :
  inject_Z lo <= q -> q < inject_Z hi ->
  within (Math_round (Num q)) lo hi.
Proof.
  intros Hlo Hhi. exists (round q). split; [reflexivity|].
  split; [apply round_lower, Hlo|apply round_upper, Hhi].
Qed.

Lemma pick_in_range (a b c d e : string) (r : Q) :
  0 <= r -> r < 1 ->
  In (pick [a; b; c; d; e] r) (map VStr [a; b; c; d; e]).
Proof.
  intros H0 H1. unfold pick, Math_floor.
  assert (Hlo : (0 <= Qfloor (r * 5))%Z).
  { change 0%Z with (Qfloor 0). apply Qfloor_resp_le. lra. }
  assert (Hhi : (Qfloor (r * 5) < 5)%Z).
  { rewrite Zlt_Qlt. apply Qle_lt_trans with (r * 5); [apply Qfloor_le|].
    change (inject_Z 5) with 5. lra. }
  destruct (Z.ltb_spec (Qfloor (r * 5)) 0) as [Hneg|_]; [lia|].
  assert (Hi : Qfloor (r * 5) = 0%Z \/ Qfloor (r * 5) = 1%Z \/ Qfloor (r * 5) = 2%Z
               \/ Qfloor (r * 5) = 3%Z \/ Qfloor (r * 5) = 4%Z) by lia.
  destruct Hi as [-> |[-> |[-> |[-> | ->]]]]; simpl; tauto.
Qed.

Lemma mock_day_ranges (env : Env) (bt bh br : Q) (i : Z) (w : World) :
  (forall n, 0 <= random env n /\ random env n < 1) ->
  20 <= bt -> bt < 35 -> 50 <= bh -> bh < 80 -> 0 <= br -> br < 20 ->
  exists (d : Day) (w' : World),
    mock_day env bt bh br i w = (Ok d, w')
    /\ draws w' = (draws w + 7)%nat
    /\ generated_ranges d.
Proof.
  intros Hr Ht0 Ht1 Hh0 Hh1 Hr0 Hr1.
  eexists. eexists. split; [reflexivity|].
  cbn [draws]. split; [lia|].
  unfold generated_ranges.
  cbn [temperature max min humidity rainfall windSpeed condition icon draws].
  repeat match goal with
         | |- context [random env ?n] =>
             let a := fresh "r" in
             let Ha := fresh "Hr" in
             pose proof (Hr n) as Ha; set (a := random env n) in *; clearbody a
         end.
  repeat match goal with H : _ /\ _ |- _ => destruct H end.
  split; [apply round_within; unfold inject_Z; lra|].
  split; [apply round_within; unfold inject_Z; lra|].
  split; [apply round_within; unfold inject_Z; lra|].
  split; [apply round_within; unfold inject_Z; lra|].
  split; [apply round_within; unfold inject_Z; lra|].
  split; apply pick_in_range; assumption.
Qed.

Lemma mock_loop_ranges (env : Env) (bt bh br : Q) (remaining : nat) :
  (forall n, 0 <= random env n /\ random env n < 1) ->
  20 <= bt -> bt < 35 -> 50 <= bh -> bh < 80 -> 0 <= br -> br < 20 ->
  forall (i : Z) (acc : list Day) (w : World),
  exists (ds : list Day) (w' : World),
    mock_loop env bt bh br remaining i acc w = (Ok (acc ++ ds), w')
    /\ List.length ds = remaining
    /\ draws w' = (draws w + 7 * remaining)%nat
    /\ Forall generated_ranges ds.
Proof.
  intros Hr Ht0 Ht1 Hh0 Hh1 Hr0 Hr1.
  induction remaining as [|k IH]; intros i acc w.
  - exists [], w. rewrite app_nil_r. repeat split; [simpl; lia|constructor].
  - destruct (mock_day_ranges env bt bh br i w Hr Ht0 Ht1 Hh0 Hh1 Hr0 Hr1)
      as [d [w1 [Ed [Hd Hp]]]].
    destruct (IH (i + 1)%Z (acc ++ [d]) w1) as [ds [w2 [El [Hlen [Hdr Hall]]]]].
    exists (d :: ds), w2.
    cbn [mock_loop]. unfold bind at 1. rewrite Ed, El.
    rewrite <- app_assoc. split; [reflexivity|].
    split; [simpl; congruence|].
    split; [lia|].
    constructor; assumption.
Qed.

(** Draws and ranges of a generated report. *)
Lemma generated_report_ranges (env : Env) (location_ : string) (w : World) :
  (forall n, 0 <= random env n /\ random env n < 1) ->
  exists (r : Report) (w' : World) (rest : list Day),
    generateMockWeatherData env location_ w = (Ok r, w')
    /\ draws w' = (draws w + 3 + 7 * 7)%nat
    /\ forecast r = current r :: rest
    /\ List.length rest = 6%nat
    /\ Forall generated_ranges (forecast r).
Proof.
  intros Hr.
  unfold generateMockWeatherData, bind, Math_random.
  cbv beta iota.
  cbn [weatherData error loading locationResolving requests draws].
  match goal with
  | |- context [mock_loop env ?bt ?bh ?br 7 0 [] ?w0] =>
      destruct (mock_loop_ranges env bt bh br 7 Hr) with (i := 0%Z) (acc := @nil Day)
                                                        (w := w0)
        as [ds [w' [El [Hlen [Hdr Hall]]]]]
  end.
  1-6: repeat match goal with
         | Hrange : forall k : nat, _ |- context [random ?e ?n] =>
             let x := fresh "x" in
             let Ha := fresh "Hr" in
             pose proof (Hrange n) as Ha; destruct Ha;
             set (x := random e n) in *; clearbody x
         end; lra.
  rewrite El. cbn [app].
  destruct ds as [|first rest]; [discriminate|].
  exists {| location := location_; current := first; forecast := first :: rest;
            farmingAdvice := generateFarmingAdvice first |}, w', rest.
  split; [reflexivity|].
  cbn [forecast current draws] in *.
  split; [lia|]. split; [reflexivity|]. split; [|exact Hall].
  simpl in Hlen. lia.
Qed.

(** X16. A generated report consumes exactly 52 random draws and, with
    every draw in [0, 1), keeps each of its seven days within fixed
    ranges: maximum from 16 to 39 degrees, minimum from 15 to 34, humidity
    from 40 to 90 percent, rainfall from -5 to 25 mm, wind from 5 to 20
    km/h, and a condition and an icon taken from the five listed ones. *)
Theorem generateMockWeatherData_ranges (env : Env) (location_ : string) (w : World) :
  (forall n, 0 <= random env n /\ random env n < 1) ->
  exists (r : Report) (w' : World),
    generateMockWeatherData env location_ w = (Ok r, w')
    /\ draws w' = (draws w + 52)%nat
    /\ List.length (forecast r) = 7%nat
    /\ Forall generated_ranges (forecast r)
    /\ generated_ranges (current r).
Proof.
  intros Hr.
  destruct (generated_report_ranges env location_ w Hr)
    as [r [w' [rest [E [Hdraws [Hfc [Hlen Hall]]]]]]].
  exists r, w'. split; [exact E|].
  split; [rewrite Hdraws; lia|].
  split; [rewrite Hfc; simpl; lia|].
  split; [exact Hall|].
  rewrite Hfc in Hall. inversion Hall; assumption.
Qed.

Lemma generateMockWeatherData_ranges_witness :
  (forall n, 0 <= random (offline (1 # 2)) n /\ random (offline (1 # 2)) n < 1)
  /\ exists (r : Report) (w' : World),
       generateMockWeatherData (offline (1 # 2)) "Pune" initial = (Ok r, w')
       /\ draws w' = (draws initial + 52)%nat
       /\ List.length (forecast r) = 7%nat
       /\ Forall generated_ranges (forecast r)
       /\ generated_ranges (current r).
Proof.
  assert (H : forall n : nat,
             0 <= random (offline (1 # 2)) n /\ random (offline (1 # 2)) n < 1).
  { intros n. simpl. split; [discriminate|reflexivity]. }
  split; [exact H|].
  apply (generateMockWeatherData_ranges (offline (1 # 2)) "Pune" initial H).
Defined.

(** ** More on the advisory engine *)

Lemma gt_excludes_lt (x : JsNum) (a b : Q) :
  b <= a -> gt x a = true -> lt x b = false.
Proof.
  intros Hba. destruct x as [q| | |]; simpl; try discriminate; try reflexivity.
  intros H. apply Qltb_lt in H. apply Qltb_ge. lra.
Qed.

Lemma gt_weaker (x : JsNum) (a b : Q) :
  b <= a -> gt x a = true -> gt x b = true.
Proof.
  intros Hba. destruct x as [q| | |]; simpl; try discriminate; try reflexivity.
  intros H. apply Qltb_lt in H. apply Qltb_lt. lra.
Qed.

Ltac decide_line :=
  split; intros Hline;
  first [ reflexivity
        | discriminate Hline
        | apply In_existsb; vm_compute; reflexivity
        | apply In_existsb in Hline; vm_compute in Hline; discriminate Hline ].

Ltac by_cases_on_rules w :=
  let Hrain := fresh "Hrain" in
  let Htemp := fresh "Htemp" in
  assert (Hrain : gt (rainfall w) 15 = true -> lt (rainfall w) 5 = false)
    by (apply gt_excludes_lt; lra);
  assert (Htemp : gt (max (temperature w)) 35 = true
                  -> lt (max (temperature w)) 20 = false)
    by (apply gt_excludes_lt; lra);
  unfold generateFarmingAdvice;
  destruct (gt (rainfall w) 15) eqn:?R;
    [try rewrite (Hrain eq_refl)|destruct (lt (rainfall w) 5) eqn:?R];
    (destruct (gt (max (temperature w)) 35) eqn:?T;
     [try rewrite (Htemp eq_refl)|destruct (lt (max (temperature w)) 20) eqn:?T]);
    destruct (gt (humidity w) 80) eqn:?H, (gt (windSpeed w) 20) eqn:?W;
    clear Hrain Htemp.

(** Each line of a rule is in the advice exactly when the rule's test
    holds: the two rainfall rules, the two temperature rules, and the
    humidity and wind rules. *)
Lemma rain_lines (w : Day) :
  (forall a, In a heavy_rain_advice ->
     (In a (generateFarmingAdvice w) <-> gt (rainfall w) 15 = true))
  /\ (forall a, In a low_rain_advice ->
        (In a (generateFarmingAdvice w) <-> lt (rainfall w) 5 = true)).
Proof.
  by_cases_on_rules w; split; intros a Ha;
    repeat (destruct Ha as [<-|Ha]; [decide_line|]);
    destruct Ha.
Qed.

Lemma temperature_lines (w : Day) :
  (forall a, In a heat_advice ->
     (In a (generateFarmingAdvice w) <-> gt (max (temperature w)) 35 = true))
  /\ (forall a, In a cold_advice ->
        (In a (generateFarmingAdvice w) <-> lt (max (temperature w)) 20 = true)).
Proof.
  by_cases_on_rules w; split; intros a Ha;
    repeat (destruct Ha as [<-|Ha]; [decide_line|]);
    destruct Ha.
Qed.

Lemma humidity_and_wind_lines (w : Day) :
  (forall a, In a humid_advice ->
     (In a (generateFarmingAdvice w) <-> gt (humidity w) 80 = true))
  /\ (forall a, In a wind_advice ->
        (In a (generateFarmingAdvice w) <-> gt (windSpeed w) 20 = true)).
Proof.
  by_cases_on_rules w; split; intros a Ha;
    repeat (destruct Ha as [<-|Ha]; [decide_line|]);
    destruct Ha.
Qed.

(** X17. Every line of the advice is tied to its threshold: the three
    heavy-rain lines are present exactly when the rainfall is above 15,
    the three low-rain lines exactly when it is below 5, the two heat
    lines exactly when the maximum is above 35, the two cold lines exactly
    when it is below 20, the two humidity lines exactly when the humidity
    is above 80 and the two wind lines exactly when the wind is above
    20. *)
Theorem generateFarmingAdvice_thresholds (w : Day) :
  (forall a, In a heavy_rain_advice ->
     (In a (generateFarmingAdvice w) <-> gt (rainfall w) 15 = true))
  /\ (forall a, In a low_rain_advice ->
        (In a (generateFarmingAdvice w) <-> lt (rainfall w) 5 = true))
  /\ (forall a, In a heat_advice ->
        (In a (generateFarmingAdvice w) <-> gt (max (temperature w)) 35 = true))
  /\ (forall a, In a cold_advice ->
        (In a (generateFarmingAdvice w) <-> lt (max (temperature w)) 20 = true))
  /\ (forall a, In a humid_advice ->
        (In a (generateFarmingAdvice w) <-> gt (humidity w) 80 = true))
  /\ (forall a, In a wind_advice ->
        (In a (generateFarmingAdvice w) <-> gt (windSpeed w) 20 = true)).
Proof.
  destruct (rain_lines w) as [Hheavy Hlow].
  destruct (temperature_lines w) as [Hheat Hcold].
  destruct (humidity_and_wind_lines w) as [Hhumid Hwind].
  split; [exact Hheavy|]. split; [exact Hlow|].
  split; [exact Hheat|]. split; [exact Hcold|].
  split; [exact Hhumid|exact Hwind].
Qed.

Lemma generateFarmingAdvice_thresholds_witness :
  In "🚜 Postpone harvesting activities if possible" heavy_rain_advice
  /\ gt (rainfall stormy_day) 15 = true
  /\ In "🚜 Postpone harvesting activities if possible"
        (generateFarmingAdvice stormy_day).
Proof.
  assert (H : In "🚜 Postpone harvesting activities if possible" heavy_rain_advice)
    by (right; left; reflexivity).
  split; [exact H|]. split; [reflexivity|].
  apply (proj1 (generateFarmingAdvice_thresholds stormy_day) _ H). reflexivity.
Defined.

(** X18. The advice never contradicts itself and stays short: a heavy-rain
    line and a low-rain line are never in the same list, nor a heat line
    and a cold line, and the list has between one and nine lines. *)
Theorem generateFarmingAdvice_consistent (w : Day) :
  (forall a b, In a heavy_rain_advice -> In b low_rain_advice ->
     ~ (In a (generateFarmingAdvice w) /\ In b (generateFarmingAdvice w)))
  /\ (forall a b, In a heat_advice -> In b cold_advice ->
        ~ (In a (generateFarmingAdvice w) /\ In b (generateFarmingAdvice w)))
  /\ (1 <= List.length (generateFarmingAdvice w) <= 9)%nat.
Proof.
  destruct (rain_lines w) as [Hheavy Hlow].
  destruct (temperature_lines w) as [Hheat Hcold].
  split; [|split].
  - intros a b Ha Hb [Ia Ib].
    apply (Hheavy a Ha) in Ia. apply (Hlow b Hb) in Ib.
    rewrite (gt_excludes_lt (rainfall w) 15 5) in Ib; [discriminate|lra|exact Ia].
  - intros a b Ha Hb [Ia Ib].
    apply (Hheat a Ha) in Ia. apply (Hcold b Hb) in Ib.
    rewrite (gt_excludes_lt (max (temperature w)) 35 20) in Ib;
      [discriminate|lra|exact Ia].
  - unfold generateFarmingAdvice.
    destruct (gt (rainfall w) 15), (lt (rainfall w) 5),
      (gt (max (temperature w)) 35), (lt (max (temperature w)) 20),
      (gt (humidity w) 80), (gt (windSpeed w) 20);
      cbn; lia.
Qed.

Lemma generateFarmingAdvice_consistent_witness :
  (In "🚜 Postpone harvesting activities if possible" heavy_rain_advice
   /\ In "🌾 Good conditions for harvesting mature crops" low_rain_advice)
  /\ ~ (In "🚜 Postpone harvesting activities if possible"
           (generateFarmingAdvice stormy_day)
        /\ In "🌾 Good conditions for harvesting mature crops"
              (generateFarmingAdvice stormy_day)).
Proof.
  assert (Ha : In "🚜 Postpone harvesting activities if possible" heavy_rain_advice)
    by (right; left; reflexivity).
  assert (Hb : In "🌾 Good conditions for harvesting mature crops" low_rain_advice)
    by (right; left; reflexivity).
  split; [split; assumption|].
  apply (proj1 (generateFarmingAdvice_consistent stormy_day) _ _ Ha Hb).
Defined.

(** ** What the weather page displays *)

(** X19. On the current-weather card, where the condition is the
    normalized one, the fallback icon is shown for exactly one provider
    value: "Snow" (normalized to "Snowy", which the icon table does not
    list); every other value, mapped or not, gets an icon of the table. *)
Theorem current_condition_icon (weatherMain : string) :
  inherited weatherMain = false ->
  (Page.getWeatherIcon (getWeatherCondition weatherMain) = VStr "🌤️"
   <-> weatherMain = "Snow").
Proof.
  intros Hown. unfold getWeatherCondition, lookup_or, conditions.
  cbn [own]. rewrite Hown.
  repeat match goal with
         | |- context [String.eqb ?k weatherMain] =>
             let E := fresh "E" in
             destruct (String.eqb k weatherMain) eqn:E;
             [apply String.eqb_eq in E; subst weatherMain; vm_compute;
              first [ split; reflexivity
                    | split; intros Habs; discriminate Habs ]
             | apply String.eqb_neq in E ]
         end.
  split; [intros Habs; vm_compute in Habs; discriminate Habs|].
  intros ->. congruence.
Qed.

Lemma current_condition_icon_witness :
  inherited "Snow" = false
  /\ Page.getWeatherIcon (getWeatherCondition "Snow") = VStr "🌤️".
Proof.
  split; [reflexivity|].
  apply (proj2 (current_condition_icon "Snow" eq_refl)). reflexivity.
Defined.

(** X20. With every draw in [0, 1), each day of a generated report is
    shown with an icon of the icon table, never with the fallback icon,
    and the maximum of its current day is never coloured "cool". *)
Theorem generated_report_display (env : Env) (location_ : string) (w : World) :
  (forall n, 0 <= random env n /\ random env n < 1) ->
  exists (r : Report) (w' : World),
    generateMockWeatherData env location_ w = (Ok r, w')
    /\ (forall d, In d (forecast r) ->
          exists s v, condition d = VStr s
                      /\ own Page.icons s = Some v
                      /\ Page.getWeatherIcon (condition d) = VStr v
                      /\ v <> "🌤️")
    /\ Page.getTemperatureColor (max (temperature (current r))) <> "cool".
Proof.
  intros Hr.
  destruct (generated_report_ranges env location_ w Hr)
    as [r [w' [rest [E [_ [Hfc [_ Hall]]]]]]].
  assert (Hcur : generated_ranges (current r))
    by (rewrite Hfc in Hall; inversion Hall; assumption).
  exists r, w'. split; [exact E|]. split.
  - intros d Hd. rewrite Forall_forall in Hall.
    destruct (Hall d Hd) as [_ [_ [_ [_ [_ [Hc _]]]]]].
    simpl in Hc.
    destruct Hc as [<-|[<-|[<-|[<-|[<-|[]]]]]];
      eexists; eexists;
      (split; [reflexivity|]); (split; [reflexivity|]); (split; [reflexivity|]);
      intros Habs; vm_compute in Habs; discriminate Habs.
  - destruct Hcur as [[z [Ez Hz]] _]. rewrite Ez.
    unfold Page.getTemperatureColor. simpl gt.
    assert (H15 : Qltb 15 (inject_Z z) = true).
    { apply Qltb_lt. change 15 with (inject_Z 15). rewrite <- Zlt_Qlt. lia. }
    destruct (Qltb 35 (inject_Z z)); [discriminate|].
    destruct (Qltb 25 (inject_Z z)); [discriminate|].
    rewrite H15. discriminate.
Qed.

Lemma generated_report_display_witness :
  (forall n, 0 <= random (offline (1 # 2)) n /\ random (offline (1 # 2)) n < 1)
  /\ exists (r : Report) (w' : World),
       generateMockWeatherData (offline (1 # 2)) "Pune" initial = (Ok r, w')
       /\ (forall d, In d (forecast r) ->
             exists s v, condition d = VStr s
                         /\ own Page.icons s = Some v
                         /\ Page.getWeatherIcon (condition d) = VStr v
                         /\ v <> "🌤️")
       /\ Page.getTemperatureColor (max (temperature (current r))) <> "cool".
Proof.
  assert (H : forall n : nat,
             0 <= random (offline (1 # 2)) n /\ random (offline (1 # 2)) n < 1).
  { intros n. simpl. split; [discriminate|reflexivity]. }
  split; [exact H|].
  apply (generated_report_display (offline (1 # 2)) "Pune" initial H).
Defined.

(** X21. The colour classes follow the temperature: of two finite
    temperatures the higher one never gets a cooler class, the classes
    changing just above 15, 25 and 35 degrees. *)
Theorem getTemperatureColor_monotone (a b : Q) :
  a <= b ->
  (color_rank (Page.getTemperatureColor (Num a))
   <= color_rank (Page.getTemperatureColor (Num b)))%nat
  /\ (Page.getTemperatureColor (Num a) = "hot" <-> 35 < a)
  /\ (Page.getTemperatureColor (Num a) = "cool" <-> a <= 15).
Proof.
  intros Hab. unfold Page.getTemperatureColor. simpl gt.
  destruct (Qltb 35 a) eqn:A1; [apply Qltb_lt in A1|apply Qltb_ge in A1];
    (destruct (Qltb 25 a) eqn:A2; [apply Qltb_lt in A2|apply Qltb_ge in A2]);
    (destruct (Qltb 15 a) eqn:A3; [apply Qltb_lt in A3|apply Qltb_ge in A3]);
    (destruct (Qltb 35 b) eqn:B1; [apply Qltb_lt in B1|apply Qltb_ge in B1]);
    (destruct (Qltb 25 b) eqn:B2; [apply Qltb_lt in B2|apply Qltb_ge in B2]);
    (destruct (Qltb 15 b) eqn:B3; [apply Qltb_lt in B3|apply Qltb_ge in B3]);
    try (exfalso; lra);
    (split; [vm_compute; lia|]);
    split; split; intros H; first [reflexivity | discriminate H | lra | exact A1 | exact A3].
Qed.

Lemma getTemperatureColor_monotone_witness :
  20 <= 30
  /\ (color_rank (Page.getTemperatureColor (Num 20))
      <= color_rank (Page.getTemperatureColor (Num 30)))%nat.
Proof.
  assert (H : 20 <= 30) by discriminate.
  split; [exact H|].
  apply (proj1 (getTemperatureColor_monotone 20 30 H)).
Defined.

(** X22. The crop card and the advice list read the same thresholds: rice
    is said to benefit from the rainfall exactly when the heavy-rain
    advice is given, its temperature is "too high" exactly when the heat
    advice is given, the strong-wind advice comes with the note on cotton
    flowering, heat advice comes with "challenging" wheat and "stressed"
    maize, and maize is told to ensure drainage only when it is
    "stressed". *)
Theorem crop_impact_agrees_with_advice (w : Day) :
  (In "🌧️ Heavy rainfall expected - ensure proper drainage in fields"
      (generateFarmingAdvice w)
   <-> Page.rice_rainfall w = "benefit from current rainfall")
  /\ (In "🌡️ High temperatures - provide shade for livestock" (generateFarmingAdvice w)
      <-> Page.rice_temperature w = "too high")
  /\ (In "💨 Strong winds expected - secure loose structures" (generateFarmingAdvice w)
      -> Page.cotton_note w = " Strong winds may affect flowering.")
  /\ (In "🌡️ High temperatures - provide shade for livestock" (generateFarmingAdvice w)
      -> Page.wheat_conditions w = "challenging" /\ Page.maize_growth w = "stressed")
  /\ (Page.maize_note w = "Ensure proper drainage." -> Page.maize_growth w = "stressed").
Proof.
  destruct (rain_lines w) as [Hheavy _].
  destruct (temperature_lines w) as [Hheat _].
  destruct (humidity_and_wind_lines w) as [_ Hwind].
  assert (Iheavy := Hheavy _ (or_introl eq_refl)).
  assert (Iheat := Hheat _ (or_introl eq_refl)).
  assert (Iwind := Hwind _ (or_introl eq_refl)).
  clear Hheavy Hheat Hwind.
  split; [|split; [|split; [|split]]].
  - rewrite Iheavy. unfold Page.rice_rainfall.
    destruct (gt (rainfall w) 15); split; intros H; first [reflexivity|discriminate H].
  - rewrite Iheat. unfold Page.rice_temperature.
    destruct (gt (max (temperature w)) 35); split; intros H;
      first [reflexivity|discriminate H].
  - intros H. apply Iwind in H. unfold Page.cotton_note.
    rewrite (gt_weaker (windSpeed w) 20 15); [reflexivity|lra|exact H].
  - intros H. apply Iheat in H. unfold Page.wheat_conditions, Page.maize_growth.
    rewrite (gt_weaker (max (temperature w)) 35 30); [|lra|exact H].
    rewrite (gt_excludes_lt (max (temperature w)) 35 35); [|lra|exact H].
    split; reflexivity.
  - unfold Page.maize_note, Page.maize_growth.
    destruct (gt (rainfall w) 20) eqn:G; [|discriminate].
    intros _. rewrite (gt_excludes_lt (rainfall w) 20 20); [|lra|exact G].
    rewrite andb_false_r. reflexivity.
Qed.

Lemma crop_impact_agrees_with_advice_witness :
  In "💨 Strong winds expected - secure loose structures"
     (generateFarmingAdvice stormy_day)
  /\ Page.cotton_note stormy_day = " Strong winds may affect flowering.".
Proof.
  assert (H : In "💨 Strong winds expected - secure loose structures"
                 (generateFarmingAdvice stormy_day)).
  { apply In_existsb. vm_compute. reflexivity. }
  split; [exact H|].
  apply (proj1 (proj2 (proj2 (crop_impact_agrees_with_advice stormy_day))) H).
Defined.

(** ** Strings: containment and letter case *)

Import JsString.

Lemma append_assoc (a b c : string) : ((a ++ b) ++ c = a ++ (b ++ c))%string.
Proof. induction a as [|x a IH]; simpl; [reflexivity|now rewrite IH]. Qed.

Lemma prefix_iff (a s : string) :
  prefix a s = true <-> exists post, s = (a ++ post)%string.
Proof.
  revert s. induction a as [|x a IH]; intros s.
  - destruct s; simpl; (split; [intros _; eexists; reflexivity|reflexivity]).
  - destruct s as [|y s]; simpl.
    + split; [discriminate|]. intros [post H]. discriminate H.
    + destruct (ascii_dec x y) as [->|Hne].
      * rewrite IH. split; intros [post H]; exists post; [now rewrite H|].
        now injection H.
      * split; [discriminate|]. intros [post H]. injection H as H _. congruence.
Qed.

Lemma includes_iff (s sub : string) :
  includes s sub = true <-> exists pre post, s = (pre ++ sub ++ post)%string.
Proof.
  induction s as [|c s IH]; cbn [includes].
  - destruct (prefix sub "") eqn:P.
    + split; [|reflexivity]. intros _. apply prefix_iff in P.
      destruct P as [post H]. exists "", post. exact H.
    + split; [discriminate|]. intros [pre [post H]].
      destruct pre; [|discriminate H]. simpl in H.
      assert (prefix sub "" = true) by (apply prefix_iff; exists post; exact H).
      congruence.
  - destruct (prefix sub (String c s)) eqn:P.
    + split; [|reflexivity]. intros _. apply prefix_iff in P.
      destruct P as [post H]. exists "", post. exact H.
    + rewrite IH. split.
      * intros [pre [post H]]. exists (String c pre), post. simpl. now rewrite H.
      * intros [pre [post H]]. destruct pre as [|x pre].
        -- simpl in H.
           assert (prefix sub (String c s) = true)
             by (apply prefix_iff; exists post; exact H).
           congruence.
        -- simpl in H. injection H as _ H. exists pre, post. exact H.
Qed.

Lemma includes_embedded (pre m post k : string) :
  includes m k = true -> includes (pre ++ m ++ post) k = true.
Proof.
  rewrite !includes_iff. intros [a [b H]]. subst m.
  exists (pre ++ a)%string, (b ++ post)%string.
  rewrite !append_assoc. reflexivity.
Qed.


Lemma toLowerCase_app (a b : string) :
  toLowerCase (a ++ b) = (toLowerCase a ++ toLowerCase b)%string.
Proof. induction a as [|x a IH]; simpl; [reflexivity|now rewrite IH]. Qed.

(** ** The assistant *)

Lemma price_answer_iff (m : string) :
  Chatbot.generateBotResponse m = Chatbot.price_answer
  <-> includes (toLowerCase m) "price" || includes (toLowerCase m) "cost" = true.
Proof.
  unfold Chatbot.generateBotResponse.
  destruct (includes (toLowerCase m) "price" || includes (toLowerCase m) "cost");
    [split; reflexivity|].
  split; [|discriminate].
  destruct (includes (toLowerCase m) "weather" || includes (toLowerCase m) "forecast");
    [discriminate|].
  destruct (includes (toLowerCase m) "top" || includes (toLowerCase m) "best"
            || includes (toLowerCase m) "perform"); [discriminate|].
  destruct (includes (toLowerCase m) "sell" || includes (toLowerCase m) "when");
    [discriminate|].
  destruct (includes (toLowerCase m) "hello" || includes (toLowerCase m) "hi"
            || includes (toLowerCase m) "hey"); discriminate.
Qed.

(** X23. The price answer wins over everything around it: a message that
    gets the price answer still gets it when any text is put before and
    after it, whatever other keywords that text holds. *)
Theorem generateBotResponse_price_embedding (m pre post : string) :
  Chatbot.generateBotResponse m = Chatbot.price_answer ->
  Chatbot.generateBotResponse (pre ++ m ++ post) = Chatbot.price_answer.
Proof.
  rewrite !price_answer_iff, !toLowerCase_app, !orb_true_iff.
  intros [H|H]; [left|right]; apply includes_embedded; exact H.
Qed.

Lemma generateBotResponse_price_embedding_witness :
  Chatbot.generateBotResponse "Wheat PRICE" = Chatbot.price_answer
  /\ Chatbot.generateBotResponse ("hello, weather and " ++ "Wheat PRICE" ++ " when?")
     = Chatbot.price_answer.
Proof.
  assert (H : Chatbot.generateBotResponse "Wheat PRICE" = Chatbot.price_answer)
    by reflexivity.
  split; [exact H|].
  apply (generateBotResponse_price_embedding "Wheat PRICE" "hello, weather and "
           " when?" H).
Defined.

Lemma default_answer_iff (m : string) :
  Chatbot.generateBotResponse m = Chatbot.default_answer
  <-> forall k, In k ["price"; "cost"; "weather"; "forecast"; "top"; "best";
                      "perform"; "sell"; "when"; "hello"; "hi"; "hey"] ->
                includes (toLowerCase m) k = false.
Proof.
  unfold Chatbot.generateBotResponse.
  destruct (includes (toLowerCase m) "price") eqn:K1;
    [split; [discriminate|intros H; rewrite (H "price") in K1;
                          [discriminate|simpl; tauto]]|].
  destruct (includes (toLowerCase m) "cost") eqn:K2;
    [split; [discriminate|intros H; rewrite (H "cost") in K2;
                          [discriminate|simpl; tauto]]|].
  destruct (includes (toLowerCase m) "weather") eqn:K3;
    [split; [discriminate|intros H; rewrite (H "weather") in K3;
                          [discriminate|simpl; tauto]]|].
  destruct (includes (toLowerCase m) "forecast") eqn:K4;
    [split; [discriminate|intros H; rewrite (H "forecast") in K4;
                          [discriminate|simpl; tauto]]|].
  destruct (includes (toLowerCase m) "top") eqn:K5;
    [split; [discriminate|intros H; rewrite (H "top") in K5;
                          [discriminate|simpl; tauto]]|].
  destruct (includes (toLowerCase m) "best") eqn:K6;
    [split; [discriminate|intros H; rewrite (H "best") in K6;
                          [discriminate|simpl; tauto]]|].
  destruct (includes (toLowerCase m) "perform") eqn:K7;
    [split; [discriminate|intros H; rewrite (H "perform") in K7;
                          [discriminate|simpl; tauto]]|].
  destruct (includes (toLowerCase m) "sell") eqn:K8;
    [split; [discriminate|intros H; rewrite (H "sell") in K8;
                          [discriminate|simpl; tauto]]|].
  destruct (includes (toLowerCase m) "when") eqn:K9;
    [split; [discriminate|intros H; rewrite (H "when") in K9;
                          [discriminate|simpl; tauto]]|].
  destruct (includes (toLowerCase m) "hello") eqn:K10;
    [split; [discriminate|intros H; rewrite (H "hello") in K10;
                          [discriminate|simpl; tauto]]|].
  destruct (includes (toLowerCase m) "hi") eqn:K11;
    [split; [discriminate|intros H; rewrite (H "hi") in K11;
                          [discriminate|simpl; tauto]]|].
  destruct (includes (toLowerCase m) "hey") eqn:K12;
    [split; [discriminate|intros H; rewrite (H "hey") in K12;
                          [discriminate|simpl; tauto]]|].
  split; [|reflexivity]. intros _ k Hk. simpl in Hk.
  repeat (destruct Hk as [<-|Hk]; [assumption|]). destruct Hk.
Qed.

(** X24. The fallback answer means that none of the twelve keywords occurs
    in the lower-cased message, so every part of a message answered with
    the fallback is answered with the fallback too. *)
Theorem generateBotResponse_default_parts (m pre post : string) :
  Chatbot.generateBotResponse (pre ++ m ++ post) = Chatbot.default_answer ->
  Chatbot.generateBotResponse m = Chatbot.default_answer
  /\ forall k, In k ["price"; "cost"; "weather"; "forecast"; "top"; "best";
                     "perform"; "sell"; "when"; "hello"; "hi"; "hey"] ->
               includes (toLowerCase (pre ++ m ++ post)) k = false.
Proof.
  rewrite !default_answer_iff. intros H. split; [|exact H].
  intros k Hk. specialize (H k Hk).
  destruct (includes (toLowerCase m) k) eqn:E; [|reflexivity].
  rewrite !toLowerCase_app in H.
  rewrite (includes_embedded _ _ _ _ E) in H. discriminate H.
Qed.

Lemma generateBotResponse_default_parts_witness :
  Chatbot.generateBotResponse ("soil " ++ "pH" ++ " range") = Chatbot.default_answer
  /\ Chatbot.generateBotResponse "pH" = Chatbot.default_answer.
Proof.
  assert (H : Chatbot.generateBotResponse ("soil " ++ "pH" ++ " range")
              = Chatbot.default_answer) by reflexivity.
  split; [exact H|].
  apply (proj1 (generateBotResponse_default_parts "pH" "soil " " range" H)).
Defined.

(** ** The price dashboard *)



Lemma month_name_defined (k : Z) :
  (0 <= k < 12)%Z -> exists name, element_at Dashboard.monthNames k = Some name.
Proof.
  intros Hk. unfold element_at.
  destruct (Z.ltb_spec k 0) as [Hneg|_]; [lia|].
  assert (Hi : (Z.to_nat k < 12)%nat) by lia.
  destruct (nth_error Dashboard.monthNames (Z.to_nat k)) as [name|] eqn:E.
  - exists name. reflexivity.
  - apply nth_error_None in E. simpl in E. lia.
Qed.

Lemma month_loop_spec (currentYear startMonth : Z) (remaining : nat) :
  forall (i : Z) (labels : list string),
    List.length (Dashboard.month_loop currentYear startMonth remaining i labels)
    = (List.length labels + remaining)%nat
    /\ (forall j, (j < List.length labels)%nat ->
          nth_error (Dashboard.month_loop currentYear startMonth remaining i labels) j
          = nth_error labels j)
    /\ (forall j, (j < remaining)%nat ->
          nth_error (Dashboard.month_loop currentYear startMonth remaining i labels)
                    (List.length labels + j)
          = Some (to_key (element_at Dashboard.monthNames
                            (Z.rem (startMonth - 1 + (i + Z.of_nat j)) 12))
                  ++ " "
                  ++ show_number (currentYear
                                  + (startMonth - 1 + (i + Z.of_nat j)) / 12))%string).
Proof.
  induction remaining as [|k IH]; intros i labels; cbn [Dashboard.month_loop].
  - split; [lia|]. split; [reflexivity|]. intros j Hj. lia.
  - match goal with
    | |- context [Dashboard.month_loop _ _ k (i + 1)%Z ?acc] =>
        destruct (IH (i + 1)%Z acc) as [L [Old New]]
    end.
    rewrite length_app in L, Old, New. cbn [List.length] in L, Old, New.
    split; [rewrite L; lia|]. split.
    + intros j Hj. rewrite Old by lia. apply nth_error_app1. exact Hj.
    + intros j Hj. destruct j as [|j].
      * rewrite Nat.add_0_r, Old by lia.
        rewrite nth_error_app2 by lia. rewrite Nat.sub_diag.
        cbn [nth_error Z.of_nat]. rewrite Z.add_0_r. reflexivity.
      * replace (List.length labels + S j)%nat
          with (List.length labels + 1 + j)%nat by lia.
        rewrite New by lia.
        replace (i + 1 + Z.of_nat j)%Z with (i + Z.of_nat (S j))%Z by lia.
        reflexivity.
Qed.

(** X26. For a start month between 1 and 12 the chart gets one label per
    predicted price, each made of a real month name and a year, and the
    labels walk through the calendar month by month from the start month
    of the current year: label [i] is month [(m - 1 + i) mod 12] of year
    [currentYear + (m - 1 + i) / 12]. *)
Theorem generateMonthLabels_calendar (currentYear startMonth : Z) (count : nat) :
  (1 <= startMonth <= 12)%Z ->
  List.length (Dashboard.generateMonthLabels currentYear startMonth count) = count
  /\ forall i, (i < count)%nat ->
       exists (name : string) (monthIndex year : Z),
         nth_error (Dashboard.generateMonthLabels currentYear startMonth count) i
         = Some (name ++ " " ++ show_number year)%string
         /\ (0 <= monthIndex < 12)%Z
         /\ nth_error Dashboard.monthNames (Z.to_nat monthIndex) = Some name
         /\ (12 * year + monthIndex
             = 12 * currentYear + (startMonth - 1) + Z.of_nat i)%Z.
Proof.
  intros Hm. unfold Dashboard.generateMonthLabels.
  destruct (month_loop_spec currentYear startMonth count 0 []) as [L [_ New]].
  split; [exact L|].
  intros i Hi. specialize (New i Hi). cbn [List.length Nat.add] in New.
  set (k := (startMonth - 1 + (0 + Z.of_nat i))%Z) in *.
  assert (Hk : (0 <= k)%Z) by (unfold k; lia).
  assert (Hrem : Z.rem k 12 = (k mod 12)%Z) by (apply Z.rem_mod_nonneg; lia).
  assert (Hmod : (0 <= k mod 12 < 12)%Z) by (apply Z.mod_pos_bound; lia).
  destruct (month_name_defined (k mod 12) Hmod) as [name Hname].
  exists name, (k mod 12)%Z, (currentYear + k / 12)%Z.
  rewrite New, Hrem, Hname. split; [reflexivity|]. split; [exact Hmod|]. split.
  - unfold element_at in Hname.
    destruct (Z.ltb_spec (k mod 12) 0) as [Hneg|_]; [lia|exact Hname].
  - pose proof (Z.div_mod k 12 ltac:(lia)) as Hdm. unfold k in *. lia.
Qed.

Lemma generateMonthLabels_calendar_witness :
  (1 <= 11 <= 12)%Z
  /\ Dashboard.generateMonthLabels 2026 11 4
     = ["Nov 2026"; "Dec 2026"; "Jan 2027"; "Feb 2027"]
  /\ List.length (Dashboard.generateMonthLabels 2026 11 4) = 4%nat.
Proof.
  assert (H : (1 <= 11 <= 12)%Z) by lia.
  split; [exact H|]. split; [reflexivity|].
  apply (proj1 (generateMonthLabels_calendar 2026 11 4 H)).
Defined.

(** X27. The table "Detailed Forecast" and the chart do not label the
    same point alike: for a start month between 1 and 12, row [i] of the
    table carries the month name that the chart gives to point [i + 1],
    one month later than the chart's label for point [i], and the table
    moves to the next year only once start month plus index exceeds 12. *)
Theorem row_month_is_one_ahead
    (currentYear clockMonth startMonth : Z) (count i : nat) :
  (1 <= startMonth <= 12)%Z ->
  (S i < count)%nat ->
  exists (name : string) (year : Z),
    Dashboard.row_month (Some startMonth) (Z.of_nat i) = Some name
    /\ nth_error (Dashboard.chart_labels currentYear clockMonth (Some startMonth) count)
                 (S i)
       = Some (name ++ " " ++ show_number year)%string
    /\ (Dashboard.row_year currentYear (Some startMonth) (Z.of_nat i) = currentYear
        <-> (startMonth + Z.of_nat i <= 12)%Z)
    /\ (Dashboard.row_year currentYear (Some startMonth) (Z.of_nat i)
        = (currentYear + 1)%Z
        <-> (12 < startMonth + Z.of_nat i)%Z).
Proof.
  intros Hm Hi.
  assert (Hor : forall d, or_number (Some startMonth) d = startMonth).
  { intros d. unfold or_number. destruct startMonth; try reflexivity. lia. }
  unfold Dashboard.row_month, Dashboard.row_year, Dashboard.chart_labels.
  rewrite !Hor. unfold Dashboard.generateMonthLabels.
  destruct (month_loop_spec currentYear startMonth count 0 []) as [_ [_ New]].
  specialize (New (S i) Hi). cbn [List.length Nat.add] in New.
  replace (startMonth - 1 + (0 + Z.of_nat (S i)))%Z
    with (startMonth + Z.of_nat i)%Z in New by lia.
  set (k := (startMonth + Z.of_nat i)%Z) in *.
  assert (Hk : (0 <= k)%Z) by (unfold k; lia).
  assert (Hrem : Z.rem k 12 = (k mod 12)%Z) by (apply Z.rem_mod_nonneg; lia).
  assert (Hmod : (0 <= k mod 12 < 12)%Z) by (apply Z.mod_pos_bound; lia).
  rewrite Hrem in *.
  destruct (month_name_defined (k mod 12) Hmod) as [name Hname].
  exists name, (currentYear + k / 12)%Z.
  rewrite New, Hname. split; [reflexivity|]. split; [reflexivity|].
  destruct (Z.ltb_spec 12 k); split; lia.
Qed.

Lemma row_month_is_one_ahead_witness :
  ((1 <= 11 <= 12)%Z /\ (2 < 4)%nat)
  /\ exists (name : string) (year : Z),
       Dashboard.row_month (Some 11%Z) (Z.of_nat 1) = Some name
       /\ nth_error (Dashboard.chart_labels 2026 10 (Some 11%Z) 4) 2
          = Some (name ++ " " ++ show_number year)%string
       /\ (Dashboard.row_year 2026 (Some 11%Z) (Z.of_nat 1) = 2026%Z
           <-> (11 + Z.of_nat 1 <= 12)%Z)
       /\ (Dashboard.row_year 2026 (Some 11%Z) (Z.of_nat 1) = (2026 + 1)%Z
           <-> (12 < 11 + Z.of_nat 1)%Z).
Proof.
  split; [split; lia|].
  apply (row_month_is_one_ahead 2026 10 11 4 1); lia.
Defined.

(** ** The daily invariant on the live path *)

Lemma rain_or_zero_nonneg (r : option Rain) (key : Rain -> option Q) :
  (forall o q, r = Some o -> key o = Some q -> 0 <= q) ->
  0 <= rain_or_zero r key.
Proof.
  intros H. unfold rain_or_zero. destruct r as [o|]; [|apply Qle_refl].
  destruct (key o) as [q|] eqn:E; [|apply Qle_refl].
  apply (H o q eq_refl E).
Qed.

Lemma rounded_nonneg (q : Q) : 0 <= q -> ge (Math_round (Num q)) (Num 0) = true.
Proof.
  intros H. simpl. apply Qle_bool_iff.
  assert (Hz : (0 <= round q)%Z) by (apply round_lower; exact H).
  rewrite Zle_Qle in Hz. exact Hz.
Qed.

(** X28. When the provider's numbers are sound (the current maximum is not
    below the current minimum and no rainfall amount is negative), every
    day of the forecast array of a live report has a maximum that is not
    below its minimum and a rainfall that is not negative. *)
Theorem live_forecast_invariant
    (env : Env) (data : CurrentData) (items : list ForecastItem) :
  main_temp_min data <= main_temp_max data ->
  (forall o q, rain data = Some o -> rain_1h o = Some q -> 0 <= q) ->
  (forall item o q, In item items ->
     item_rain item = Some o -> rain_3h o = Some q -> 0 <= q) ->
  forall d, In d (forecast_of env (current_of env data) items) ->
    ge (max (temperature d)) (min (temperature d)) = true
    /\ ge (rainfall d) (Num 0) = true.
Proof.
  intros Htemp Hrain Hitems d Hd.
  assert (Hcur : ge (max (temperature (current_of env data)))
                    (min (temperature (current_of env data))) = true
                 /\ ge (rainfall (current_of env data)) (Num 0) = true).
  { unfold current_of. cbn [temperature max min rainfall]. split.
    - simpl. apply Qle_bool_iff. rewrite <- Zle_Qle. apply round_mono, Htemp.
    - assert (Hz : 0 <= rain_or_zero (rain data) rain_1h).
      { apply rain_or_zero_nonneg. intros o q Ho Hq. apply (Hrain o q Ho Hq). }
      destruct (rain data) as [o|]; [|reflexivity].
      apply rounded_nonneg, Hz. }
  unfold forecast_of in Hd.
  destruct (map summarize (firstn 7 (map snd (group_by_day env items))))
    as [|d0 rest] eqn:Emap; [destruct Hd|].
  destruct Hd as [<-|Hd]; [exact Hcur|].
  assert (Hin : In d (map summarize (firstn 7 (map snd (group_by_day env items))))).
  { rewrite Emap. now right. }
  apply in_map_iff in Hin. destruct Hin as [b [<- Hb]].
  assert (Hb' : In b (map snd (group_by_day env items))).
  { revert Hb. generalize (map snd (group_by_day env items)) 7%nat.
    intros l n. revert l. induction n as [|n IH]; intros [|x l]; simpl;
      try tauto. intros [H|H]; [now left|right; apply IH, H]. }
  apply in_map_iff in Hb'. destruct Hb' as [[k b'] [Ek Hkb]]. simpl in Ek. subst b'.
  destruct (group_fold env items [] []) as [_ [_ C]].
  - constructor.
  - intros k'. simpl. split; [tauto|]. intros [it [[] _]].
  - intros k' b' [].
  - specialize (C k b Hkb). cbn [app] in C. unfold holds in C.
    destruct (samples_of env k items) as [|first others] eqn:Es; [destruct C|].
    destruct C as [_ [_ [Ct [_ [Cr _]]]]].
    split.
    + apply summarize_max_ge_min. rewrite Ct. discriminate.
    + apply summarize_rainfall_nonneg. intros r Hr. rewrite Cr in Hr.
      apply in_map_iff in Hr. destruct Hr as [it [<- Hit]].
      apply rain_or_zero_nonneg. intros o q Ho Hq.
      apply (Hitems it o q); [|exact Ho|exact Hq].
      assert (Hin : In it (samples_of env k items)) by (rewrite Es; exact Hit).
      unfold samples_of in Hin. apply filter_In in Hin. tauto.
Qed.

Lemma live_forecast_invariant_witness :
  (main_temp_min clear_now <= main_temp_max clear_now
   /\ (forall o q, rain clear_now = Some o -> rain_1h o = Some q -> 0 <= q)
   /\ (forall item o q,
         In item [clear_item 0 24; clear_item 10800 27; clear_item 86400 26] ->
         item_rain item = Some o -> rain_3h o = Some q -> 0 <= q))
  /\ forall d,
       In d (forecast_of online (current_of online clear_now)
               [clear_item 0 24; clear_item 10800 27; clear_item 86400 26]) ->
       ge (max (temperature d)) (min (temperature d)) = true
       /\ ge (rainfall d) (Num 0) = true.
Proof.
  assert (H1 : main_temp_min clear_now <= main_temp_max clear_now)
    by (vm_compute; discriminate).
  assert (H2 : forall o q, rain clear_now = Some o -> rain_1h o = Some q -> 0 <= q)
    by (intros o q H; discriminate H).
  assert (H3 : forall item o q,
             In item [clear_item 0 24; clear_item 10800 27; clear_item 86400 26] ->
             item_rain item = Some o -> rain_3h o = Some q -> 0 <= q).
  { intros item o q [<-|[<-|[<-|[]]]] H; discriminate H. }
  split; [split; [exact H1|split; [exact H2|exact H3]]|].
  apply (live_forecast_invariant online clear_now
           [clear_item 0 24; clear_item 10800 27; clear_item 86400 26] H1 H2 H3).
Defined.
